(** * ASTra analysis engine: tree walker, analyzers, coordinator and metrics

    A shallow embedding of the TypeScript sources
      backend/src/parsers/ast-traverser.ts
      backend/src/analyzers/{base,security,complexity,code-quality}-analyzer.ts
      backend/src/analyzers/analyzer-coordinator.ts
      backend/src/api/analysis-service.ts
    followed by the properties proved about them.

    Conventions of the embedding.
    - A syntax tree is a JavaScript value.  The three fields that the
      [ASTNode] interface types ([type], [loc], [range]) are typed fields of
      an object; every other property ([[key: string]: any]) is kept in an
      ordered property list, in [for ... in] enumeration order.
    - Closures that mutate captured variables become state-passing functions;
      the captured variables are the state.
    - A JavaScript exception (in this code: a [TypeError] raised by calling a
      method on a value that does not have it, or by reading a property of
      [null]/[undefined]) is the result [None].
    - The numbers held by a tree and the numbers the code counts with are
      integers ([Z]); averages and the scores derived from them are exact
      rationals ([Q]).
    - Strings are sequences of 8-bit characters; case mapping and the
      case-insensitive regular expressions act on ASCII letters. *)

From Stdlib Require Import ZArith List String Ascii Bool Lia QArith Qround Lqa DecimalString.
Import ListNotations.
Open Scope Z_scope.
Open Scope list_scope.

Set Implicit Arguments.

(** ** JavaScript values *)

Module JS.

(** [SourceLocation] and [SourceRange] of shared/src/types/common.ts. *)
Record SourceLocation := { line : Z; column : Z }.
Record SourceRange := { start : SourceLocation; end_ : SourceLocation }.

Unset Elimination Schemes.
Inductive value : Type :=
| VUndefined
| VNull
| VBool (b : bool)
| VNum (n : Z)
| VStr (s : string)
| VArr (elems : list value)
| VObj (type : option string) (loc : option SourceRange)
       (range : option (Z * Z)) (props : list (string * value)).
Set Elimination Schemes.

(** [ASTNode] of base-parser.ts: any value may stand where the code expects
    a node, as in the source, where the fields of a node are [any]. *)
Definition ASTNode := value.

Definition dquote : string := String "034"%char EmptyString.
Definition newline : string := String "010"%char EmptyString.

(** Template literals: the pieces are concatenated. *)
Definition template (pieces : list string) : string :=
  String.concat EmptyString pieces.

(** ToBoolean. *)
Definition truthy (v : value) : bool :=
  match v with
  | VUndefined | VNull => false
  | VBool b => b
  | VNum n => negb (n =? 0)
  | VStr s => negb (String.eqb s EmptyString)
  | VArr _ | VObj _ _ _ _ => true
  end.

Definition nullish (v : value) : bool :=
  match v with VUndefined | VNull => true | _ => false end.

Definition is_object (v : value) : bool :=
  match v with VArr _ | VObj _ _ _ _ => true | _ => false end.

Fixpoint lookup {A} (key : string) (l : list (string * A)) : option A :=
  match l with
  | [] => None
  | (k, a) :: l' => if String.eqb k key then Some a else lookup key l'
  end.

(** *** Strings *)

Definition toUpperCase_char (c : ascii) : ascii :=
  let n := nat_of_ascii c in
  if ((97 <=? n) && (n <=? 122))%nat then ascii_of_nat (n - 32) else c.

Fixpoint toUpperCase (s : string) : string :=
  match s with
  | EmptyString => EmptyString
  | String c s' => String (toUpperCase_char c) (toUpperCase s')
  end.

(** [s.includes(sub)] *)
Fixpoint includes (sub s : string) : bool :=
  String.prefix sub s ||
  match s with
  | EmptyString => false
  | String _ s' => includes sub s'
  end.

(** [s.startsWith(p)] *)
Definition startsWith (p s : string) : bool := String.prefix p s.

(** [s.split('\n')]: the lines of [s]; never empty. *)
Fixpoint split_newline (s : string) : list string :=
  match s with
  | EmptyString => [EmptyString]
  | String c s' =>
      if Ascii.eqb c "010"%char then EmptyString :: split_newline s'
      else match split_newline s' with
           | [] => [String c EmptyString]
           | l :: ls => String c l :: ls
           end
  end.

(** [lines.join('\n')] *)
Definition join_newline (lines : list string) : string :=
  String.concat newline lines.

(** [Array.prototype.slice(from, to)] with its relative (negative) indices. *)
Definition slice {A} (from to : Z) (l : list A) : list A :=
  let len := Z.of_nat (List.length l) in
  let k := if from <? 0 then Z.max (len + from) 0 else Z.min from len in
  let final := if to <? 0 then Z.max (len + to) 0 else Z.min to len in
  firstn (Z.to_nat (final - k)) (skipn (Z.to_nat k) l).

(** [s.substring(a, b)]: both ends clamped to the string, swapped if out
    of order. *)
Definition substring (a b : Z) (s : string) : string :=
  let len := Z.of_nat (String.length s) in
  let a' := Z.min (Z.max a 0) len in
  let b' := Z.min (Z.max b 0) len in
  let from := Z.min a' b' in
  let to := Z.max a' b' in
  String.substring (Z.to_nat from) (Z.to_nat (to - from)) s.

Definition is_space (c : ascii) : bool :=
  let n := nat_of_ascii c in
  ((9 <=? n) && (n <=? 13) || (n =? 32))%nat.

Fixpoint trimStart (s : string) : string :=
  match s with
  | String c s' => if is_space c then trimStart s' else s
  | EmptyString => EmptyString
  end.

Fixpoint trimEnd (s : string) : string :=
  match s with
  | EmptyString => EmptyString
  | String c s' =>
      match trimEnd s' with
      | EmptyString => if is_space c then EmptyString else String c EmptyString
      | t => String c t
      end
  end.

(** [s.trim()] *)
Definition trim (s : string) : string := trimEnd (trimStart s).

Definition is_alnum (c : ascii) : bool :=
  let n := nat_of_ascii c in
  ((48 <=? n) && (n <=? 57) || (65 <=? n) && (n <=? 90) || (97 <=? n) && (n <=? 122))%nat.

Fixpoint all_chars (p : ascii -> bool) (s : string) : bool :=
  match s with
  | EmptyString => true
  | String c s' => p c && all_chars p s'
  end.

Definition string_of_Z (n : Z) : string :=
  NilZero.string_of_int (Z.to_int n).

Definition string_of_nat (n : nat) : string :=
  NilZero.string_of_uint (Nat.to_uint n).

(** [String(v)], the conversion a template literal applies (integers in
    plain decimal notation). *)
Fixpoint to_string (v : value) : string :=
  match v with
  | VUndefined => "undefined"
  | VNull => "null"
  | VBool b => if b then "true" else "false"
  | VNum n => string_of_Z n
  | VStr s => s
  | VArr elems =>
      (fix join (first : bool) (l : list value) {struct l} : string :=
         match l with
         | [] => EmptyString
         | x :: l' =>
             String.append (if first then EmptyString else ",")
               (String.append
                  (match x with
                   | VUndefined | VNull => EmptyString
                   | _ => to_string x
                   end)
                  (join false l'))
         end) true elems
  | VObj _ _ _ _ => "[object Object]"
  end%string.

(** The number that a string converts to, for the strings that are plain
    decimal integers; the empty string converts to 0.  [None] stands for
    [NaN]. *)
Definition number_of_string (s : string) : option Z :=
  match s with
  | EmptyString => Some 0
  | String "+" digits =>
      match NilZero.uint_of_string digits with
      | Some d => Some (Z.of_uint d)
      | None => None
      end
  | _ =>
      match NilZero.int_of_string s with
      | Some d => Some (Z.of_int d)
      | None => None
      end
  end.

(** [v > k] for a number [k]: the operand is converted to a number, an array
    through its string; [undefined] and a plain object give [NaN], which
    compares false. *)
Definition gt (v : value) (k : Z) : bool :=
  let above (n : option Z) :=
    match n with Some n => k <? n | None => false end in
  match v with
  | VNum n => k <? n
  | VBool b => k <? (if b then 1 else 0)
  | VNull => k <? 0
  | VStr s => above (number_of_string s)
  | VArr _ => above (number_of_string (to_string v))
  | VUndefined | VObj _ _ _ _ => false
  end.

(** [v === k] for a number [k]. *)
Definition is_num (k : Z) (v : value) : bool :=
  match v with VNum n => n =? k | _ => false end.

(** [a || b] *)
Definition or (a b : value) : value := if truthy a then a else b.

Definition index_of_key (key : string) : option nat :=
  match NilZero.uint_of_string key with
  | Some d => if String.eqb (NilZero.string_of_uint d) key
              then Some (Nat.of_uint d) else None
  | None => None
  end.

Definition loc_value (p : SourceLocation) : value :=
  VObj None None None [("line"%string, VNum (line p)); ("column"%string, VNum (column p))].

(** [v.key] on a value that is neither [null] nor [undefined]. *)
Definition get (key : string) (v : value) : value :=
  match v with
  | VObj ty loc range props =>
      if String.eqb key "type" then
        match ty with Some s => VStr s | None => VUndefined end
      else if String.eqb key "loc" then
        match loc with
        | Some r => VObj None None None
                      [("start"%string, loc_value (start r));
                       ("end"%string, loc_value (end_ r))]
        | None => VUndefined
        end
      else if String.eqb key "range" then
        match range with
        | Some (a, b) => VArr [VNum a; VNum b]
        | None => VUndefined
        end
      else match lookup key props with Some x => x | None => VUndefined end
  | VArr elems =>
      if String.eqb key "length" then VNum (Z.of_nat (List.length elems))
      else match index_of_key key with
           | Some i => nth i elems VUndefined
           | None => VUndefined
           end
  | VStr s =>
      if String.eqb key "length" then VNum (Z.of_nat (String.length s))
      else match index_of_key key with
           | Some i => match String.get i s with
                       | Some c => VStr (String c EmptyString)
                       | None => VUndefined
                       end
           | None => VUndefined
           end
  | _ => VUndefined
  end.

(** [v.key] where [v] may be [null] or [undefined]: a [TypeError] then. *)
Definition member (key : string) (v : value) : option value :=
  if nullish v then None else Some (get key v).

(** [v?.key]. *)
Definition get_opt (key : string) (v : value) : value :=
  if nullish v then VUndefined else get key v.

(** [node.type], [node.loc], [node.range] through their declared types. *)
Definition type_of (v : value) : option string :=
  match v with VObj ty _ _ _ => ty | _ => None end.

Definition loc_of (v : value) : option SourceRange :=
  match v with VObj _ loc _ _ => loc | _ => None end.

Definition range_of (v : value) : option (Z * Z) :=
  match v with VObj _ _ range _ => range | _ => None end.

(** [v.type === name] *)
Definition has_type (name : string) (v : value) : bool :=
  match type_of v with Some s => String.eqb s name | None => false end.

(** [v.type] used as a condition. *)
Definition type_truthy (v : value) : bool :=
  match type_of v with
  | Some s => negb (String.eqb s EmptyString)
  | None => false
  end.

(** [v === s] for a string [s]. *)
Definition is_str (s : string) (v : value) : bool :=
  match v with VStr s' => String.eqb s' s | _ => false end.

(** [list.includes(v)] for an array literal of strings. *)
Definition includes_str (l : list string) (v : value) : bool :=
  existsb (fun s => is_str s v) l.

End JS.
Export JS.

Notation "v @. k" := (get k v) (at level 8, left associativity, k at level 0).
Notation "v @? k" := (get_opt k v) (at level 8, left associativity, k at level 0).

Notation "x <- c ;; k" := (match c with Some x => k | None => None end)
  (at level 61, c at next level, right associativity).
Notation "' p <- c ;; k" := (match c with Some p => k | None => None end)
  (at level 61, p pattern, c at next level, right associativity).

(** ** parsers/ast-traverser.ts *)

Module ASTTraverser.

Section Walk.
Variable St : Type.

(** A visitor callback.  It receives the node, the parent ([None] for
    [null]) and the path of [type] tags from the root; it runs on the
    variables its closure captured (the state) and the boolean it yields
    tells whether its return value was exactly [false]. *)
Definition VisitorFunction : Type :=
  ASTNode -> option ASTNode -> list (option string) -> St -> option (St * bool).

Inductive VisitorEntry : Type :=
| Fn (f : VisitorFunction)
| Hooks (enter exit : option VisitorFunction).

(** A visitor maps a node type to its entry, if it has one. *)
Definition Visitor : Type := string -> option VisitorEntry.

(** The visitor written as an object literal. *)
Definition object (entries : list (string * VisitorEntry)) : Visitor :=
  fun key => lookup key entries.

(** [visitor[node.type]]: an absent [type] reads the key "undefined". *)
Definition type_key (ty : option string) : string :=
  match ty with Some s => s | None => "undefined"%string end.

Definition ignoreKeys : list string :=
  ["loc"; "range"; "start"; "end"; "type"; "comments"; "leadingComments";
   "trailingComments"; "innerComments"; "extra"; "tokens"]%string.

Definition ignored (key : string) : bool :=
  existsb (String.eqb key) ignoreKeys.

Definition call_enter (visitorFn : option VisitorEntry)
    (node : ASTNode) (parent : option ASTNode) (currentPath : list (option string))
    (s : St) : option (St * bool) :=
  match visitorFn with
  | Some (Fn f) => f node parent currentPath s
  | Some (Hooks (Some enter) _) => enter node parent currentPath s
  | _ => Some (s, false)
  end.

Definition call_wildcard (visitor : Visitor)
    (node : ASTNode) (parent : option ASTNode) (currentPath : list (option string))
    (s : St) : option St :=
  match visitor "*"%string with
  | Some (Fn w) => '(s', _) <- w node parent currentPath s ;; Some s'
  | _ => Some s
  end.

Definition call_exit (visitorFn : option VisitorEntry)
    (node : ASTNode) (parent : option ASTNode) (currentPath : list (option string))
    (s : St) : option St :=
  match visitorFn with
  | Some (Hooks _ (Some exit)) => '(s', _) <- exit node parent currentPath s ;; Some s'
  | _ => Some s
  end.

(** The part of [traverse] around the descent; [descend] is the call of
    [traverseChildren]. *)
Definition visit (visitor : Visitor) (node : ASTNode) (parent : option ASTNode)
    (path : list (option string))
    (descend : list (option string) -> St -> option St) (s : St) : option St :=
  let currentPath := path ++ [type_of node] in
  let visitorFn := visitor (type_key (type_of node)) in
  '(s1, shouldSkip) <- call_enter visitorFn node parent currentPath s ;;
  s2 <- call_wildcard visitor node parent currentPath s1 ;;
  s3 <- (if shouldSkip then Some s2 else descend currentPath s2) ;;
  call_exit visitorFn node parent currentPath s3.

(** [traverseChildren], with the recursive call [this.traverse(child,
    visitor, node, path)] as the parameter [walk].  The keys of an array
    are its indices, none of which is ignored. *)
Definition traverseChildren (walk : ASTNode -> St -> option St)
    (node : ASTNode) (s : St) : option St :=
  let over_value (value : value) (s : St) : option St :=
    match value with
    | VArr arr =>
        (fix over_array (l : list JS.value) (s : St) {struct l} : option St :=
           match l with
           | [] => Some s
           | child :: l' =>
               s' <- (if is_object child && type_truthy child
                      then walk child s else Some s) ;;
               over_array l' s'
           end) arr s
    | VObj _ _ _ _ => if type_truthy value then walk value s else Some s
    | _ => Some s
    end in
  match node with
  | VObj _ _ _ props =>
      (fix over_props (ps : list (string * JS.value)) (s : St) {struct ps} : option St :=
         match ps with
         | [] => Some s
         | (key, value) :: ps' =>
             s' <- (if ignored key then Some s else over_value value s) ;;
             over_props ps' s'
         end) props s
  | VArr elems =>
      (fix over_elems (vs : list JS.value) (s : St) {struct vs} : option St :=
         match vs with
         | [] => Some s
         | value :: vs' =>
             s' <- over_value value s ;;
             over_elems vs' s'
         end) elems s
  | _ => Some s
  end.

Fixpoint traverse (visitor : Visitor) (node : ASTNode) (parent : option ASTNode)
    (path : list (option string)) (s : St) {struct node} : option St :=
  match node with
  | VObj _ _ _ _ | VArr _ =>
      visit visitor node parent path
        (fun currentPath =>
           traverseChildren
             (fun child => traverse visitor child (Some node) currentPath) node) s
  | _ => Some s
  end.

End Walk.

Arguments Fn {St} f.
Arguments Hooks {St} enter exit.

(** [findNodes]; the state is the array [found]. *)
Definition findNodes (ast : ASTNode) (nodeType : string) : option (list ASTNode) :=
  let found := [] in
  traverse
    (object [ (nodeType, Fn (fun node _ _ found => Some (found ++ [node], false))) ])
    ast None [] found.

(** [findNode]; the state is [result], [None] standing for [null].  The
    callback returns [false] once a node is found. *)
Definition findNode (ast : ASTNode) (predicate : ASTNode -> bool) : option (option ASTNode) :=
  let result := None in
  traverse
    (object
       [ ("*"%string,
           Fn (fun node _ _ result =>
                 match result with
                 | Some _ => Some (result, true)
                 | None =>
                     if predicate node then Some (Some node, true)
                     else Some (None, false)
                 end)) ])
    ast None [] result.

End ASTTraverser.

(** ** shared/src/types: common.ts and issues.ts *)

Inductive Severity := ERROR | WARNING | INFO.

Inductive IssueCategory :=
  SECURITY | COMPLEXITY | CODE_SMELL | BUG | PERFORMANCE | BEST_PRACTICE | STYLE.

Definition IssueCategory_eqb (a b : IssueCategory) : bool :=
  match a, b with
  | SECURITY, SECURITY | COMPLEXITY, COMPLEXITY | CODE_SMELL, CODE_SMELL
  | BUG, BUG | PERFORMANCE, PERFORMANCE | BEST_PRACTICE, BEST_PRACTICE
  | STYLE, STYLE => true
  | _, _ => false
  end.

Inductive Language := JAVASCRIPT | TYPESCRIPT | PYTHON | UNKNOWN.

(** [Issue], with the fields that [SecurityIssue] and [ComplexityIssue] add:
    in the source these are assigned on the same object after a cast, so they
    are optional fields of one record here. *)
Record Issue := {
  id : string;
  ruleId : string;
  message : string;
  severity : Severity;
  category : IssueCategory;
  location : SourceRange;
  filePath : string;
  codeSnippet : option string;
  suggestions : option (list string);
  vulnerability : option string;
  cwe : option string;
  owasp : option string;
  complexityScore : option Z;
  threshold : option Z
}.

(** [Partial<Issue>], the [options] argument of [createIssue]. *)
Record PartialIssue := {
  opt_id : option string;
  opt_ruleId : option string;
  opt_message : option string;
  opt_severity : option Severity;
  opt_category : option IssueCategory;
  opt_location : option SourceRange;
  opt_filePath : option string;
  opt_codeSnippet : option string;
  opt_suggestions : option (list string)
}.

(** The object literal [{ codeSnippet, suggestions }] and [{ suggestions }]. *)
Definition snippet_and_suggestions (snippet : string) (sugg : list string) : PartialIssue :=
  {| opt_id := None; opt_ruleId := None; opt_message := None; opt_severity := None;
     opt_category := None; opt_location := None; opt_filePath := None;
     opt_codeSnippet := Some snippet; opt_suggestions := Some sugg |}.

Definition only_suggestions (sugg : list string) : PartialIssue :=
  {| opt_id := None; opt_ruleId := None; opt_message := None; opt_severity := None;
     opt_category := None; opt_location := None; opt_filePath := None;
     opt_codeSnippet := None; opt_suggestions := Some sugg |}.

Definition no_options : PartialIssue :=
  {| opt_id := None; opt_ruleId := None; opt_message := None; opt_severity := None;
     opt_category := None; opt_location := None; opt_filePath := None;
     opt_codeSnippet := None; opt_suggestions := None |}.

(** [ParseResult] of base-parser.ts. *)
Record ParseResult := {
  ast : ASTNode;
  language : Language;
  sourceCode : string;
  pr_filePath : string
}.

(** ** analyzers/base-analyzer.ts *)

Module BaseAnalyzer.

(** [AnalyzerContext]: [issues] is the coordinator's list, which each
    analyzer sees as it stands when the analyzer is called. *)
Record AnalyzerContext := {
  parseResult : ParseResult;
  issues : list Issue;
  options : option (list (string * value))
}.

(** [IAnalyzer]; [analyze] yields [None] when the promise is rejected.  An
    analyzer reads its context, and the findings it reports are those of the
    array it returns. *)
Module IAnalyzer.
Record t := {
  name : string;
  category : IssueCategory;
  analyze : AnalyzerContext -> option (list Issue)
}.
End IAnalyzer.

Definition origin : SourceLocation := {| line := 0; column := 0 |}.

Definition or_else {A} (o : option A) (d : A) : A :=
  match o with Some a => a | None => d end.

(** [createIssue].  [uuid] is the identifier that [uuidv4()] returned for
    this call; [options], when given, is spread over the literal, so a field
    it carries replaces the one computed here. *)
Definition createIssue (uuid : string) (ruleId : string) (message : string)
    (severity : Severity) (category : IssueCategory) (node : ASTNode)
    (filePath : string) (options : option PartialIssue) : Issue :=
  let o := or_else options no_options in
  {| id := or_else (opt_id o) uuid;
     ruleId := or_else (opt_ruleId o) ruleId;
     message := or_else (opt_message o) message;
     severity := or_else (opt_severity o) severity;
     category := or_else (opt_category o) category;
     location :=
       or_else (opt_location o)
         {| start := match loc_of node with Some l => start l | None => origin end;
            end_ := match loc_of node with Some l => end_ l | None => origin end |};
     filePath := or_else (opt_filePath o) filePath;
     codeSnippet := opt_codeSnippet o;
     suggestions := opt_suggestions o;
     vulnerability := None;
     cwe := None;
     owasp := None;
     complexityScore := None;
     threshold := None |}.

(** [extractCodeSnippet]; the default of [context] is 2. *)
Definition extractCodeSnippet (sourceCode : string) (node : ASTNode) (context : Z) : string :=
  match loc_of node with
  | None => EmptyString
  | Some l =>
      let lines := split_newline sourceCode in
      let startLine := Z.max 0 (line (start l) - context - 1) in
      let endLine := Z.min (Z.of_nat (List.length lines)) (line (end_ l) + context) in
      join_newline (slice startLine endLine lines)
  end.

End BaseAnalyzer.

(** ** analyzers/security-analyzer.ts *)

Module SecurityAnalyzer.
Import ASTTraverser BaseAnalyzer.

Section Analyzer.
(** [uuidv4 n] is the identifier returned by the call of [uuidv4()] made
    for the [n]-th issue that one run of the analyzer creates. *)
Variable uuidv4 : nat -> string.

(** The cast to [SecurityIssue] followed by the three assignments. *)
Definition as_security (issue : Issue) (vuln cwe_id owasp_id : string) : Issue :=
  {| id := id issue; ruleId := ruleId issue; message := message issue;
     severity := severity issue; category := category issue;
     location := location issue; filePath := filePath issue;
     codeSnippet := codeSnippet issue; suggestions := suggestions issue;
     vulnerability := Some vuln; cwe := Some cwe_id; owasp := Some owasp_id;
     complexityScore := complexityScore issue; threshold := threshold issue |}.

(** [containsStringLiteral]: the two scans read [node.left] and
    [node.right], the first property of that name. *)
Fixpoint containsStringLiteral (node : ASTNode) : bool :=
  if has_type "StringLiteral" node || has_type "Literal" node then true
  else match node with
       | VObj _ _ _ props =>
           if (fix left (ps : list (string * value)) : bool :=
                 match ps with
                 | [] => false
                 | (k, v) :: ps' =>
                     if String.eqb k "left"
                     then truthy v && containsStringLiteral v
                     else left ps'
                 end) props then true
           else (fix right (ps : list (string * value)) : bool :=
                 match ps with
                 | [] => false
                 | (k, v) :: ps' =>
                     if String.eqb k "right"
                     then truthy v && containsStringLiteral v
                     else right ps'
                 end) props
       | _ => false
       end.

(** [getNodeCode]; the result is a string except when [node.name] holds
    another value, which the caller's template then converts. *)
Definition getNodeCode (node : ASTNode) (sourceCode : string) : value :=
  if negb (truthy node) then VStr EmptyString
  else if has_type "StringLiteral" node && truthy node@."value"
  then VStr (to_string node@."value")
  else if has_type "Literal" node && truthy node@."value"
  then VStr (to_string node@."value")
  else if has_type "Identifier" node
  then (if truthy node@."name" then node@."name" else VStr EmptyString)
  else match range_of node with
       | Some (a, b) => VStr (substring a b sourceCode)
       | None => VStr EmptyString
       end.

Definition checkSQLInjectionInExpression (node : ASTNode) (filePath sourceCode : string)
    (issues : list Issue) : list Issue :=
  if is_str "+" node@."operator" then
    let hasStringLiteral := containsStringLiteral node in
    if hasStringLiteral then
      let leftCode := getNodeCode node@."left" sourceCode in
      let rightCode := getNodeCode node@."right" sourceCode in
      let combinedCode :=
        toUpperCase (template [to_string leftCode; " "; to_string rightCode]%string) in
      let sqlKeywords :=
        ["SELECT"; "INSERT"; "UPDATE"; "DELETE"; "FROM"; "WHERE"; "DROP"; "CREATE"]%string in
      let hasSQLKeyword := existsb (fun keyword => includes keyword combinedCode) sqlKeywords in
      if hasSQLKeyword then
        let issue :=
          createIssue (uuidv4 (List.length issues))
            "sql-injection"
            "SQL query uses string concatenation. This is vulnerable to SQL injection."
            ERROR SECURITY node filePath
            (Some (snippet_and_suggestions
                     (extractCodeSnippet sourceCode node 2)
                     ["Use parameterized queries or prepared statements"%string])) in
        issues ++ [as_security issue "SQL Injection" "CWE-89" "A03:2021 - Injection"]
      else issues
    else issues
  else issues.

(** The callback given to [quasis.some]:
    [quasi.value?.raw?.toUpperCase().includes(keyword)] for some keyword. *)
Definition quasi_has_sql (sqlKeywords : list string) (quasi : value) : option bool :=
  v <- member "value" quasi ;;
  let raw := v@?"raw" in
  if nullish raw then Some false
  else match raw with
       | VStr r => Some (existsb (fun keyword => includes keyword (toUpperCase r)) sqlKeywords)
       | _ => None
       end.

(** [Array.prototype.some], stopping at the first element that satisfies
    the callback. *)
Fixpoint some (f : value -> option bool) (l : list value) : option bool :=
  match l with
  | [] => Some false
  | x :: l' => b <- f x ;; if b then Some true else some f l'
  end.

Definition checkSQLInjection (node : ASTNode) (filePath sourceCode : string)
    (issues : list Issue) : option (list Issue) :=
  let name := node@."callee"@?"property"@?"name" in
  if is_str "query" name || is_str "execute" name then
    let firstArg := node@."arguments"@?"0" in
    issues1 <-
      (if has_type "TemplateLiteral" firstArg
          && gt firstArg@."expressions"@?"length" 0
       then
         let sqlKeywords :=
           ["SELECT"; "INSERT"; "UPDATE"; "DELETE"; "FROM"; "WHERE"]%string in
         hasSQL <-
           match firstArg@."quasis" with
           | VUndefined | VNull => Some false
           | VArr quasis => some (quasi_has_sql sqlKeywords) quasis
           | _ => None
           end ;;
         if (hasSQL : bool) then
           let issue :=
             createIssue (uuidv4 (List.length issues))
               "sql-injection"
               "Potential SQL injection vulnerability. Use parameterized queries instead."
               ERROR SECURITY node filePath
               (Some (snippet_and_suggestions
                        (extractCodeSnippet sourceCode node 2)
                        ["Use parameterized queries or prepared statements"%string])) in
           Some (issues ++ [as_security issue "SQL Injection" "CWE-89" "A03:2021 - Injection"])
         else Some issues
       else Some issues) ;;
    if has_type "BinaryExpression" firstArg && is_str "+" firstArg@."operator" then
      let issue :=
        createIssue (uuidv4 (List.length issues1))
          "sql-injection"
          "SQL query uses string concatenation. This is vulnerable to SQL injection."
          ERROR SECURITY node filePath
          (Some (snippet_and_suggestions
                   (extractCodeSnippet sourceCode node 2)
                   ["Use parameterized queries instead of string concatenation"%string])) in
      Some (issues1 ++ [as_security issue "SQL Injection" "CWE-89" "A03:2021 - Injection"])
    else Some issues1
  else Some issues.

Definition checkCommandInjection (node : ASTNode) (filePath sourceCode : string)
    (issues : list Issue) : list Issue :=
  let dangerousFunctions := ["exec"; "execSync"; "spawn"; "spawnSync"; "execFile"]%string in
  let funcName :=
    if truthy node@."callee"@?"name" then node@."callee"@?"name"
    else node@."callee"@?"property"@?"name" in
  if includes_str dangerousFunctions funcName then
    let firstArg := node@."arguments"@?"0" in
    if has_type "TemplateLiteral" firstArg
       || (has_type "BinaryExpression" firstArg && is_str "+" firstArg@."operator")
    then
      let issue :=
        createIssue (uuidv4 (List.length issues))
          "command-injection"
          "Potential command injection vulnerability. Avoid using user input in system commands."
          ERROR SECURITY node filePath
          (Some (snippet_and_suggestions
                   (extractCodeSnippet sourceCode node 2)
                   ["Validate and sanitize all inputs";
                    "Use safer alternatives like spawn with array arguments"]%string)) in
      issues ++ [as_security issue "Command Injection" "CWE-78" "A03:2021 - Injection"]
    else issues
  else issues.

Definition checkXSS (node : ASTNode) (filePath sourceCode : string)
    (issues : list Issue) : list Issue :=
  if is_str "dangerouslySetInnerHTML" node@."name"@?"name" then
    let issue :=
      createIssue (uuidv4 (List.length issues))
        "xss-danger"
        "Using dangerouslySetInnerHTML can lead to XSS vulnerabilities."
        WARNING SECURITY node filePath
        (Some (snippet_and_suggestions
                 (extractCodeSnippet sourceCode node 2)
                 ["Sanitize HTML before rendering"; "Use DOMPurify or similar library"]%string)) in
    issues ++ [as_security issue "Cross-Site Scripting (XSS)" "CWE-79" "A03:2021 - Injection"]
  else issues.

(** The four regular expressions of [secretPatterns]. *)

(** [/^sk_live_[a-zA-Z0-9]{20,}$/i] *)
Definition re_stripe_key (s : string) : bool :=
  String.eqb (toUpperCase (String.substring 0 8 s)) "SK_LIVE_"
  && all_chars is_alnum (String.substring 8 (String.length s - 8) s)
  && (20 <=? String.length s - 8)%nat.

(** [/^[a-zA-Z0-9]{32,}$/] *)
Definition re_long_token (s : string) : bool :=
  all_chars is_alnum s && (32 <=? String.length s)%nat.

Definition is_line_terminator (c : ascii) : bool :=
  Ascii.eqb c "010"%char || Ascii.eqb c "013"%char.

(** [.*] followed by [pat]: [pat] starts after some characters, none of
    them a line terminator. *)
Fixpoint dot_star_then (pat s : string) : bool :=
  String.prefix pat s ||
  match s with
  | EmptyString => false
  | String c s' => negb (is_line_terminator c) && dot_star_then pat s'
  end.

(** [/-----BEGIN.*PRIVATE KEY-----/] *)
Fixpoint re_private_key (s : string) : bool :=
  (String.prefix "-----BEGIN" s
   && dot_star_then "PRIVATE KEY-----" (String.substring 10 (String.length s - 10) s))
  || match s with
     | EmptyString => false
     | String _ s' => re_private_key s'
     end.

(** [/password|secret|token/i] *)
Definition re_secret_word (s : string) : bool :=
  let u := toUpperCase s in
  includes "PASSWORD" u || includes "SECRET" u || includes "TOKEN" u.

Record SecretPattern := {
  regex : string -> bool;
  pattern_name : string;
  minLength : option nat
}.

Definition secretPatterns : list SecretPattern :=
  [ {| regex := re_stripe_key; pattern_name := "API Key (Stripe-like)"; minLength := None |};
    {| regex := re_long_token; pattern_name := "Long API Key or Token"; minLength := None |};
    {| regex := re_private_key; pattern_name := "Private Key"; minLength := None |};
    {| regex := re_secret_word; pattern_name := "Potential Secret"; minLength := Some 15%nat |} ].

Definition checkHardcodedSecrets (node : ASTNode) (filePath sourceCode : string)
    (issues : list Issue) : list Issue :=
  match node@."value" with
  | VStr value =>
      if (String.length value <? 8)%nat then issues
      else
        (fix loop (patterns : list SecretPattern) : list Issue :=
           match patterns with
           | [] => issues
           | pattern :: rest =>
               let minLength :=
                 match minLength pattern with
                 | Some (S n) => S n
                 | _ => String.length value
                 end in
               if regex pattern value && (minLength <=? String.length value)%nat then
                 let issue :=
                   createIssue (uuidv4 (List.length issues))
                     "hardcoded-secret"
                     (template ["Potential hardcoded "; pattern_name pattern;
                                " detected. Store secrets in environment variables or secure vaults."]%string)
                     ERROR SECURITY node filePath
                     (Some (snippet_and_suggestions
                              (extractCodeSnippet sourceCode node 2)
                              ["Use environment variables (process.env)";
                               "Use a secrets management service"]%string)) in
                 issues ++ [as_security issue "Hardcoded Secrets" "CWE-798"
                              "A07:2021 - Identification and Authentication Failures"]
               else loop rest
           end) secretPatterns
  | _ => issues
  end.

Definition checkDangerousFunctions (node : ASTNode) (filePath sourceCode : string)
    (issues : list Issue) : list Issue :=
  let dangerousFunctions := ["eval"; "Function"; "setTimeout"; "setInterval"]%string in
  if includes_str dangerousFunctions node@."name" then
    let issue :=
      createIssue (uuidv4 (List.length issues))
        "dangerous-function"
        (template ["Using "; to_string node@."name";
                   " with dynamic code can lead to code injection vulnerabilities."]%string)
        WARNING SECURITY node filePath
        (Some (snippet_and_suggestions
                 (extractCodeSnippet sourceCode node 2)
                 ["Avoid using eval and similar functions"; "Use safer alternatives"]%string)) in
    issues ++ [as_security issue "Code Injection" "CWE-94" "A03:2021 - Injection"]
  else issues.

(** A callback that returns nothing: it never asks to skip. *)
Definition returns_void {St} (f : ASTNode -> St -> option St) : VisitorFunction St :=
  fun node _ _ s => s' <- f node s ;; Some (s', false).

Definition visitor (filePath sourceCode : string) : Visitor (list Issue) :=
  object
  [ ("CallExpression"%string,
      Fn (returns_void (fun node issues =>
            issues1 <- checkSQLInjection node filePath sourceCode issues ;;
            Some (checkCommandInjection node filePath sourceCode issues1))));
    ("BinaryExpression"%string,
      Fn (returns_void (fun node issues =>
            Some (checkSQLInjectionInExpression node filePath sourceCode issues))));
    ("JSXAttribute"%string,
      Fn (returns_void (fun node issues =>
            Some (checkXSS node filePath sourceCode issues))));
    ("StringLiteral"%string,
      Fn (returns_void (fun node issues =>
            Some (checkHardcodedSecrets node filePath sourceCode issues))));
    ("Literal"%string,
      Fn (returns_void (fun node issues =>
            Some (checkHardcodedSecrets node filePath sourceCode issues))));
    ("Identifier"%string,
      Fn (returns_void (fun node issues =>
            Some (checkDangerousFunctions node filePath sourceCode issues)))) ].

(** [SecurityAnalyzer.analyze]; [None] when a callback raised. *)
Definition analyze (context : AnalyzerContext) : option (list Issue) :=
  let issues := [] in
  let parseResult := parseResult context in
  traverse (visitor (pr_filePath parseResult) (sourceCode parseResult))
    (ast parseResult) None [] issues.

End Analyzer.

End SecurityAnalyzer.

(** ** analyzers/complexity-analyzer.ts *)

Module ComplexityAnalyzer.
Import ASTTraverser BaseAnalyzer.

Record ComplexityResult := {
  cyclomaticComplexity : Z;
  cognitiveComplexity : Z;
  nestingDepth : Z;
  maxNesting : Z
}.

Definition CYCLOMATIC_THRESHOLD : Z := 10.
Definition COGNITIVE_THRESHOLD : Z := 15.
Definition NESTING_THRESHOLD : Z := 4.
Definition FUNCTION_LENGTH_THRESHOLD : Z := 50.

(** A callback whose result is never [false]. *)
Definition callback {St} (f : ASTNode -> St -> St) : VisitorFunction St :=
  fun node _ _ s => Some (f node s, false).

Definition is_logical_operator (node : ASTNode) : bool :=
  is_str "&&" node@."operator" || is_str "||" node@."operator".

(** [calculateCyclomaticComplexity]; the state is [complexity]. *)
Definition cyclomatic_visitor : Visitor Z :=
  object
  [ ("IfStatement"%string, Fn (callback (fun _ complexity => complexity + 1)));
    ("ConditionalExpression"%string, Fn (callback (fun _ complexity => complexity + 1)));
    ("ForStatement"%string, Fn (callback (fun _ complexity => complexity + 1)));
    ("ForInStatement"%string, Fn (callback (fun _ complexity => complexity + 1)));
    ("ForOfStatement"%string, Fn (callback (fun _ complexity => complexity + 1)));
    ("WhileStatement"%string, Fn (callback (fun _ complexity => complexity + 1)));
    ("DoWhileStatement"%string, Fn (callback (fun _ complexity => complexity + 1)));
    ("SwitchCase"%string,
      Fn (callback (fun caseNode complexity =>
            if truthy caseNode@."test" then complexity + 1 else complexity)));
    ("CatchClause"%string, Fn (callback (fun _ complexity => complexity + 1)));
    ("LogicalExpression"%string,
      Fn (callback (fun logicalNode complexity =>
            if is_logical_operator logicalNode then complexity + 1 else complexity))) ].

Definition calculateCyclomaticComplexity (node : ASTNode) : option Z :=
  let complexity := 1 in
  traverse cyclomatic_visitor node None [] complexity.

Definition incrementors : list string :=
  ["IfStatement"; "ConditionalExpression"; "ForStatement"; "ForInStatement";
   "ForOfStatement"; "WhileStatement"; "DoWhileStatement"; "SwitchCase";
   "CatchClause"]%string.

(** [list.includes(astNode.type)] *)
Definition includes_type (l : list string) (astNode : ASTNode) : bool :=
  match type_of astNode with
  | Some t => existsb (String.eqb t) l
  | None => false
  end.

(** [calculateCognitiveComplexity]; the state is
    [(complexity, nestingLevel)]. *)
Definition cognitive_visitor : Visitor (Z * Z) :=
  object
  [ ("*"%string,
      Hooks
        (Some (callback (fun astNode '(complexity, nestingLevel) =>
                 if includes_type incrementors astNode
                 then (complexity + (1 + nestingLevel), nestingLevel + 1)
                 else (complexity, nestingLevel))))
        (Some (callback (fun astNode '(complexity, nestingLevel) =>
                 if includes_type incrementors astNode
                 then (complexity, nestingLevel - 1)
                 else (complexity, nestingLevel)))));
    ("LogicalExpression"%string,
      Fn (callback (fun logicalNode '(complexity, nestingLevel) =>
            if is_logical_operator logicalNode
            then (complexity + 1, nestingLevel)
            else (complexity, nestingLevel)))) ].

Definition calculateCognitiveComplexity (node : ASTNode) : option Z :=
  let complexity := 0 in
  let nestingLevel := 0 in
  '(complexity', _) <- traverse cognitive_visitor node None [] (complexity, nestingLevel) ;;
  Some complexity'.

Definition nestingNodes : list string :=
  ["IfStatement"; "ForStatement"; "ForInStatement"; "ForOfStatement";
   "WhileStatement"; "DoWhileStatement"; "TryStatement"; "SwitchStatement"]%string.

(** [calculateNestingDepth]; the state is [(maxDepth, currentDepth)]. *)
Definition nesting_visitor : Visitor (Z * Z) :=
  object
  [ ("*"%string,
      Hooks
        (Some (callback (fun astNode '(maxDepth, currentDepth) =>
                 if includes_type nestingNodes astNode
                 then (Z.max maxDepth (currentDepth + 1), currentDepth + 1)
                 else (maxDepth, currentDepth))))
        (Some (callback (fun astNode '(maxDepth, currentDepth) =>
                 if includes_type nestingNodes astNode
                 then (maxDepth, currentDepth - 1)
                 else (maxDepth, currentDepth))))) ].

Definition calculateNestingDepth (node : ASTNode) : option Z :=
  let maxDepth := 0 in
  let currentDepth := 0 in
  '(maxDepth', _) <- traverse nesting_visitor node None [] (maxDepth, currentDepth) ;;
  Some maxDepth'.

Definition calculateComplexity (node : ASTNode) : option ComplexityResult :=
  cyclomatic <- calculateCyclomaticComplexity node ;;
  cognitive <- calculateCognitiveComplexity node ;;
  depth <- calculateNestingDepth node ;;
  depth' <- calculateNestingDepth node ;;
  Some {| cyclomaticComplexity := cyclomatic;
          cognitiveComplexity := cognitive;
          nestingDepth := depth;
          maxNesting := depth' |}.

(** [getFunctionName]: when it is not the string "<anonymous>", the result
    is whatever value [name] holds. *)
Definition getFunctionName (node : ASTNode) : value :=
  if truthy node@."id"@?"name" then node@."id"@."name"
  else if truthy node@."key"@?"name" then node@."key"@."name"
  else VStr "<anonymous>".

Section Analyzer.
Variable uuidv4 : nat -> string.

(** The cast to [ComplexityIssue] followed by the two assignments. *)
Definition as_complexity (issue : Issue) (score thresh : Z) : Issue :=
  {| id := id issue; ruleId := ruleId issue; message := message issue;
     severity := severity issue; category := category issue;
     location := location issue; filePath := filePath issue;
     codeSnippet := codeSnippet issue; suggestions := suggestions issue;
     vulnerability := vulnerability issue; cwe := cwe issue; owasp := owasp issue;
     complexityScore := Some score; threshold := Some thresh |}.

Definition analyzeFunctionComplexity (node : ASTNode) (filePath sourceCode : string)
    (issues : list Issue) : option (list Issue) :=
  let functionName := getFunctionName node in
  complexity <- calculateComplexity node ;;
  let issues1 :=
    if CYCLOMATIC_THRESHOLD <? cyclomaticComplexity complexity then
      let issue :=
        createIssue (uuidv4 (List.length issues))
          "high-cyclomatic-complexity"
          (template ["Function "; dquote; to_string functionName; dquote;
                     " has cyclomatic complexity of ";
                     string_of_Z (cyclomaticComplexity complexity);
                     " (threshold: "; string_of_Z CYCLOMATIC_THRESHOLD;
                     "). Consider breaking it into smaller functions."]%string)
          WARNING COMPLEXITY node filePath
          (Some (snippet_and_suggestions
                   (extractCodeSnippet sourceCode node 2)
                   ["Break down into smaller functions";
                    "Extract complex conditionals into separate functions"]%string)) in
      issues ++ [as_complexity issue (cyclomaticComplexity complexity) CYCLOMATIC_THRESHOLD]
    else issues in
  let issues2 :=
    if COGNITIVE_THRESHOLD <? cognitiveComplexity complexity then
      let issue :=
        createIssue (uuidv4 (List.length issues1))
          "high-cognitive-complexity"
          (template ["Function "; dquote; to_string functionName; dquote;
                     " has cognitive complexity of ";
                     string_of_Z (cognitiveComplexity complexity);
                     " (threshold: "; string_of_Z COGNITIVE_THRESHOLD;
                     "). This function may be hard to understand."]%string)
          WARNING COMPLEXITY node filePath
          (Some (snippet_and_suggestions
                   (extractCodeSnippet sourceCode node 2)
                   ["Simplify logic"; "Reduce nesting levels";
                    "Extract complex conditions"]%string)) in
      issues1 ++ [as_complexity issue (cognitiveComplexity complexity) COGNITIVE_THRESHOLD]
    else issues1 in
  let issues3 :=
    if NESTING_THRESHOLD <? maxNesting complexity then
      let issue :=
        createIssue (uuidv4 (List.length issues2))
          "excessive-nesting"
          (template ["Function "; dquote; to_string functionName; dquote;
                     " has maximum nesting depth of ";
                     string_of_Z (maxNesting complexity);
                     " (threshold: "; string_of_Z NESTING_THRESHOLD;
                     "). Deep nesting makes code harder to read."]%string)
          WARNING COMPLEXITY node filePath
          (Some (snippet_and_suggestions
                   (extractCodeSnippet sourceCode node 2)
                   ["Use early returns to reduce nesting";
                    "Extract nested logic into separate functions"]%string)) in
      issues2 ++ [as_complexity issue (maxNesting complexity) NESTING_THRESHOLD]
    else issues2 in
  match loc_of node with
  | Some l =>
      let length := line (end_ l) - line (start l) in
      if FUNCTION_LENGTH_THRESHOLD <? length then
        let issue :=
          createIssue (uuidv4 (List.length issues3))
            "long-function"
            (template ["Function "; dquote; to_string functionName; dquote;
                       " is "; string_of_Z length;
                       " lines long (threshold: "; string_of_Z FUNCTION_LENGTH_THRESHOLD;
                       "). Long functions are harder to maintain."]%string)
            INFO COMPLEXITY node filePath
            (Some (snippet_and_suggestions
                     (extractCodeSnippet sourceCode node 1)
                     ["Break into smaller, focused functions";
                      "Apply Single Responsibility Principle"]%string)) in
        Some (issues3 ++ [as_complexity issue length FUNCTION_LENGTH_THRESHOLD])
      else Some issues3
  | None => Some issues3
  end.

Definition visitor (filePath sourceCode : string) : Visitor (list Issue) :=
  let on_function : VisitorFunction (list Issue) :=
    fun node _ _ issues =>
      issues' <- analyzeFunctionComplexity node filePath sourceCode issues ;;
      Some (issues', false) in
  object
  [ ("FunctionDeclaration"%string, Fn on_function);
    ("FunctionExpression"%string, Fn on_function);
    ("ArrowFunctionExpression"%string, Fn on_function);
    ("MethodDefinition"%string,
      Fn (fun node _ _ issues =>
            if truthy node@."value" then
              issues' <- analyzeFunctionComplexity node@."value" filePath sourceCode issues ;;
              Some (issues', false)
            else Some (issues, false))) ].

(** [ComplexityAnalyzer.analyze] *)
Definition analyze (context : AnalyzerContext) : option (list Issue) :=
  let issues := [] in
  let parseResult := parseResult context in
  traverse (visitor (pr_filePath parseResult) (sourceCode parseResult))
    (ast parseResult) None [] issues.

End Analyzer.

End ComplexityAnalyzer.

(** ** analyzers/code-quality-analyzer.ts *)

Module CodeQualityAnalyzer.
Import ASTTraverser BaseAnalyzer.

(** *** [Set]

    A [Set] keeps its elements in insertion order, which is the order in
    which [for ... of] yields them.  Membership is SameValueZero: two
    primitives are the same when they are equal, and an object is the same
    only as itself.  In a tree every occurrence of an object is an object
    of its own, so no object found in it is the same as another. *)
Definition same_value_zero (a b : value) : bool :=
  match a, b with
  | VUndefined, VUndefined | VNull, VNull => true
  | VBool x, VBool y => Bool.eqb x y
  | VNum x, VNum y => x =? y
  | VStr x, VStr y => String.eqb x y
  | _, _ => false
  end.

Definition has (x : value) (set : list value) : bool :=
  existsb (same_value_zero x) set.

Definition add (x : value) (set : list value) : list value :=
  if has x set then set else set ++ [x].

(** The variables that the callbacks of [analyze] capture. *)
Record State := {
  declaredVariables : list value;
  usedVariables : list value;
  issues : list Issue
}.

Definition declare (x : value) (s : State) : State :=
  {| declaredVariables := add x (declaredVariables s);
     usedVariables := usedVariables s;
     issues := issues s |}.

Definition use (x : value) (s : State) : State :=
  {| declaredVariables := declaredVariables s;
     usedVariables := add x (usedVariables s);
     issues := issues s |}.

Definition with_issues (f : list Issue -> list Issue) (s : State) : State :=
  {| declaredVariables := declaredVariables s;
     usedVariables := usedVariables s;
     issues := f (issues s) |}.

(** [node.params?.forEach(param => { if (param.name) declaredVariables.add(param.name) })] *)
Fixpoint declare_each (params : list value) (s : State) : option State :=
  match params with
  | [] => Some s
  | param :: rest =>
      name <- member "name" param ;;
      declare_each rest (if truthy name then declare name s else s)
  end.

Definition declare_params (node : ASTNode) (s : State) : option State :=
  match node@."params" with
  | VUndefined | VNull => Some s
  | VArr params => declare_each params s
  | _ => None
  end.

Section Analyzer.
Variable uuidv4 : nat -> string.

Definition checkMagicNumbers (node : ASTNode) (filePath sourceCode : string)
    (issues : list Issue) : list Issue :=
  match node@."value" with
  | VNum value =>
      let ignoredValues := [0; 1; -1; 2; 10; 100] in
      if existsb (Z.eqb value) ignoredValues then issues
      else
        let parent := node@."parent" in
        if has_type "MemberExpression" parent then issues
        else
          let issue :=
            createIssue (uuidv4 (List.length issues))
              "magic-number"
              (template ["Magic number "; string_of_Z value;
                         " should be replaced with a named constant."]%string)
              INFO CODE_SMELL node filePath
              (Some (snippet_and_suggestions
                       (extractCodeSnippet sourceCode node 2)
                       [template ["Create a named constant like: const MEANINGFUL_NAME = ";
                                  string_of_Z value]%string])) in
          issues ++ [issue]
  | _ => issues
  end.

Definition checkLongParameterList (node : ASTNode) (filePath sourceCode : string)
    (issues : list Issue) : list Issue :=
  let MAX_PARAMS := 4 in
  let params := or node@."params" (VArr []) in
  if gt params@."length" MAX_PARAMS then
    let functionName := or node@."id"@?"name" (VStr "<anonymous>") in
    let issue :=
      createIssue (uuidv4 (List.length issues))
        "long-parameter-list"
        (template ["Function '"; to_string functionName; "' has ";
                   to_string params@."length"; " parameters (max: ";
                   string_of_Z MAX_PARAMS; "). Consider using an options object."]%string)
        INFO CODE_SMELL node filePath
        (Some (snippet_and_suggestions
                 (extractCodeSnippet sourceCode node 1)
                 ["Combine related parameters into an options object";
                  "Break function into smaller functions"]%string)) in
    issues ++ [issue]
  else issues.

Definition checkEmptyCatchBlock (node : ASTNode) (filePath sourceCode : string)
    (issues : list Issue) : list Issue :=
  let catchBody := or node@."body"@?"body" (VArr []) in
  if is_num 0 catchBody@."length" then
    let issue :=
      createIssue (uuidv4 (List.length issues))
        "empty-catch-block"
        "Empty catch block. Silent failures can hide bugs."
        WARNING CODE_SMELL node filePath
        (Some (snippet_and_suggestions
                 (extractCodeSnippet sourceCode node 2)
                 ["Log the error"; "Handle the error appropriately";
                  "Rethrow if cannot handle"]%string)) in
    issues ++ [issue]
  else issues.

Definition checkConsoleStatements (node : ASTNode) (filePath sourceCode : string)
    (issues : list Issue) : list Issue :=
  if is_str "console" node@."callee"@?"object"@?"name"
     && includes_str ["log"; "debug"; "info"; "warn"; "error"]%string
          node@."callee"@?"property"@?"name"
  then
    let issue :=
      createIssue (uuidv4 (List.length issues))
        "console-statement"
        (template ["Console statement found: console.";
                   to_string node@."callee"@."property"@."name";
                   "(). Remove before production."]%string)
        INFO CODE_SMELL node filePath
        (Some (snippet_and_suggestions
                 (extractCodeSnippet sourceCode node 2)
                 ["Use a proper logging library";
                  "Remove console statements before deployment"]%string)) in
    issues ++ [issue]
  else issues.

Definition checkDebuggerStatements (node : ASTNode) (filePath sourceCode : string)
    (issues : list Issue) : list Issue :=
  if has_type "DebuggerStatement" node then
    let issue :=
      createIssue (uuidv4 (List.length issues))
        "debugger-statement"
        "Debugger statement found. Remove before production."
        WARNING CODE_SMELL node filePath
        (Some (snippet_and_suggestions
                 (extractCodeSnippet sourceCode node 2)
                 ["Remove debugger statement"%string])) in
    issues ++ [issue]
  else issues.

(** [/TODO|FIXME|HACK|XXX/i] *)
Definition re_todo (s : string) : bool :=
  let u := toUpperCase s in
  includes "TODO" u || includes "FIXME" u || includes "HACK" u || includes "XXX" u.

(** The body of the loop over the comments of a node. *)
Definition check_comment (node : ASTNode) (filePath : string) (comment : value)
    (issues : list Issue) : option (list Issue) :=
  text <- member "value" comment ;;
  if truthy text && re_todo (to_string text) then
    match text with
    | VStr t =>
        let issue :=
          createIssue (uuidv4 (List.length issues))
            "todo-comment"
            (template ["TODO/FIXME comment found: "; dquote; trim t; dquote;
                       ". Consider creating a task."]%string)
            INFO CODE_SMELL node filePath
            (Some (only_suggestions
                     ["Create a task in your issue tracker";
                      "Address the TODO item"]%string)) in
        Some (issues ++ [issue])
    | _ => None
    end
  else Some issues.

Fixpoint check_comments (node : ASTNode) (filePath : string) (comments : list value)
    (issues : list Issue) : option (list Issue) :=
  match comments with
  | [] => Some issues
  | comment :: rest =>
      issues' <- check_comment node filePath comment issues ;;
      check_comments node filePath rest issues'
  end.

(** [checkTodoComments].  Iterating over a string yields its characters,
    none of which has a [value]; a number, [true] or a plain object is
    not iterable. *)
Definition checkTodoComments (node : ASTNode) (filePath sourceCode : string)
    (issues : list Issue) : option (list Issue) :=
  let comments := or node@."leadingComments" (or node@."trailingComments" (VArr [])) in
  match comments with
  | VArr l => check_comments node filePath l issues
  | VStr _ => Some issues
  | _ => None
  end.

Definition on_state (f : ASTNode -> State -> option State) : VisitorFunction State :=
  fun node _ _ s => s' <- f node s ;; Some (s', false).

Definition visitor (filePath sourceCode : string) : Visitor State :=
  object
  [ ("VariableDeclarator"%string,
      Fn (on_state (fun node s =>
            Some (if truthy node@."id"@?"name"
                  then declare node@."id"@."name" s else s))));
    ("FunctionDeclaration"%string,
      Fn (on_state (fun node s =>
            s' <- declare_params node s ;;
            Some (with_issues (checkLongParameterList node filePath sourceCode) s'))));
    ("FunctionExpression"%string,
      Fn (on_state (fun node s =>
            s' <- declare_params node s ;;
            Some (with_issues (checkLongParameterList node filePath sourceCode) s'))));
    ("ArrowFunctionExpression"%string,
      Fn (on_state (fun node s => declare_params node s)));
    ("Identifier"%string,
      Fn (on_state (fun node s =>
            Some (if truthy node@."name" then use node@."name" s else s))));
    ("Literal"%string,
      Fn (on_state (fun node s =>
            Some (with_issues (checkMagicNumbers node filePath sourceCode) s))));
    ("CatchClause"%string,
      Fn (on_state (fun node s =>
            Some (with_issues (checkEmptyCatchBlock node filePath sourceCode) s))));
    ("CallExpression"%string,
      Fn (on_state (fun node s =>
            Some (with_issues
                    (fun issues =>
                       checkDebuggerStatements node filePath sourceCode
                         (checkConsoleStatements node filePath sourceCode issues)) s))));
    ("*"%string,
      Fn (on_state (fun node s =>
            issues' <- checkTodoComments node filePath sourceCode (issues s) ;;
            Some (with_issues (fun _ => issues') s)))) ].

(** The predicate given to [findNode]:
    [n.id?.name === variable || n.name === variable]. *)
Definition names (variable : string) (n : ASTNode) : bool :=
  is_str variable n@."id"@?"name" || is_str variable n@."name".

(** The loop over [declaredVariables] that reports the unused ones. *)
Fixpoint report_unused (ast : ASTNode) (filePath : string) (usedVariables : list value)
    (declared : list value) (issues : list Issue) : option (list Issue) :=
  match declared with
  | [] => Some issues
  | variable :: rest =>
      if has variable usedVariables then
        report_unused ast filePath usedVariables rest issues
      else
        match variable with
        | VStr variable =>
            if startsWith "_" variable then
              report_unused ast filePath usedVariables rest issues
            else
              nodes <- findNode ast (names variable) ;;
              match nodes with
              | Some nodes =>
                  let issue :=
                    createIssue (uuidv4 (List.length issues))
                      "unused-variable"
                      (template ["Variable '"; variable;
                                 "' is declared but never used."]%string)
                      WARNING CODE_SMELL nodes filePath
                      (Some (only_suggestions
                               ["Remove the unused variable"%string;
                                String.append "If intentional, prefix with underscore: _"
                                  variable])) in
                  report_unused ast filePath usedVariables rest (issues ++ [issue])
              | None => report_unused ast filePath usedVariables rest issues
              end
        | _ => None
        end
  end.

(** [CodeQualityAnalyzer.analyze] *)
Definition analyze (context : AnalyzerContext) : option (list Issue) :=
  let parseResult := parseResult context in
  let filePath := pr_filePath parseResult in
  let initial :=
    {| declaredVariables := []; usedVariables := []; issues := [] |} in
  s <- traverse (visitor filePath (sourceCode parseResult))
         (ast parseResult) None [] initial ;;
  report_unused (ast parseResult) filePath (usedVariables s)
    (declaredVariables s) (issues s).

End Analyzer.

End CodeQualityAnalyzer.

(** ** shared/src/types: suggestions.ts, analysis.ts and metrics.ts *)

(** [Suggestion]; the analysis engine only moves suggestions around. *)
Record Suggestion := {
  suggestion_id : string;
  title : string;
  description : string
}.

Module FileMetrics.
(** The [metrics] of a [FileAnalysisResult]. *)
Record t := {
  complexity : Q;
  maintainability : Q;
  linesOfCode : Z
}.
End FileMetrics.

Module FileInfo.
(** [FileInfo].  [metrics] is not one of its declared fields: it is what
    the read [(f as any).metrics] finds on the object, [None] for
    [undefined]. *)
Record t := {
  path : string;
  language : Language;
  size : Z;
  linesOfCode : Z;
  metrics : option FileMetrics.t
}.
End FileInfo.

Module FileAnalysisResult.
Record t := {
  file : FileInfo.t;
  issues : list Issue;
  suggestions : list Suggestion;
  metrics : FileMetrics.t
}.
End FileAnalysisResult.

Module Num.
(** [Math.max] and [Math.min] on exact rationals. *)
Definition max (a b : Q) : Q := if Qle_bool a b then b else a.
Definition min (a b : Q) : Q := if Qle_bool a b then a else b.
Definition of_Z (n : Z) : Q := inject_Z n.
Definition of_nat (n : nat) : Q := inject_Z (Z.of_nat n).
End Num.

(** ** analyzers/analyzer-coordinator.ts *)

Module AnalyzerCoordinator.
Import BaseAnalyzer.

Section Coordinator.
Variable uuidv4 : nat -> string.

Definition securityAnalyzer : IAnalyzer.t :=
  {| IAnalyzer.name := "SecurityAnalyzer";
     IAnalyzer.category := SECURITY;
     IAnalyzer.analyze := SecurityAnalyzer.analyze uuidv4 |}.

Definition complexityAnalyzer : IAnalyzer.t :=
  {| IAnalyzer.name := "ComplexityAnalyzer";
     IAnalyzer.category := COMPLEXITY;
     IAnalyzer.analyze := ComplexityAnalyzer.analyze uuidv4 |}.

Definition codeQualityAnalyzer : IAnalyzer.t :=
  {| IAnalyzer.name := "CodeQualityAnalyzer";
     IAnalyzer.category := CODE_SMELL;
     IAnalyzer.analyze := CodeQualityAnalyzer.analyze uuidv4 |}.

(** The coordinator object is its list of analyzers; this is the list
    the constructor builds. *)
Definition constructor : list IAnalyzer.t :=
  [securityAnalyzer; complexityAnalyzer; codeQualityAnalyzer].

End Coordinator.

Definition addAnalyzer (analyzers : list IAnalyzer.t) (analyzer : IAnalyzer.t) : list IAnalyzer.t :=
  analyzers ++ [analyzer].

Definition getAnalyzers (analyzers : list IAnalyzer.t) : list IAnalyzer.t := analyzers.

(** [calculateFileMetrics] *)
Definition calculateFileMetrics (parseResult : ParseResult) (issues : list Issue) : FileMetrics.t :=
  let lines := split_newline (sourceCode parseResult) in
  let linesOfCode := Z.of_nat (List.length lines) in
  let complexityIssues := filter (fun i => IssueCategory_eqb (category i) COMPLEXITY) issues in
  let avgComplexity : Q :=
    (if (0 <? List.length complexityIssues)%nat
     then Num.of_Z (fold_left (fun sum i => (sum + or_else (complexityScore i) 0)%Z)
                      complexityIssues 0%Z)
          / Num.of_nat (List.length complexityIssues)
     else 1)%Q in
  let issueWeight := (Num.of_nat (List.length issues) * 2)%Q in
  let maintainability := (Num.max 0 (100 - issueWeight - avgComplexity * 2))%Q in
  {| FileMetrics.complexity := avgComplexity;
     FileMetrics.maintainability := maintainability;
     FileMetrics.linesOfCode := linesOfCode |}.

(** One turn of the loop over the analyzers: the state is the array
    [issues] and the lines written by [console.error], which are the names
    of the analyzers that failed. *)
Definition run_analyzer (parseResult : ParseResult) (state : list Issue * list string)
    (analyzer : IAnalyzer.t) : list Issue * list string :=
  let '(issues, console) := state in
  let context := {| parseResult := parseResult; issues := issues; options := None |} in
  match IAnalyzer.analyze analyzer context with
  | Some analyzerIssues => (issues ++ analyzerIssues, console)
  | None => (issues, console ++ [IAnalyzer.name analyzer])
  end.

(** [analyzeFile], together with what it wrote to the console. *)
Definition analyzeFile (analyzers : list IAnalyzer.t) (parseResult : ParseResult)
    : FileAnalysisResult.t * list string :=
  let '(issues, console) := fold_left (run_analyzer parseResult) analyzers ([], []) in
  let metrics := calculateFileMetrics parseResult issues in
  let fileInfo :=
    {| FileInfo.path := pr_filePath parseResult;
       FileInfo.language := language parseResult;
       FileInfo.size := Z.of_nat (String.length (sourceCode parseResult));
       FileInfo.linesOfCode :=
         Z.of_nat (List.length (split_newline (sourceCode parseResult)));
       FileInfo.metrics := None |} in
  ({| FileAnalysisResult.file := fileInfo;
      FileAnalysisResult.issues := issues;
      FileAnalysisResult.suggestions := [];
      FileAnalysisResult.metrics := metrics |}, console).

End AnalyzerCoordinator.

(** ** shared/src/types/metrics.ts *)

Module CodeMetrics.
Record t := {
  totalFiles : Z;
  totalLines : Z;
  codeLines : Z;
  commentLines : Z;
  blankLines : Z;
  functions : Z;
  classes : Z;
  averageComplexity : Q
}.
End CodeMetrics.

Module QualityMetrics.
Record t := {
  maintainabilityIndex : Q;
  technicalDebt : Z;
  duplicateLines : Z;
  duplicatePercentage : Z
}.
End QualityMetrics.

Module ComplexityMetrics.
Record t := {
  cyclomaticComplexity : Q;
  cognitiveComplexity : Q;
  nestingDepth : Z;
  linesOfCode : Z;
  maintainabilityIndex : Q
}.
End ComplexityMetrics.

Inductive Letter := A | B | C | D | F.

Module Grade.
Record t := {
  score : Q;
  letter : Letter;
  label : string
}.
End Grade.

Module ProjectMetrics.
Record t := {
  code : CodeMetrics.t;
  quality : QualityMetrics.t;
  complexity : ComplexityMetrics.t;
  grade : Grade.t;
  timestamp : Z
}.
End ProjectMetrics.

Inductive AnalysisStatus := PENDING | RUNNING | COMPLETED | FAILED.

Module AnalysisResult.
Record t := {
  id : string;
  status : AnalysisStatus;
  projectPath : string;
  files : list FileInfo.t;
  issues : list Issue;
  suggestions : list Suggestion;
  metrics : ProjectMetrics.t;
  startTime : Z;
  endTime : option Z;
  duration : option Z;
  error : option string
}.
End AnalysisResult.

(** ** api/analysis-service.ts *)

Module AnalysisService.

(** [calculateGrade] *)
Definition calculateGrade (score : Q) : Grade.t :=
  if Qle_bool 80 score then
    {| Grade.score := score; Grade.letter := A; Grade.label := "Excellent" |}
  else if Qle_bool 60 score then
    {| Grade.score := score; Grade.letter := B; Grade.label := "Good" |}
  else if Qle_bool 40 score then
    {| Grade.score := score; Grade.letter := C; Grade.label := "Fair" |}
  else if Qle_bool 20 score then
    {| Grade.score := score; Grade.letter := D; Grade.label := "Poor" |}
  else
    {| Grade.score := score; Grade.letter := F; Grade.label := "Critical" |}.

(** The callback of the second [reduce]:
    [sum + (f as any).metrics?.complexity || 0], which groups as
    [(sum + ...) || 0].  Adding [undefined] gives [NaN], and both [NaN] and
    zero are replaced by the right operand. *)
Definition add_complexity (sum : Q) (f : FileInfo.t) : Q :=
  match FileInfo.metrics f with
  | Some m =>
      let total := (sum + FileMetrics.complexity m)%Q in
      if Qeq_bool total 0 then 0%Q else total
  | None => 0%Q
  end.

(** [calculateProjectMetrics]; [now] is the value of [Date.now()]. *)
Definition calculateProjectMetrics (files : list FileInfo.t) (issues : list Issue)
    (now : Z) : ProjectMetrics.t :=
  let totalLines := fold_left (fun sum f => sum + FileInfo.linesOfCode f) files 0 in
  let totalIssues := Z.of_nat (List.length issues) in
  let avgComplexity : Q :=
    (if (0 <? List.length files)%nat
     then fold_left add_complexity files 0 / Num.of_nat (List.length files)
     else 0)%Q in
  let issueWeight := Num.of_Z (totalIssues * 2) in
  let complexityWeight := (avgComplexity * 5)%Q in
  let maintainabilityIndex :=
    Num.max 0 (Num.min 100 (100 - issueWeight - complexityWeight))%Q in
  let grade := calculateGrade maintainabilityIndex in
  {| ProjectMetrics.code :=
       {| CodeMetrics.totalFiles := Z.of_nat (List.length files);
          CodeMetrics.totalLines := totalLines;
          CodeMetrics.codeLines := Qfloor (Num.of_Z totalLines * (8 # 10));
          CodeMetrics.commentLines := Qfloor (Num.of_Z totalLines * (1 # 10));
          CodeMetrics.blankLines := Qfloor (Num.of_Z totalLines * (1 # 10));
          CodeMetrics.functions := 0;
          CodeMetrics.classes := 0;
          CodeMetrics.averageComplexity := avgComplexity |};
     ProjectMetrics.quality :=
       {| QualityMetrics.maintainabilityIndex := maintainabilityIndex;
          QualityMetrics.technicalDebt := totalIssues * 5;
          QualityMetrics.duplicateLines := 0;
          QualityMetrics.duplicatePercentage := 0 |};
     ProjectMetrics.complexity :=
       {| ComplexityMetrics.cyclomaticComplexity := avgComplexity;
          ComplexityMetrics.cognitiveComplexity := (avgComplexity * (12 # 10))%Q;
          ComplexityMetrics.nestingDepth := 0;
          ComplexityMetrics.linesOfCode := totalLines;
          ComplexityMetrics.maintainabilityIndex := maintainabilityIndex |};
     ProjectMetrics.grade := grade;
     ProjectMetrics.timestamp := now |}.

(** [createEmptyMetrics] *)
Definition createEmptyMetrics (now : Z) : ProjectMetrics.t :=
  {| ProjectMetrics.code :=
       {| CodeMetrics.totalFiles := 0; CodeMetrics.totalLines := 0;
          CodeMetrics.codeLines := 0; CodeMetrics.commentLines := 0;
          CodeMetrics.blankLines := 0; CodeMetrics.functions := 0;
          CodeMetrics.classes := 0; CodeMetrics.averageComplexity := 0%Q |};
     ProjectMetrics.quality :=
       {| QualityMetrics.maintainabilityIndex := 0%Q;
          QualityMetrics.technicalDebt := 0;
          QualityMetrics.duplicateLines := 0;
          QualityMetrics.duplicatePercentage := 0 |};
     ProjectMetrics.complexity :=
       {| ComplexityMetrics.cyclomaticComplexity := 0%Q;
          ComplexityMetrics.cognitiveComplexity := 0%Q;
          ComplexityMetrics.nestingDepth := 0;
          ComplexityMetrics.linesOfCode := 0;
          ComplexityMetrics.maintainabilityIndex := 0%Q |};
     ProjectMetrics.grade :=
       {| Grade.score := 0%Q; Grade.letter := F; Grade.label := "Not analyzed" |};
     ProjectMetrics.timestamp := now |}.

Record AnalysisOptions := {
  enableAI : option bool;
  includePatterns : option (list string);
  excludePatterns : option (list string);
  fileName : option string;
  opt_language : option string
}.

Section Service.
(** What the service reaches outside the analysis engine: the parser
    factory, the AI reviewer, the file system, the identifier generator
    ([uuidv4] for the issues of one analyzer run, [analysisId] for the
    identifier drawn by [analyzeDirectory]) and the clock.  A rejected
    promise is [None]; for [findFiles] it carries the message of the
    error. *)
Variable parseFile : string -> option ParseResult.
Variable reviewCode : ParseResult -> list Issue -> option (list Suggestion).
Variable findFiles : string -> AnalysisOptions -> string + list string.
Variable uuidv4 : nat -> string.
Variable analysisId : string.
Variable now : nat -> Z.

(** The coordinator built by the constructor of the service. *)
Definition analyzerCoordinator : list BaseAnalyzer.IAnalyzer.t :=
  AnalyzerCoordinator.constructor uuidv4.

(** [analyzeFile] of the service. *)
Definition analyzeFile (filePath : string) (options : AnalysisOptions)
    : option FileAnalysisResult.t :=
  parseResult <- parseFile filePath ;;
  let analysisResult := fst (AnalyzerCoordinator.analyzeFile analyzerCoordinator parseResult) in
  match enableAI options with
  | Some true =>
      aiSuggestions <- reviewCode parseResult (FileAnalysisResult.issues analysisResult) ;;
      Some {| FileAnalysisResult.file := FileAnalysisResult.file analysisResult;
              FileAnalysisResult.issues := FileAnalysisResult.issues analysisResult;
              FileAnalysisResult.suggestions :=
                FileAnalysisResult.suggestions analysisResult ++ aiSuggestions;
              FileAnalysisResult.metrics := FileAnalysisResult.metrics analysisResult |}
  | _ => Some analysisResult
  end.

(** One turn of the loop of [analyzeDirectory] over the files found: a
    file whose analysis fails leaves the result as it is. *)
Definition add_file (options : AnalysisOptions) (result : AnalysisResult.t) (file : string)
    : AnalysisResult.t :=
  match analyzeFile file options with
  | Some fileResult =>
      {| AnalysisResult.id := AnalysisResult.id result;
         AnalysisResult.status := AnalysisResult.status result;
         AnalysisResult.projectPath := AnalysisResult.projectPath result;
         AnalysisResult.files :=
           AnalysisResult.files result ++ [FileAnalysisResult.file fileResult];
         AnalysisResult.issues :=
           AnalysisResult.issues result ++ FileAnalysisResult.issues fileResult;
         AnalysisResult.suggestions :=
           AnalysisResult.suggestions result ++ FileAnalysisResult.suggestions fileResult;
         AnalysisResult.metrics := AnalysisResult.metrics result;
         AnalysisResult.startTime := AnalysisResult.startTime result;
         AnalysisResult.endTime := AnalysisResult.endTime result;
         AnalysisResult.duration := AnalysisResult.duration result;
         AnalysisResult.error := AnalysisResult.error result |}
  | None => result
  end.

(** [analyzeDirectory].  The clock is read for [startTime], then by
    [createEmptyMetrics], then, when the files were found, by
    [calculateProjectMetrics], and last for [endTime]. *)
Definition analyzeDirectory (directoryPath : string) (options : AnalysisOptions)
    : AnalysisResult.t :=
  let startTime := now 0%nat in
  let result :=
    {| AnalysisResult.id := analysisId;
       AnalysisResult.status := RUNNING;
       AnalysisResult.projectPath := directoryPath;
       AnalysisResult.files := [];
       AnalysisResult.issues := [];
       AnalysisResult.suggestions := [];
       AnalysisResult.metrics := createEmptyMetrics (now 1%nat);
       AnalysisResult.startTime := startTime;
       AnalysisResult.endTime := None;
       AnalysisResult.duration := None;
       AnalysisResult.error := None |} in
  match findFiles directoryPath options with
  | inr files =>
      let result := fold_left (add_file options) files result in
      {| AnalysisResult.id := AnalysisResult.id result;
         AnalysisResult.status := COMPLETED;
         AnalysisResult.projectPath := AnalysisResult.projectPath result;
         AnalysisResult.files := AnalysisResult.files result;
         AnalysisResult.issues := AnalysisResult.issues result;
         AnalysisResult.suggestions := AnalysisResult.suggestions result;
         AnalysisResult.metrics :=
           calculateProjectMetrics (AnalysisResult.files result)
             (AnalysisResult.issues result) (now 2%nat);
         AnalysisResult.startTime := AnalysisResult.startTime result;
         AnalysisResult.endTime := Some (now 3%nat);
         AnalysisResult.duration := Some (now 3%nat - AnalysisResult.startTime result);
         AnalysisResult.error := None |}
  | inl message =>
      {| AnalysisResult.id := AnalysisResult.id result;
         AnalysisResult.status := FAILED;
         AnalysisResult.projectPath := AnalysisResult.projectPath result;
         AnalysisResult.files := AnalysisResult.files result;
         AnalysisResult.issues := AnalysisResult.issues result;
         AnalysisResult.suggestions := AnalysisResult.suggestions result;
         AnalysisResult.metrics := AnalysisResult.metrics result;
         AnalysisResult.startTime := AnalysisResult.startTime result;
         AnalysisResult.endTime := Some (now 2%nat);
         AnalysisResult.duration := Some (now 2%nat - AnalysisResult.startTime result);
         AnalysisResult.error := Some message |}
  end.

End Service.

End AnalysisService.

(** ** parsers/base-parser.ts *)

Module BaseParser.

Definition toLowerCase_char (c : ascii) : ascii :=
  let n := nat_of_ascii c in
  if ((65 <=? n) && (n <=? 90))%nat then ascii_of_nat (n + 32) else c.

Fixpoint toLowerCase (s : string) : string :=
  match s with
  | EmptyString => EmptyString
  | String c s' => String (toLowerCase_char c) (toLowerCase s')
  end.

(** [s.split('.')]: the pieces of [s] between its dots; never empty. *)
Fixpoint split_dot (s : string) : list string :=
  match s with
  | EmptyString => [EmptyString]
  | String c s' =>
      if Ascii.eqb c "."%char then EmptyString :: split_dot s'
      else match split_dot s' with
           | [] => [String c EmptyString]
           | piece :: pieces => String c piece :: pieces
           end
  end.

(** [Array.prototype.pop]: the last element, [undefined] on an empty array. *)
Fixpoint pop {A} (l : list A) : option A :=
  match l with
  | [] => None
  | [x] => Some x
  | _ :: l' => pop l'
  end.

(** The [switch] over the extension, shared by the two [detectLanguage]. *)
Definition language_of (ext : option string) : Language :=
  match ext with
  | Some ext =>
      if String.eqb ext "js" || String.eqb ext "jsx" || String.eqb ext "mjs"
         || String.eqb ext "cjs" then JAVASCRIPT
      else if String.eqb ext "ts" || String.eqb ext "tsx" then TYPESCRIPT
      else if String.eqb ext "py" then PYTHON
      else UNKNOWN
  | None => UNKNOWN
  end.

(** [BaseParser.detectLanguage] *)
Definition detectLanguage (filePath : string) : Language :=
  let ext := option_map toLowerCase (pop (split_dot filePath)) in
  language_of ext.

(** The value of a member of the enumeration [Language]. *)
Definition language_value (language : Language) : string :=
  match language with
  | JAVASCRIPT => "javascript"
  | TYPESCRIPT => "typescript"
  | PYTHON => "python"
  | UNKNOWN => "unknown"
  end.

Definition createParseResult (ast : ASTNode) (language : Language)
    (sourceCode filePath : string) : ParseResult :=
  {| ast := ast; language := language; sourceCode := sourceCode; pr_filePath := filePath |}.

End BaseParser.

(** ** parsers/javascript-parser.ts *)

Module JavaScriptParser.
Import BaseParser.

Definition supports (language : Language) : bool :=
  match language with
  | JAVASCRIPT | TYPESCRIPT => true
  | _ => false
  end.

Section Parse.
(** [parse] of @babel/parser with the options of the source: the tree, or
    the message of the error it threw. *)
Variable babel : string -> string + ASTNode.

Definition parse (code filePath : string) : string + ParseResult :=
  let language := detectLanguage filePath in
  if negb (supports language) then
    inl (template ["Unsupported language: "; language_value language]%string)
  else
    match babel code with
    | inr ast => inr (createParseResult ast language code filePath)
    | inl message => inl (template ["Parse error in "; filePath; ": "; message]%string)
    end.

End Parse.

End JavaScriptParser.

(** ** parsers/python-parser.ts *)

Module TreeSitter.

Module Point.
Record t := { row : Z; column : Z }.
End Point.

(** A [SyntaxNode] of tree-sitter; [child(i)] may be [null]. *)
#[warnings="-register-all"] Inductive SyntaxNode :=
| Node (type : string) (startPosition endPosition : Point.t) (startIndex endIndex : Z)
    (text : string) (children : list (option SyntaxNode)).

Definition type_of (node : SyntaxNode) : string :=
  match node with Node type _ _ _ _ _ _ => type end.

Definition children_of (node : SyntaxNode) : list (option SyntaxNode) :=
  match node with Node _ _ _ _ _ _ children => children end.

(** The nodes of a syntax tree in pre-order, the absent children left out. *)
Fixpoint preorder (node : SyntaxNode) : list SyntaxNode :=
  match node with
  | Node _ _ _ _ _ _ children =>
      node ::
      (fix over (l : list (option SyntaxNode)) : list SyntaxNode :=
         match l with
         | [] => []
         | Some child :: l' => preorder child ++ over l'
         | None :: l' => over l'
         end) children
  end.

(** The children that are there. *)
Definition present (children : list (option SyntaxNode)) : list SyntaxNode :=
  flat_map (fun child => match child with Some c => [c] | None => [] end) children.

End TreeSitter.

Module PythonParser.
Import BaseParser TreeSitter.

Definition supports (language : Language) : bool :=
  match language with
  | PYTHON => true
  | _ => false
  end.

(** [convertTreeSitterToAST] *)
Fixpoint convertTreeSitterToAST (node : SyntaxNode) : ASTNode :=
  match node with
  | Node type startPosition endPosition startIndex endIndex text children =>
      VObj (Some type)
        (Some {| start := {| line := Point.row startPosition + 1;
                             column := Point.column startPosition |};
                 end_ := {| line := Point.row endPosition + 1;
                            column := Point.column endPosition |} |})
        (Some (startIndex, endIndex))
        [("text"%string, VStr text);
         ("children"%string,
           VArr ((fix convert (l : list (option SyntaxNode)) : list value :=
                    match l with
                    | [] => []
                    | Some child :: l' => convertTreeSitterToAST child :: convert l'
                    | None :: l' => convert l'
                    end) children))]
  end.

Section Parse.
(** [parser.parse(code).rootNode], or the message of the error thrown. *)
Variable tree_sitter : string -> string + SyntaxNode.

Definition parse (code filePath : string) : string + ParseResult :=
  let language := detectLanguage filePath in
  if negb (supports language) then
    inl (template ["Unsupported language: "; language_value language]%string)
  else
    match tree_sitter code with
    | inr rootNode =>
        inr (createParseResult (convertTreeSitterToAST rootNode) language code filePath)
    | inl message => inl (template ["Parse error in "; filePath; ": "; message]%string)
    end.

End Parse.

End PythonParser.

(** ** parsers/parser-factory.ts *)

Module ParserFactory.
Import BaseParser.

(** The parsers the factory creates. *)
Inductive IParser := JavaScript | Python.

Definition Language_eqb (a b : Language) : bool :=
  match a, b with
  | JAVASCRIPT, JAVASCRIPT | TYPESCRIPT, TYPESCRIPT | PYTHON, PYTHON
  | UNKNOWN, UNKNOWN => true
  | _, _ => false
  end.

(** [Map<Language, IParser>]; the factory never iterates over it. *)
Definition Parsers : Type := Language -> option IParser.

Definition empty : Parsers := fun _ => None.

Definition has (language : Language) (parsers : Parsers) : bool :=
  match parsers language with Some _ => true | None => false end.

Definition set (language : Language) (parser : IParser) (parsers : Parsers) : Parsers :=
  fun l => if Language_eqb l language then Some parser else parsers l.

Section Factory.
(** Whether [require('./python-parser')] and [new PythonParser()] succeed,
    and the two parsing libraries. *)
Variable python_loads : bool.
Variable babel : string -> string + ASTNode.
Variable tree_sitter : string -> string + TreeSitter.SyntaxNode.

(** [initializeParser]: the new map and whether the failure was logged. *)
Definition initializeParser (language : Language) (parsers : Parsers) : Parsers * bool :=
  match language with
  | JAVASCRIPT | TYPESCRIPT =>
      if negb (has language parsers) then (set language JavaScript parsers, false)
      else (parsers, false)
  | PYTHON =>
      if negb (has language parsers) then
        if python_loads then (set language Python parsers, false) else (parsers, true)
      else (parsers, false)
  | UNKNOWN => (parsers, false)
  end.

(** [getParser], with the map as it leaves it. *)
Definition getParser (language : Language) (parsers : Parsers) : option IParser * Parsers :=
  let parsers' :=
    if negb (has language parsers) then fst (initializeParser language parsers)
    else parsers in
  (parsers' language, parsers').

(** [ParserFactory.detectLanguage], a copy of the one of [BaseParser]. *)
Definition detectLanguage (filePath : string) : Language :=
  let ext := option_map toLowerCase (pop (split_dot filePath)) in
  language_of ext.

Definition run (parser : IParser) (code filePath : string) : string + ParseResult :=
  match parser with
  | JavaScript => JavaScriptParser.parse babel code filePath
  | Python => PythonParser.parse tree_sitter code filePath
  end.

(** [parseCode]: the result, or the message of the error, and the map. *)
Definition parseCode (code filePath : string) (parsers : Parsers)
    : (string + ParseResult) * Parsers :=
  let language := detectLanguage filePath in
  if Language_eqb language UNKNOWN then
    (inl (template ["Unsupported file type: "; filePath]%string), parsers)
  else
    let '(parser, parsers') := getParser language parsers in
    match parser with
    | None =>
        (inl (template ["No parser available for language: ";
                        language_value language]%string), parsers')
    | Some parser => (run parser code filePath, parsers')
    end.

(** [parseFile]; [readFile] gives the text of the file or the message of
    the error. *)
Definition parseFile (readFile : string -> string + string) (filePath : string)
    (parsers : Parsers) : (string + ParseResult) * Parsers :=
  match readFile filePath with
  | inr code => parseCode code filePath parsers
  | inl message => (inl message, parsers)
  end.

Definition isSupported (filePath : string) (parsers : Parsers) : bool :=
  let language := detectLanguage filePath in
  negb (Language_eqb language UNKNOWN) && has language parsers.

End Factory.

Definition getSupportedExtensions : list string :=
  ["js"; "jsx"; "ts"; "tsx"; "mjs"; "cjs"; "py"]%string.

End ParserFactory.

(** ** api/analysis-service.ts, on code held in memory *)

Module InMemory.
Import AnalysisService.

Section Service.
(** The parser factory with its libraries, the AI reviewer (its
    suggestions, or the message of the error) and the identifier
    generator. *)
Variable python_loads : bool.
Variable babel : string -> string + ASTNode.
Variable tree_sitter : string -> string + TreeSitter.SyntaxNode.
Variable reviewCode : ParseResult -> list Issue -> string + list Suggestion.
Variable uuidv4 : nat -> string.

(** [analyzeCode]: the result or the message of the error, and the parsers
    of the factory as the call leaves them. *)
Definition analyzeCode (code : string) (options : AnalysisOptions)
    (parsers : ParserFactory.Parsers)
    : (string + FileAnalysisResult.t) * ParserFactory.Parsers :=
  let fileName :=
    match fileName options with
    | Some name => if String.eqb name EmptyString then "untitled.js"%string else name
    | None => "untitled.js"%string
    end in
  let '(parsed, parsers') :=
    ParserFactory.parseCode python_loads babel tree_sitter code fileName parsers in
  match parsed with
  | inl message => (inl message, parsers')
  | inr parseResult =>
      let analysisResult :=
        fst (AnalyzerCoordinator.analyzeFile
               (AnalyzerCoordinator.constructor uuidv4) parseResult) in
      match enableAI options with
      | Some true =>
          match reviewCode parseResult (FileAnalysisResult.issues analysisResult) with
          | inr aiSuggestions =>
              (inr {| FileAnalysisResult.file := FileAnalysisResult.file analysisResult;
                      FileAnalysisResult.issues := FileAnalysisResult.issues analysisResult;
                      FileAnalysisResult.suggestions :=
                        FileAnalysisResult.suggestions analysisResult ++ aiSuggestions;
                      FileAnalysisResult.metrics :=
                        FileAnalysisResult.metrics analysisResult |}, parsers')
          | inl message => (inl message, parsers')
          end
      | _ => (inr analysisResult, parsers')
      end
  end.

End Service.

End InMemory.

(** ** The shape of a tree, as the traversal sees it *)

Module Tree.
Import ASTTraverser.

(** The nodes that a property value contributes to the children of its
    owner: the value itself when it is an object with a [type], or those of
    its elements that are, when it is an array. *)
Definition nodes_of (v : value) : list ASTNode :=
  match v with
  | VArr arr => filter (fun child => is_object child && type_truthy child) arr
  | VObj _ _ _ _ => if type_truthy v then [v] else []
  | _ => []
  end.

(** An element of an array that the traversal takes for a node. *)
Definition kept (child : value) : bool := is_object child && type_truthy child.

(** The children of a node, left to right: the nodes held by its
    properties, the ignored keys left out. *)
Definition children (node : ASTNode) : list ASTNode :=
  match node with
  | VObj _ _ _ props =>
      flat_map (fun kv => if ignored (fst kv) then [] else nodes_of (snd kv)) props
  | VArr elems => flat_map nodes_of elems
  | _ => []
  end.

(** [flat_map f (children node)], written by recursion on the node. *)
Definition over_children {A} (f : ASTNode -> list A) (node : ASTNode) : list A :=
  let over_value (v : value) : list A :=
    match v with
    | VArr arr =>
        (fix over_array (l : list value) : list A :=
           match l with
           | [] => []
           | child :: l' =>
               (if is_object child && type_truthy child then f child else [])
               ++ over_array l'
           end) arr
    | VObj _ _ _ _ => if type_truthy v then f v else []
    | _ => []
    end in
  match node with
  | VObj _ _ _ props =>
      (fix over_props (ps : list (string * value)) : list A :=
         match ps with
         | [] => []
         | (key, v) :: ps' =>
             (if ignored key then [] else over_value v) ++ over_props ps'
         end) props
  | VArr elems =>
      (fix over_elems (vs : list value) : list A :=
         match vs with
         | [] => []
         | v :: vs' => over_value v ++ over_elems vs'
         end) elems
  | _ => []
  end.

(** The nodes reachable from [node], in pre-order, children left to right:
    a node comes before its descendants, and the subtree of a child before
    that of the next child. *)
Fixpoint preorder (node : ASTNode) : list ASTNode :=
  match node with
  | VObj _ _ _ _ | VArr _ => node :: over_children preorder node
  | _ => []
  end.

(** The proper descendants of a node. *)
Definition descendants (node : ASTNode) : list ASTNode :=
  flat_map preorder (children node).

Fixpoint size (v : value) : nat :=
  match v with
  | VArr elems =>
      S ((fix sum (l : list value) : nat :=
            match l with [] => O | x :: l' => (size x + sum l')%nat end) elems)
  | VObj _ _ _ props =>
      S ((fix sum (ps : list (string * value)) : nat :=
            match ps with [] => O | (_, x) :: ps' => (size x + sum ps')%nat end) props)
  | _ => 1%nat
  end.

(** Running a fallible state transformer over a list, left to right. *)
Fixpoint each {St A} (f : A -> St -> option St) (l : list A) (s : St) : option St :=
  match l with
  | [] => Some s
  | x :: l' => s' <- f x s ;; each f l' s'
  end.

End Tree.

(** ** The nodes a traversal calls at

    [visits] is [traverse] run on a state that carries, next to the state of
    the visitor, the list of the nodes on which [traverse] was called (and
    went past its guard), in the order of the calls. *)

Module Trace.
Import ASTTraverser.

Section Visits.
Variable St : Type.










(** A callback that keeps an invariant of the state. *)
Definition preserves (P : St -> Prop) (f : VisitorFunction St) : Prop :=
  forall node parent path s s' b,
    P s -> f node parent path s = Some (s', b) -> P s'.

Definition entry_preserves (P : St -> Prop) (e : VisitorEntry St) : Prop :=
  match e with
  | Fn f => preserves P f
  | Hooks enter exit =>
      (forall f, enter = Some f -> preserves P f) /\
      (forall f, exit = Some f -> preserves P f)
  end.


End Visits.

End Trace.

(** ** The callbacks a traversal runs

    [logged visitor] is [visitor] with every callback made to note, after it
    has run, under which key and in which place of its entry it is
    registered and on which node it was called.  [traverse] itself is run on
    it; the notes come in the order of the calls. *)

Module Events.
Import ASTTraverser.

(** The place of a callback in the entry of its key: the entry itself, when
    it is a function, or the [enter] or the [exit] of a pair. *)
Inductive Role := AsFunction | AsEnter | AsExit.

Definition Event : Type := (string * Role * ASTNode)%type.

Section Log.
Variable St : Type.




(** The call made on arriving at [node]: that of the function or of the
    [enter] registered for its type, if there is one. *)
Definition entering (visitor : Visitor St) (node : ASTNode) : list Event :=
  let key := type_key (type_of node) in
  match visitor key with
  | Some (Fn _) => [(key, AsFunction, node)]
  | Some (Hooks (Some _) _) => [(key, AsEnter, node)]
  | _ => []
  end.

(** The call of the wildcard on [node], when the wildcard is a function. *)
Definition passing (visitor : Visitor St) (node : ASTNode) : list Event :=
  match visitor "*"%string with
  | Some (Fn _) => [("*"%string, AsFunction, node)]
  | _ => []
  end.

(** The call made on leaving [node]: that of the [exit] registered for its
    type, if there is one. *)
Definition leaving (visitor : Visitor St) (node : ASTNode) : list Event :=
  let key := type_key (type_of node) in
  match visitor key with
  | Some (Hooks _ (Some _)) => [(key, AsExit, node)]
  | _ => []
  end.

(** The calls of a traversal that skips nothing: at each node the enter
    callback, then the wildcard, then the calls of the children, left to
    right, then the exit callback. *)
Fixpoint expected (visitor : Visitor St) (node : ASTNode) {struct node} : list Event :=
  match node with
  | VObj _ _ _ _ | VArr _ =>
      entering visitor node ++ passing visitor node
      ++ Tree.over_children (expected visitor) node ++ leaving visitor node
  | _ => []
  end.



End Log.

End Events.

(** ** Sample trees, in the shape the Babel parser gives them *)

Module Examples.

Definition at_lines (from to : Z) : option SourceRange :=
  Some {| start := {| line := from; column := 0 |};
          end_ := {| line := to; column := 0 |} |}.

Definition node (type : string) (loc : option SourceRange)
    (props : list (string * value)) : ASTNode :=
  VObj (Some type) loc None props.

Definition Identifier (name : string) : ASTNode :=
  node "Identifier" (at_lines 1 1) [("name"%string, VStr name)].

Definition StringLiteral (text : string) : ASTNode :=
  node "StringLiteral" (at_lines 1 1) [("value"%string, VStr text)].

Definition NumericLiteral (n : Z) : ASTNode :=
  node "NumericLiteral" (at_lines 1 1) [("value"%string, VNum n)].

Definition BooleanLiteral (b : bool) : ASTNode :=
  node "BooleanLiteral" (at_lines 1 1) [("value"%string, VBool b)].

Definition BlockStatement (body : list ASTNode) : ASTNode :=
  node "BlockStatement" (at_lines 1 1)
    [("body"%string, VArr body); ("directives"%string, VArr [])].

Definition ExpressionStatement (expression : ASTNode) : ASTNode :=
  node "ExpressionStatement" (at_lines 1 1) [("expression"%string, expression)].

(** [if (true) { body }] *)
Definition IfStatement (body : list ASTNode) : ASTNode :=
  node "IfStatement" (at_lines 1 1)
    [("test"%string, BooleanLiteral true);
     ("consequent"%string, BlockStatement body);
     ("alternate"%string, VNull)].

(** [function name() { body }] *)
Definition FunctionDeclaration (name : string) (body : list ASTNode) : ASTNode :=
  node "FunctionDeclaration" (at_lines 1 1)
    [("id"%string, Identifier name);
     ("generator"%string, VBool false);
     ("async"%string, VBool false);
     ("params"%string, VArr []);
     ("body"%string, BlockStatement body)].

Definition File (body : list ASTNode) : ASTNode :=
  node "File" (at_lines 1 1)
    [("program"%string,
       node "Program" (at_lines 1 1)
         [("sourceType"%string, VStr "module");
          ("interpreter"%string, VNull);
          ("body"%string, VArr body);
          ("directives"%string, VArr [])]);
     ("comments"%string, VArr [])].

(** [n] statements [if (true) {}], one after the other. *)
Definition consecutive_ifs (n : nat) : list ASTNode := repeat (IfStatement []) n.

(** [n] statements [if (true) { ... }], each inside the one before. *)
Fixpoint nested_ifs (n : nat) : list ASTNode :=
  match n with
  | O => []
  | S n' => [IfStatement (nested_ifs n')]
  end.

(** The node types that occur in these functions. *)
Definition of_sample_type (x : ASTNode) : bool :=
  match type_of x with
  | Some t =>
      existsb (String.eqb t)
        ["FunctionDeclaration"; "Identifier"; "BlockStatement"; "IfStatement";
         "BooleanLiteral"]%string
  | None => false
  end.

Definition parsed (ast : ASTNode) (sourceCode : string) : ParseResult :=
  {| ast := ast; language := JAVASCRIPT; sourceCode := sourceCode;
     pr_filePath := "test.js" |}.

Definition context (parseResult : ParseResult) : BaseAnalyzer.AnalyzerContext :=
  {| BaseAnalyzer.parseResult := parseResult;
     BaseAnalyzer.issues := [];
     BaseAnalyzer.options := None |}.

Definition uuid (n : nat) : string := String.append "uuid-" (string_of_nat n).

(** [db.query("SELECT * FROM users WHERE id = " + userId)], with any source
    spans. *)
Definition sql_concatenation (loc : option SourceRange) : ASTNode :=
  node "BinaryExpression" loc
    [("left"%string, StringLiteral "SELECT * FROM users WHERE id = ");
     ("operator"%string, VStr "+");
     ("right"%string, Identifier "userId")].

Definition sql_query_call (call_loc arg_loc : option SourceRange) : ASTNode :=
  node "CallExpression" call_loc
    [("callee"%string,
       node "MemberExpression" (at_lines 1 1)
         [("object"%string, Identifier "db");
          ("computed"%string, VBool false);
          ("property"%string, Identifier "query")]);
     ("arguments"%string, VArr [sql_concatenation arg_loc])].

(** The text of that statement. *)
Definition sql_source : string :=
  template ["db.query("; dquote; "SELECT * FROM users WHERE id = "; dquote;
            " + userId);"]%string.

(** A file of ten statements [eval;], and a project made of that file. *)
Definition ten_evals : ParseResult :=
  parsed (File (repeat (ExpressionStatement (Identifier "eval")) 10))
    (String.concat newline (repeat "eval;"%string 10)).

Definition default_options : AnalysisService.AnalysisOptions :=
  {| AnalysisService.enableAI := None;
     AnalysisService.includePatterns := None;
     AnalysisService.excludePatterns := None;
     AnalysisService.fileName := None;
     AnalysisService.opt_language := None |}.

Definition ten_evals_project : AnalysisResult.t :=
  AnalysisService.analyzeDirectory
    (fun _ => Some ten_evals)
    (fun _ _ => Some [])
    (fun _ _ => inr ["ten-evals.js"%string])
    uuid "analysis-0" (fun n => Z.of_nat n)
    "project" default_options.

(** [function busy() { if (true) {} ... }] with eleven such statements. *)
Definition busy_function : ParseResult :=
  parsed (File [FunctionDeclaration "busy" (consecutive_ifs 11)])
    "function busy() {}".

(** [a && b || c;] *)
Definition both_or_either : ASTNode :=
  ExpressionStatement
    (node "LogicalExpression" (at_lines 1 1)
       [("left"%string,
          node "LogicalExpression" (at_lines 1 1)
            [("left"%string, Identifier "a");
             ("operator"%string, VStr "&&");
             ("right"%string, Identifier "b")]);
        ("operator"%string, VStr "||");
        ("right"%string, Identifier "c")]).

(** A function [f] whose one parameter, [unused], is a node of a type other
    than [Identifier]. *)
Definition plain_parameter : ParseResult :=
  parsed
    (File [node "FunctionDeclaration" (at_lines 1 1)
             [("id"%string, Identifier "f");
              ("params"%string,
                VArr [node "Parameter" (at_lines 1 1) [("name"%string, VStr "unused")]]);
              ("body"%string, BlockStatement [])]])
    "function f(unused) {}".

(** The syntax tree of the Python statement [eval(2 * 3)], the positions
    left at zero. *)
Definition python_node (type text : string)
    (children : list (option TreeSitter.SyntaxNode)) : TreeSitter.SyntaxNode :=
  TreeSitter.Node type
    {| TreeSitter.Point.row := 0; TreeSitter.Point.column := 0 |}
    {| TreeSitter.Point.row := 0; TreeSitter.Point.column := 0 |} 0 0 text children.

Definition python_eval : TreeSitter.SyntaxNode :=
  python_node "module" "eval(2 * 3)"
    [Some (python_node "expression_statement" "eval(2 * 3)"
       [Some (python_node "call" "eval(2 * 3)"
          [Some (python_node "identifier" "eval" []);
           Some (python_node "argument_list" "(2 * 3)"
             [Some (python_node "(" "(" []);
              Some (python_node "binary_operator" "2 * 3"
                [Some (python_node "integer" "2" []);
                 Some (python_node "*" "*" []);
                 Some (python_node "integer" "3" [])]);
              None;
              Some (python_node ")" ")" [])])])])].

(** A method definition whose value is a function expression with eleven
    statements [if (true) {}], as a parser of the ESTree family gives for
    [class C { busy() { ... } }]. *)
Definition busy_method : ParseResult :=
  parsed
    (File [node "ClassDeclaration" (at_lines 1 1)
             [("id"%string, Identifier "C");
              ("body"%string,
                node "ClassBody" (at_lines 1 1)
                  [("body"%string,
                     VArr [node "MethodDefinition" (at_lines 1 1)
                             [("key"%string, Identifier "busy");
                              ("value"%string,
                                node "FunctionExpression" (at_lines 1 1)
                                  [("params"%string, VArr []);
                                   ("body"%string,
                                     BlockStatement (consecutive_ifs 11))])]])])]])
    "class C { busy() {} }".

(** Five lines, and a node on the third. *)
Definition five_lines : string :=
  String.concat newline ["one"; "two"; "three"; "four"; "five"]%string.

Definition third_line : ASTNode := node "ExpressionStatement" (at_lines 3 3) [].




(** [const name = 1;] *)
Definition const_declaration (name : string) : ASTNode :=
  node "VariableDeclaration" (at_lines 1 1)
    [("declarations"%string,
       VArr [node "VariableDeclarator" (at_lines 1 1)
               [("id"%string, Identifier name);
                ("init"%string, NumericLiteral 1)]]);
     ("kind"%string, VStr "const")].

(** [const x = 1;] *)
Definition const_x : ASTNode := const_declaration "x".

End Examples.

(** ** What the specification says, in its own words *)

Module Spec.
Import BaseAnalyzer.

(** The findings an analyzer contributes when it is run with the findings
    gathered so far: those it returns, and none when it throws. *)
Definition contribution (parseResult : ParseResult) (so_far : list Issue)
    (analyzer : IAnalyzer.t) : list Issue :=
  match IAnalyzer.analyze analyzer
          {| parseResult := parseResult; issues := so_far; options := None |} with
  | Some found => found
  | None => []
  end.

(** The findings of the analyzers, concatenated in the order of the
    analyzers, nothing removed. *)
Fixpoint merged (parseResult : ParseResult) (analyzers : list IAnalyzer.t)
    (so_far : list Issue) : list Issue :=
  match analyzers with
  | [] => so_far
  | analyzer :: rest =>
      merged parseResult rest (so_far ++ contribution parseResult so_far analyzer)
  end.

(** The names of the analyzers that threw, in the order of the analyzers. *)
Fixpoint failed (parseResult : ParseResult) (analyzers : list IAnalyzer.t)
    (so_far : list Issue) : list string :=
  match analyzers with
  | [] => []
  | analyzer :: rest =>
      match IAnalyzer.analyze analyzer
              {| parseResult := parseResult; issues := so_far; options := None |} with
      | Some found => failed parseResult rest (so_far ++ found)
      | None => IAnalyzer.name analyzer :: failed parseResult rest so_far
      end
  end.

(** An analyzer that does not look at the findings gathered so far. *)
Definition independent (analyzer : IAnalyzer.t) : Prop :=
  forall parseResult so_far,
    IAnalyzer.analyze analyzer
      {| parseResult := parseResult; issues := so_far; options := None |} =
    IAnalyzer.analyze analyzer
      {| parseResult := parseResult; issues := []; options := None |}.

(** A field that is present and not the empty string. *)
Definition filled (field : option string) : bool :=
  match field with
  | Some text => negb (String.eqb text EmptyString)
  | None => false
  end.

(** A finding that carries its vulnerability name, its CWE identifier and
    its OWASP bucket. *)
Definition has_taxonomy (i : Issue) : bool :=
  filled (vulnerability i) && filled (cwe i) && filled (owasp i).

Definition all_classified (issues : list Issue) : Prop :=
  Forall (fun i => has_taxonomy i = true) issues.

(** Files on which the read [(f as any).metrics] finds nothing. *)
Definition without_metrics (files : list FileInfo.t) : Prop :=
  Forall (fun f => FileInfo.metrics f = None) files.

(** The scores of the complexity findings among [issues]. *)
Definition complexity_scores (issues : list Issue) : list Z :=
  map (fun i => match complexityScore i with Some n => n | None => 0 end)
    (filter (fun i => IssueCategory_eqb (category i) COMPLEXITY) issues).

Definition sum (l : list Z) : Z := fold_right Z.add 0 l.

(** "[complexity] = mean of all ComplexityFinding scores in this file, or 1
    if none fired" *)
Definition file_complexity (issues : list Issue) : Q :=
  match complexity_scores issues with
  | [] => 1
  | scores => inject_Z (sum scores) / inject_Z (Z.of_nat (List.length scores))
  end%Q.

(** "[maintainability] = max(0, 100 - 2 (total finding count) - 2 complexity)" *)
Definition file_maintainability (issues : list Issue) : Q :=
  (let m := 100 - 2 * inject_Z (Z.of_nat (List.length issues))
            - 2 * file_complexity issues in
   if Qle_bool 0 m then m else 0)%Q.

End Spec.

(** ** What the analyzers count, as predicates on nodes *)

Module Measure.
Import ASTTraverser.

(** The nodes for which [calculateCyclomaticComplexity] adds one: a
    conditional, a loop, a [catch], a [case] with a test, a logical [&&] or
    [||]. *)
Definition is_decision_point (node : ASTNode) : bool :=
  match type_of node with
  | Some t =>
      existsb (fun k => String.eqb k t)
        ["IfStatement"; "ConditionalExpression"; "ForStatement"; "ForInStatement";
         "ForOfStatement"; "WhileStatement"; "DoWhileStatement"; "CatchClause"]%string
      || (String.eqb "SwitchCase" t && truthy node@."test")
      || (String.eqb "LogicalExpression" t && ComplexityAnalyzer.is_logical_operator node)
  | None => false
  end.

(** A logical expression whose operator is [&&] or [||]. *)
Definition is_short_circuit (node : ASTNode) : bool :=
  has_type "LogicalExpression" node && ComplexityAnalyzer.is_logical_operator node.

(** The number of nodes of a tree that satisfy [p]. *)
Definition count (p : ASTNode -> bool) (node : ASTNode) : Z :=
  Z.of_nat (List.length (filter p (Tree.preorder node))).

(** The names that every object literal inherits from [Object.prototype].
    Read as a key of a visitor written as a literal they yield that member
    instead of nothing, and several of these members raise when called as a
    callback; no parser emits them as node types. *)
Definition inherited : list string :=
  ["constructor"; "hasOwnProperty"; "isPrototypeOf"; "propertyIsEnumerable";
   "toLocaleString"; "toString"; "valueOf"; "__proto__";
   "__defineGetter__"; "__defineSetter__"; "__lookupGetter__";
   "__lookupSetter__"]%string.

(** A tree none of whose nodes has such a name as its type. *)
Definition parser_typed (node : ASTNode) : bool :=
  forallb (fun x => negb (existsb (String.eqb (type_key (type_of x))) inherited))
    (Tree.preorder node).

Definition Severity_eqb (a b : Severity) : bool :=
  match a, b with
  | ERROR, ERROR | WARNING, WARNING | INFO, INFO => true
  | _, _ => false
  end.

(** A finding as the Complexity Analyzer makes them: of category complexity,
    with a score above its threshold, under one of the rules that can fire. *)
Definition is_complexity_finding (i : Issue) : bool :=
  IssueCategory_eqb (category i) COMPLEXITY
  && match complexityScore i, threshold i with
     | Some score, Some limit =>
         (limit <? score)
         && ((String.eqb (ruleId i) "high-cyclomatic-complexity"
              && (limit =? 10) && Severity_eqb (severity i) WARNING)
             || (String.eqb (ruleId i) "high-cognitive-complexity"
                 && (limit =? 15) && Severity_eqb (severity i) WARNING)
             || (String.eqb (ruleId i) "long-function"
                 && (limit =? 50) && Severity_eqb (severity i) INFO))
     | _, _ => false
     end.

(** [node.type] read as the key of a visitor is [nodeType]. *)
Definition keyed (nodeType : string) (node : ASTNode) : bool :=
  String.eqb nodeType (type_key (type_of node)).

(** The findings of [issues] raised under [rule], in the order of [issues]. *)
Definition reported_under (rule : string) (issues : list Issue) : list Issue :=
  filter (fun i => String.eqb (ruleId i) rule) issues.

(** Where a finding made for [node] without a location of its own is put:
    the span of the node, the origin when it has none. *)
Definition place (node : ASTNode) : SourceRange :=
  {| start := match loc_of node with Some l => start l | None => BaseAnalyzer.origin end;
     end_ := match loc_of node with Some l => end_ l | None => BaseAnalyzer.origin end |}.

(** An identifier named after one of the functions that run code given as
    text, wherever it stands. *)
Definition is_dangerous_identifier (node : ASTNode) : bool :=
  keyed "Identifier" node
  && includes_str ["eval"; "Function"; "setTimeout"; "setInterval"]%string node@."name".

(** The rows of the Security Analyzer: rule, severity, vulnerability name,
    CWE identifier, OWASP bucket. *)
Definition security_rules : list (string * Severity * string * string * string) :=
  [ ("sql-injection", ERROR, "SQL Injection", "CWE-89", "A03:2021 - Injection");
    ("command-injection", ERROR, "Command Injection", "CWE-78", "A03:2021 - Injection");
    ("xss-danger", WARNING, "Cross-Site Scripting (XSS)", "CWE-79", "A03:2021 - Injection");
    ("hardcoded-secret", ERROR, "Hardcoded Secrets", "CWE-798",
     "A07:2021 - Identification and Authentication Failures");
    ("dangerous-function", WARNING, "Code Injection", "CWE-94", "A03:2021 - Injection")
  ]%string.

Definition is_text (expected : string) (field : option string) : bool :=
  match field with Some text => String.eqb text expected | None => false end.

(** A finding that is an instance of one of these rows: of category
    security, with the severity and the taxonomy of its rule, and no
    complexity score. *)
Definition is_security_finding (i : Issue) : bool :=
  IssueCategory_eqb (category i) SECURITY
  && existsb (fun row =>
                match row with
                | (rule, sev, vuln, cwe_id, owasp_id) =>
                    String.eqb (ruleId i) rule && Severity_eqb (severity i) sev
                    && is_text vuln (vulnerability i) && is_text cwe_id (cwe i)
                    && is_text owasp_id (owasp i)
                end) security_rules
  && match complexityScore i, threshold i with None, None => true | _, _ => false end.

(** What a check of the Security Analyzer adds for a node: findings of one
    rule, each an instance of its row, placed at the node. *)
Definition adds (rule : string) (node : ASTNode) (added : list Issue) : Prop :=
  Forall (fun i => ruleId i = rule
                   /\ location i = place node
                   /\ is_security_finding i = true) added.

(** The findings under "dangerous-function" are those of the dangerous
    identifiers among [seen], one for each, in the same order and placed at
    the identifier. *)
Definition reports_dangerous (seen : list ASTNode) (issues : list Issue) : Prop :=
  map location (reported_under "dangerous-function" issues) =
  map place (filter is_dangerous_identifier seen).

(** The rules of the Code Quality Analyzer that can fire, with their
    severities. *)
Definition quality_rules : list (string * Severity) :=
  [ ("magic-number", INFO); ("long-parameter-list", INFO);
    ("empty-catch-block", WARNING); ("console-statement", INFO);
    ("todo-comment", INFO); ("unused-variable", WARNING) ]%string.

(** A finding that is an instance of one of them: a code smell of that
    severity, without taxonomy and without score. *)
Definition is_quality_finding (i : Issue) : bool :=
  IssueCategory_eqb (category i) CODE_SMELL
  && existsb (fun row => String.eqb (ruleId i) (fst row)
                         && Severity_eqb (severity i) (snd row)) quality_rules
  && match vulnerability i, cwe i, owasp i, complexityScore i, threshold i with
     | None, None, None, None, None => true
     | _, _, _, _, _ => false
     end.

(** A finding made while the tree is walked, before the unused variables
    are looked for. *)
Definition is_walk_finding (i : Issue) : Prop :=
  is_quality_finding i = true /\ ruleId i <> "unused-variable"%string.

Definition unused_message (variable : string) : string :=
  template ["Variable '"; variable; "' is declared but never used."]%string.

(** [i] reports [variable] as unused in [ast]: the name does not start with
    an underscore, no [Identifier] node of the tree carries it, and the
    finding is placed at the first node, in pre-order, that has this name or
    whose [id] has it. *)
Definition reports_unused (ast : ASTNode) (i : Issue) : Prop :=
  exists (variable : string) (node : ASTNode),
    message i = unused_message variable
    /\ startsWith "_" variable = false
    /\ find (CodeQualityAnalyzer.names variable) (Tree.preorder ast) = Some node
    /\ location i = place node
    /\ forall x, In x (Tree.preorder ast) -> keyed "Identifier" x = true ->
                 x@."name" <> VStr variable.

(** [used] holds the name of every [Identifier] node among [seen]. *)
Definition covers (seen : list ASTNode) (used : list value) : Prop :=
  forall x v, In x seen -> keyed "Identifier" x = true ->
              x@."name" = VStr v -> v <> EmptyString ->
              CodeQualityAnalyzer.has (VStr v) used = true.

(** The state of the Code Quality Analyzer after the nodes [seen]. *)
Definition quality_state (seen : list ASTNode) (s : CodeQualityAnalyzer.State) : Prop :=
  covers seen (CodeQualityAnalyzer.usedVariables s)
  /\ Forall (fun v => truthy v = true) (CodeQualityAnalyzer.declaredVariables s)
  /\ Forall is_walk_finding (CodeQualityAnalyzer.issues s).

(** A finding that, if it counts as a complexity finding, has a score
    above 10. *)
Definition well_scored (i : Issue) : bool :=
  negb (IssueCategory_eqb (category i) COMPLEXITY)
  || match complexityScore i with Some score => 10 <? score | None => false end.

(** The number of line feeds of a text. *)
Fixpoint newlines (s : string) : nat :=
  match s with
  | EmptyString => 0%nat
  | String c s' => ((if Ascii.eqb c "010"%char then 1 else 0) + newlines s')%nat
  end.

(** The letter that goes with a number of findings. *)
Definition grade_of_count (n : nat) : Letter :=
  if (n <=? 10)%nat then A
  else if (n <=? 20)%nat then B
  else if (n <=? 30)%nat then C
  else if (n <=? 40)%nat then D
  else F.

(** A text without a dot. *)
Fixpoint dotless (s : string) : bool :=
  match s with
  | EmptyString => true
  | String c s' => negb (Ascii.eqb c "."%char) && dotless s'
  end.

(** The parser that goes with a language. *)
Definition parser_for (language : Language) : option ParserFactory.IParser :=
  match language with
  | JAVASCRIPT | TYPESCRIPT => Some ParserFactory.JavaScript
  | PYTHON => Some ParserFactory.Python
  | UNKNOWN => None
  end.

(** A map of parsers as the factory builds them: a language it holds has
    the parser that goes with it. *)
Definition factory_built (parsers : ParserFactory.Parsers) : Prop :=
  forall language parser,
    parsers language = Some parser -> parser_for language = Some parser.

(** What a parsing library returned, as [parseCode] hands it on. *)
Definition handed_on (result : string + ASTNode) (language : Language)
    (code filePath : string) : string + ParseResult :=
  match result with
  | inr ast => inr (BaseParser.createParseResult ast language code filePath)
  | inl message => inl (template ["Parse error in "; filePath; ": "; message]%string)
  end.

(** The node types under which the three analyzers register a callback. *)
Definition analyzer_keys : list string :=
  ["CallExpression"; "BinaryExpression"; "JSXAttribute"; "StringLiteral"; "Literal";
   "Identifier"; "FunctionDeclaration"; "FunctionExpression"; "ArrowFunctionExpression";
   "MethodDefinition"; "VariableDeclarator"; "CatchClause"]%string.

(** A syntax tree all of whose nodes have a type. *)
Definition named (root : TreeSitter.SyntaxNode) : bool :=
  forallb (fun n => negb (String.eqb (TreeSitter.type_of n) EmptyString))
    (TreeSitter.preorder root).

(** A syntax tree typed as the grammar of Python types its nodes: in lower
    case, or by the text of a keyword or of a punctuation sign, so that no
    type is empty, one of the keys of the analyzers or a name that every
    object inherits. *)
Definition python_typed (root : TreeSitter.SyntaxNode) : bool :=
  forallb (fun n =>
             let type := TreeSitter.type_of n in
             negb (String.eqb type EmptyString)
             && negb (existsb (String.eqb type) analyzer_keys)
             && negb (existsb (String.eqb type) inherited))
    (TreeSitter.preorder root).

(** What the Complexity Analyzer says of a finding: its rule, its score and
    its place. *)
Definition summary (i : Issue) : string * Z * SourceRange :=
  (ruleId i, BaseAnalyzer.or_else (complexityScore i) 0, location i).

(** What is reported for one function: too many decision points, then too
    many short-circuit operators, then too many lines. *)
Definition function_report (node : ASTNode) : list (string * Z * SourceRange) :=
  (if 10 <? 1 + count is_decision_point node
   then [("high-cyclomatic-complexity"%string, 1 + count is_decision_point node, place node)]
   else [])
  ++ (if 15 <? count is_short_circuit node
      then [("high-cognitive-complexity"%string, count is_short_circuit node, place node)]
      else [])
  ++ match loc_of node with
     | Some l =>
         if 50 <? line (end_ l) - line (start l)
         then [("long-function"%string, line (end_ l) - line (start l), place node)]
         else []
     | None => []
     end.

(** What is reported when the traversal is at [x]: the report of [x] when it
    is a function, that of its [value] when it is a method definition. *)
Definition reported_at (x : ASTNode) : list (string * Z * SourceRange) :=
  if keyed "FunctionDeclaration" x || keyed "FunctionExpression" x
     || keyed "ArrowFunctionExpression" x
  then function_report x
  else if keyed "MethodDefinition" x && truthy x@."value"
  then function_report x@."value"
  else [].

(** A text without a line feed. *)
Fixpoint newline_free (s : string) : bool :=
  match s with
  | EmptyString => true
  | String c s' => negb (Ascii.eqb c "010"%char) && newline_free s'
  end.




(** The arguments of a callback: the node, its parent and the path. *)
Definition Call : Type := (ASTNode * option ASTNode * list (option string))%type.

(** The calls that a traversal started with [parent] and [path] makes on
    the nodes of a tree: each node with the node that holds it and with the
    types from the root down to the node itself. *)
Fixpoint calls (parent : option ASTNode) (path : list (option string)) (node : ASTNode)
    {struct node} : list Call :=
  match node with
  | VObj _ _ _ _ | VArr _ =>
      (node, parent, path ++ [type_of node])
      :: Tree.over_children (calls (Some node) (path ++ [type_of node])) node
  | _ => []
  end.

(** The visitor [{ '*': (node, parent, path) => { seen.push([node, parent,
    path]) } }]. *)
Definition recorder : ASTTraverser.Visitor (list Call) :=
  ASTTraverser.object
    [("*"%string,
       ASTTraverser.Fn (fun node parent path seen => Some (seen ++ [(node, parent, path)], false)))].

(** A tree without a node of type "*". *)
Definition starless (root : ASTNode) : bool :=
  forallb (fun x => negb (String.eqb "*" (type_key (type_of x)))) (Tree.preorder root).


End Measure.

(** * Properties *)

(** ** The traversal follows the children of a node *)

Section TraversalFacts.
Import ASTTraverser Tree.
Variable St : Type.

Lemma each_app {A} (f : A -> St -> option St) (l1 l2 : list A) (s : St) :
  each f (l1 ++ l2) s = (s' <- each f l1 s ;; each f l2 s').
Proof.
  revert s; induction l1 as [|x l1 IH]; intros s; simpl; [reflexivity|].
  destruct (f x s) as [s'|]; [apply IH | reflexivity].
Qed.

Lemma each_nodes_of (walk : ASTNode -> St -> option St) (v : value) (s : St) :
  match v with
  | VArr arr =>
      (fix over_array (l : list value) (s : St) {struct l} : option St :=
         match l with
         | [] => Some s
         | child :: l' =>
             s' <- (if is_object child && type_truthy child
                    then walk child s else Some s) ;;
             over_array l' s'
         end) arr s
  | VObj _ _ _ _ => if type_truthy v then walk v s else Some s
  | _ => Some s
  end = each walk (nodes_of v) s.
Proof.
  destruct v as [| | | | |arr|ty loc range props]; simpl; try reflexivity.
  - revert s; induction arr as [|child arr IH]; intros s; simpl; [reflexivity|].
    destruct (is_object child && type_truthy child); simpl.
    + destruct (walk child s); [apply IH | reflexivity].
    + apply IH.
  - destruct (type_truthy (VObj ty loc range props)); simpl; [|reflexivity].
    destruct (walk _ s); reflexivity.
Qed.

(** [traverseChildren] calls [walk] on the children, left to right. *)
Lemma traverseChildren_each (walk : ASTNode -> St -> option St) (node : ASTNode) (s : St) :
  traverseChildren walk node s = each walk (children node) s.
Proof.
  destruct node as [| | | | |elems|ty loc range props]; simpl; try reflexivity.
  - revert s; induction elems as [|v elems IH]; intros s; [reflexivity|].
    cbn [flat_map]. rewrite each_app, <- each_nodes_of.
    match goal with |- (match ?a with _ => _ end) = (match ?b with _ => _ end) =>
      change a with b; destruct b as [s'|]; [apply IH | reflexivity] end.
  - revert s; induction props as [|[key v] props IH]; intros s; [reflexivity|].
    cbn [flat_map fst snd]. rewrite each_app.
    destruct (ignored key).
    + simpl. apply IH.
    + rewrite <- each_nodes_of.
      match goal with |- (match ?a with _ => _ end) = (match ?b with _ => _ end) =>
        change a with b; destruct b as [s'|]; [apply IH | reflexivity] end.
Qed.

(** [traverse] on an object: the callbacks of the node around the traversal
    of its children. *)
Lemma traverse_unfold (visitor : Visitor St) (node : ASTNode) (parent : option ASTNode)
    (path : list (option string)) (s : St) :
  is_object node = true ->
  traverse visitor node parent path s =
  visit visitor node parent path
    (fun currentPath =>
       each (fun child => traverse visitor child (Some node) currentPath) (children node)) s.
Proof.
  intros Hobj.
  destruct node as [| | | | |elems|ty loc range props]; try discriminate Hobj;
    cbn [traverse]; unfold visit;
    destruct (call_enter _ _ _ _ _) as [[s1 shouldSkip]|]; try reflexivity;
    destruct (call_wildcard _ _ _ _ _) as [s2|]; try reflexivity;
    destruct shouldSkip; try reflexivity;
    rewrite traverseChildren_each; reflexivity.
Qed.

Lemma traverse_primitive (visitor : Visitor St) (node : ASTNode) (parent : option ASTNode)
    (path : list (option string)) (s : St) :
  is_object node = false -> traverse visitor node parent path s = Some s.
Proof. destruct node; intros H; try discriminate H; reflexivity. Qed.

End TraversalFacts.

Section TreeFacts.
Import ASTTraverser Tree.

Lemma nodes_of_smaller (v c : value) :
  In c (nodes_of v) -> (size c <= size v)%nat.
Proof.
  destruct v as [| | | | |arr|ty loc range props]; try (simpl; tauto).
  - induction arr as [|x arr IH]; simpl; [tauto|].
    destruct (is_object x && type_truthy x); simpl.
    + intros [->|H]; [lia | specialize (IH H); simpl in IH; lia].
    + intros H; specialize (IH H); simpl in IH; lia.
  - unfold nodes_of. destruct (type_truthy _); [|simpl; tauto].
    intros [<-|[]]. lia.
Qed.

Lemma nodes_of_object (v c : value) :
  In c (nodes_of v) -> is_object c = true /\ type_truthy c = true.
Proof.
  destruct v as [| | | | |arr|ty loc range props]; simpl; try tauto.
  - intros H. apply filter_In in H. destruct H as [_ H].
    apply andb_true_iff in H. exact H.
  - destruct (type_truthy (VObj ty loc range props)) eqn:E; simpl; [|tauto].
    intros [<-|[]]. split; [reflexivity | exact E].
Qed.

Lemma children_smaller (node c : ASTNode) :
  In c (children node) -> (size c < size node)%nat.
Proof.
  destruct node as [| | | | |elems|ty loc range props]; simpl; try tauto.
  - induction elems as [|v elems IH]; simpl; [tauto|].
    intros H. apply in_app_or in H. destruct H as [H|H].
    + apply nodes_of_smaller in H. lia.
    + specialize (IH H). lia.
  - induction props as [|[key v] props IH]; simpl; [tauto|].
    intros H. apply in_app_or in H. destruct H as [H|H].
    + destruct (ignored key); [destruct H|].
      apply nodes_of_smaller in H. lia.
    + specialize (IH H). lia.
Qed.

Lemma children_object (node c : ASTNode) :
  In c (children node) -> is_object c = true /\ type_truthy c = true.
Proof.
  destruct node as [| | | | |elems|ty loc range props]; simpl; try tauto;
    intros H; apply in_flat_map in H; destruct H as [x [_ H]].
  - eapply nodes_of_object; eassumption.
  - destruct (ignored (fst x)); [destruct H|].
    eapply nodes_of_object; eassumption.
Qed.

(** Induction on a tree along [children]. *)
Lemma children_ind (P : ASTNode -> Prop) :
  (forall node, (forall c, In c (children node) -> P c) -> P node) ->
  forall node, P node.
Proof.
  intros step node.
  remember (size node) as n eqn:Hn.
  revert node Hn.
  induction n as [n IH] using lt_wf_ind.
  intros node ->. apply step. intros c Hc.
  apply (IH (size c)); [apply children_smaller; exact Hc | reflexivity].
Qed.

Lemma over_children_flat_map {A} (f : ASTNode -> list A) (node : ASTNode) :
  over_children f node = flat_map f (children node).
Proof.
  assert (Hv : forall v,
    match v with
    | VArr arr =>
        (fix over_array (l : list value) : list A :=
           match l with
           | [] => []
           | child :: l' =>
               (if is_object child && type_truthy child then f child else [])
               ++ over_array l'
           end) arr
    | VObj _ _ _ _ => if type_truthy v then f v else []
    | _ => []
    end = flat_map f (nodes_of v)).
  { intros v. destruct v as [| | | | |arr|ty loc range props]; simpl; try reflexivity.
    - induction arr as [|child arr IH]; simpl; [reflexivity|].
      destruct (is_object child && type_truthy child); simpl; rewrite IH; reflexivity.
    - destruct (type_truthy (VObj ty loc range props)); simpl;
        [rewrite app_nil_r|]; reflexivity. }
  destruct node as [| | | | |elems|ty loc range props]; simpl; try reflexivity.
  - induction elems as [|v elems IH]; simpl; [reflexivity|].
    rewrite flat_map_app, <- Hv, <- IH. reflexivity.
  - induction props as [|[key v] props IH]; simpl; [reflexivity|].
    rewrite flat_map_app, <- IH.
    destruct (ignored key); simpl; [reflexivity|].
    rewrite <- Hv. reflexivity.
Qed.

(** Pre-order: the node, then the subtrees of its children in order. *)
Lemma preorder_unfold (node : ASTNode) :
  is_object node = true ->
  preorder node = node :: flat_map preorder (children node).
Proof.
  destruct node; intros H; try discriminate H; cbn [preorder];
    rewrite over_children_flat_map; reflexivity.
Qed.

End TreeFacts.

(** ** Invariants of the state of a visitor *)

Section InvariantFacts.
Import ASTTraverser Tree Trace.
Variable St : Type.
Variable P : St -> Prop.

Lemma each_preserves {A} (f : A -> St -> option St) (l : list A) :
  (forall x s s', In x l -> P s -> f x s = Some s' -> P s') ->
  forall s s', P s -> each f l s = Some s' -> P s'.
Proof.
  induction l as [|x l IH]; intros Hf s s' Hs; simpl.
  - intros [= <-]. exact Hs.
  - destruct (f x s) as [s1|] eqn:E; [|discriminate].
    apply IH.
    + intros y t t' Hy. apply Hf. right. exact Hy.
    + eapply Hf; [left; reflexivity | exact Hs | exact E].
Qed.

(** If every callback of the visitor keeps [P], so does the traversal. *)
Lemma traverse_preserves (visitor : Visitor St) :
  (forall key e, visitor key = Some e -> entry_preserves P e) ->
  forall node parent path s s',
    P s -> traverse visitor node parent path s = Some s' -> P s'.
Proof.
  intros Hv node.
  induction node as [node IH] using children_ind.
  intros parent path s s' Hs.
  destruct (is_object node) eqn:Hobj;
    [| rewrite traverse_primitive by exact Hobj; intros [= <-]; exact Hs].
  rewrite traverse_unfold by exact Hobj. unfold visit.
  destruct (call_enter _ _ _ _ _) as [[s1 shouldSkip]|] eqn:Eenter; [|discriminate].
  assert (H1 : P s1).
  { unfold call_enter in Eenter.
    destruct (visitor (type_key (type_of node))) as [[f|[enter|] exit]|] eqn:Ekey.
    - apply Hv in Ekey. eapply Ekey; eassumption.
    - apply Hv in Ekey. destruct Ekey as [Hen _].
      eapply (Hen enter eq_refl); eassumption.
    - injection Eenter as <- _. exact Hs.
    - injection Eenter as <- _. exact Hs. }
  destruct (call_wildcard _ _ _ _ _) as [s2|] eqn:Ewild; [|discriminate].
  assert (H2 : P s2).
  { unfold call_wildcard in Ewild.
    destruct (visitor "*"%string) as [[w|enter exit]|] eqn:Ekey.
    - apply Hv in Ekey.
      destruct (w _ _ _ _) as [[t b]|] eqn:Ew; [|discriminate].
      injection Ewild as <-. eapply Ekey; eassumption.
    - injection Ewild as <-. exact H1.
    - injection Ewild as <-. exact H1. }
  match goal with |- (match ?d with _ => _ end) = _ -> _ =>
    destruct d as [s3|] eqn:Edesc; [|discriminate] end.
  assert (H3 : P s3).
  { destruct shouldSkip.
    - injection Edesc as <-. exact H2.
    - eapply each_preserves; [| exact H2 | exact Edesc].
      intros c t t' Hc Ht. apply (IH c Hc). exact Ht. }
  unfold call_exit.
  destruct (visitor (type_key (type_of node))) as [[f|enter [exit|]]|] eqn:Ekey;
    try (intros [= <-]; exact H3).
  apply Hv in Ekey. destruct Ekey as [_ Hex].
  destruct (exit _ _ _ _) as [[t b]|] eqn:Eexit; [|discriminate].
  intros [= <-]. eapply (Hex exit eq_refl); eassumption.
Qed.

End InvariantFacts.

(** ** The order in which a traversal calls at the nodes *)

Section VisitFacts.
Import ASTTraverser Tree Trace.
Variable St : Type.








End VisitFacts.

(** ** The walker *)

Section EventFacts.
Import ASTTraverser Tree Trace Events.
Variable St : Type.












End EventFacts.



(** C10.  An issue made by [createIssue] always has a location.  For a node
    without [loc], the start and the end both default to line 0, column 0:
    that is the location unless the [options] spread over the issue bring
    one of their own.  For such a node [extractCodeSnippet] returns the empty
    string. *)
Theorem createIssue_location_defaults_to_origin :
  forall (uuid ruleId message : string) (severity : Severity) (category : IssueCategory)
         (node : ASTNode) (filePath : string) (options : option PartialIssue)
         (sourceCode : string) (context : Z),
    loc_of node = None ->
    location (BaseAnalyzer.createIssue uuid ruleId message severity category node
                filePath options)
    = match options with
      | Some o =>
          match opt_location o with
          | Some l => l
          | None => {| start := {| line := 0; column := 0 |};
                       end_ := {| line := 0; column := 0 |} |}
          end
      | None => {| start := {| line := 0; column := 0 |};
                   end_ := {| line := 0; column := 0 |} |}
      end
    /\ BaseAnalyzer.extractCodeSnippet sourceCode node context = EmptyString.
Proof.
  intros uuid ruleId message severity category node filePath options sourceCode context Hloc.
  unfold BaseAnalyzer.createIssue, BaseAnalyzer.extractCodeSnippet.
  rewrite Hloc. split; [|reflexivity].
  destruct options as [o|]; simpl; [destruct (opt_location o)|]; reflexivity.
Qed.

Lemma createIssue_location_defaults_to_origin_witness :
  loc_of (VObj (Some "Identifier"%string) None None [("name"%string, VStr "x")]) = None /\
  location (BaseAnalyzer.createIssue "uuid-0" "unused-variable" "Variable 'x' is declared but never used."
              WARNING CODE_SMELL
              (VObj (Some "Identifier"%string) None None [("name"%string, VStr "x")])
              "test.js"
              (Some (only_suggestions ["Remove the unused variable"%string])))
  = {| start := {| line := 0; column := 0 |}; end_ := {| line := 0; column := 0 |} |} /\
  BaseAnalyzer.extractCodeSnippet "const x = 1;"
    (VObj (Some "Identifier"%string) None None [("name"%string, VStr "x")]) 2 = EmptyString.
Proof.
  split; [reflexivity|].
  exact (createIssue_location_defaults_to_origin
           "uuid-0" "unused-variable" "Variable 'x' is declared but never used."
           WARNING CODE_SMELL
           (VObj (Some "Identifier"%string) None None [("name"%string, VStr "x")])
           "test.js"
           (Some (only_suggestions ["Remove the unused variable"%string]))
           "const x = 1;" 2 eq_refl).
Defined.

(** ** The coordinator *)

Section CoordinatorFacts.
Import BaseAnalyzer AnalyzerCoordinator.
Variable parseResult : ParseResult.

Lemma run_analyzers_merged (analyzers : list IAnalyzer.t) :
  forall (so_far : list Issue) (console : list string),
    fold_left (run_analyzer parseResult) analyzers (so_far, console) =
    (Spec.merged parseResult analyzers so_far,
     console ++ Spec.failed parseResult analyzers so_far).
Proof.
  induction analyzers as [|analyzer rest IH]; intros so_far console; simpl.
  - rewrite app_nil_r. reflexivity.
  - unfold Spec.contribution.
    destruct (IAnalyzer.analyze analyzer _) as [found|]; rewrite IH.
    + reflexivity.
    + rewrite app_nil_r, <- app_assoc. reflexivity.
Qed.

Lemma merged_app (before after : list IAnalyzer.t) (so_far : list Issue) :
  Spec.merged parseResult (before ++ after) so_far =
  Spec.merged parseResult after (Spec.merged parseResult before so_far).
Proof.
  revert so_far; induction before as [|a before IH]; intros so_far; simpl;
    [reflexivity | apply IH].
Qed.

Lemma failed_app (before after : list IAnalyzer.t) (so_far : list Issue) :
  Spec.failed parseResult (before ++ after) so_far =
  Spec.failed parseResult before so_far
  ++ Spec.failed parseResult after (Spec.merged parseResult before so_far).
Proof.
  revert so_far; induction before as [|a before IH]; intros so_far; simpl;
    [reflexivity|].
  unfold Spec.contribution.
  destruct (IAnalyzer.analyze a _) as [found|]; simpl; rewrite IH;
    [|rewrite app_nil_r]; reflexivity.
Qed.

Lemma merged_independent (analyzers : list IAnalyzer.t) :
  Forall Spec.independent analyzers ->
  forall so_far,
    Spec.merged parseResult analyzers so_far =
    so_far ++ flat_map (Spec.contribution parseResult []) analyzers.
Proof.
  induction 1 as [|a rest Ha _ IH]; intros so_far; simpl.
  - rewrite app_nil_r. reflexivity.
  - rewrite IH, <- app_assoc. unfold Spec.contribution.
    rewrite (Ha parseResult so_far). reflexivity.
Qed.

Lemma analyzeFile_issues (analyzers : list IAnalyzer.t) :
  FileAnalysisResult.issues (fst (analyzeFile analyzers parseResult)) =
  Spec.merged parseResult analyzers [].
Proof. unfold analyzeFile. rewrite run_analyzers_merged. reflexivity. Qed.

Lemma analyzeFile_console (analyzers : list IAnalyzer.t) :
  snd (analyzeFile analyzers parseResult) = Spec.failed parseResult analyzers [].
Proof. unfold analyzeFile. rewrite run_analyzers_merged. reflexivity. Qed.

End CoordinatorFacts.

(** C7.  [analyzeFile] returns a result whatever the analyzers do.  Its
    findings are those of the analyzers, concatenated in the order of the
    analyzers, with nothing removed, where an analyzer that throws adds
    nothing and is reported on the console; the analyzers after it still run:
    the findings are the ones obtained without the failing analyzer. *)
Theorem analyzeFile_isolates_failing_analyzers :
  forall (analyzers : list BaseAnalyzer.IAnalyzer.t) (parseResult : ParseResult),
    FileAnalysisResult.issues (fst (AnalyzerCoordinator.analyzeFile analyzers parseResult))
      = Spec.merged parseResult analyzers []
    /\ snd (AnalyzerCoordinator.analyzeFile analyzers parseResult)
      = Spec.failed parseResult analyzers []
    /\ (Forall Spec.independent analyzers ->
        FileAnalysisResult.issues (fst (AnalyzerCoordinator.analyzeFile analyzers parseResult))
          = flat_map (Spec.contribution parseResult []) analyzers)
    /\ (forall before failing after,
          analyzers = before ++ failing :: after ->
          BaseAnalyzer.IAnalyzer.analyze failing
            {| BaseAnalyzer.parseResult := parseResult;
               BaseAnalyzer.issues := Spec.merged parseResult before [];
               BaseAnalyzer.options := None |} = None ->
          FileAnalysisResult.issues (fst (AnalyzerCoordinator.analyzeFile analyzers parseResult))
            = FileAnalysisResult.issues
                (fst (AnalyzerCoordinator.analyzeFile (before ++ after) parseResult))
          /\ In (BaseAnalyzer.IAnalyzer.name failing)
                (snd (AnalyzerCoordinator.analyzeFile analyzers parseResult))).
Proof.
  intros analyzers parseResult.
  split; [apply analyzeFile_issues|].
  split; [apply analyzeFile_console|].
  split.
  - intros Hind. rewrite analyzeFile_issues.
    rewrite (merged_independent parseResult Hind []). reflexivity.
  - intros before failing after -> Hfail. split.
    + rewrite !analyzeFile_issues, !merged_app. simpl.
      unfold Spec.contribution. rewrite Hfail, app_nil_r. reflexivity.
    + rewrite analyzeFile_console, failed_app. apply in_or_app. right.
      simpl. rewrite Hfail. left. reflexivity.
Qed.

Lemma analyzeFile_isolates_failing_analyzers_witness :
  let broken :=
    {| BaseAnalyzer.IAnalyzer.name := "BrokenAnalyzer"%string;
       BaseAnalyzer.IAnalyzer.category := BUG;
       BaseAnalyzer.IAnalyzer.analyze := fun _ => None |} in
  let before := [AnalyzerCoordinator.securityAnalyzer Examples.uuid] in
  let after := [AnalyzerCoordinator.codeQualityAnalyzer Examples.uuid] in
  let parseResult :=
    Examples.parsed
      (Examples.File [Examples.ExpressionStatement (Examples.sql_query_call None None)])
      Examples.sql_source in
  Forall Spec.independent (before ++ broken :: after) /\
  FileAnalysisResult.issues
    (fst (AnalyzerCoordinator.analyzeFile (before ++ broken :: after) parseResult))
  = flat_map (Spec.contribution parseResult []) (before ++ broken :: after) /\
  FileAnalysisResult.issues
    (fst (AnalyzerCoordinator.analyzeFile (before ++ broken :: after) parseResult))
  = FileAnalysisResult.issues
      (fst (AnalyzerCoordinator.analyzeFile (before ++ after) parseResult)) /\
  In "BrokenAnalyzer"%string
    (snd (AnalyzerCoordinator.analyzeFile (before ++ broken :: after) parseResult)).
Proof.
  intros broken before after parseResult.
  assert (Hind : Forall Spec.independent (before ++ broken :: after)).
  { repeat constructor; intros p so_far; reflexivity. }
  pose proof (analyzeFile_isolates_failing_analyzers (before ++ broken :: after) parseResult)
    as [_ [_ [Hflat Hiso]]].
  split; [exact Hind|].
  split; [exact (Hflat Hind)|].
  exact (Hiso before broken after eq_refl eq_refl).
Defined.

(** ** File metrics *)

Section FileMetricsFacts.
Import AnalyzerCoordinator.

Lemma fold_left_scores (l : list Issue) (acc : Z) :
  fold_left (fun sum i => sum + BaseAnalyzer.or_else (complexityScore i) 0) l acc =
  acc + Spec.sum (map (fun i => match complexityScore i with Some n => n | None => 0 end) l).
Proof.
  revert acc; induction l as [|i l IH]; intros acc; simpl.
  - lia.
  - rewrite IH. unfold BaseAnalyzer.or_else. destruct (complexityScore i); lia.
Qed.

Lemma calculateFileMetrics_complexity (parseResult : ParseResult) (issues : list Issue) :
  FileMetrics.complexity (calculateFileMetrics parseResult issues) =
  Spec.file_complexity issues.
Proof.
  unfold calculateFileMetrics, Spec.file_complexity, Spec.complexity_scores. simpl.
  destruct (filter _ issues) as [|i l] eqn:E; [reflexivity|].
  cbn [List.length Nat.ltb Nat.leb map].
  rewrite fold_left_scores. rewrite length_map. reflexivity.
Qed.

Lemma max_zero (x y : Q) :
  (x == y)%Q -> (Num.max 0 x == (if Qle_bool 0 y then y else 0))%Q.
Proof.
  intros H. unfold Num.max.
  destruct (Qle_bool 0 x) eqn:Ex, (Qle_bool 0 y) eqn:Ey; try assumption; try reflexivity.
  - apply Qle_bool_iff in Ex. rewrite H in Ex. apply Qle_bool_iff in Ex. congruence.
  - apply Qle_bool_iff in Ey. rewrite <- H in Ey. apply Qle_bool_iff in Ey. congruence.
Qed.

Lemma calculateFileMetrics_maintainability (parseResult : ParseResult) (issues : list Issue) :
  (FileMetrics.maintainability (calculateFileMetrics parseResult issues) ==
   Spec.file_maintainability issues)%Q.
Proof.
  unfold Spec.file_maintainability.
  rewrite <- (calculateFileMetrics_complexity parseResult issues).
  unfold calculateFileMetrics. cbn [FileMetrics.maintainability FileMetrics.complexity].
  apply max_zero. unfold Num.of_nat. ring.
Qed.

Lemma analyzeFile_metrics (analyzers : list BaseAnalyzer.IAnalyzer.t) (parseResult : ParseResult) :
  FileAnalysisResult.metrics (fst (analyzeFile analyzers parseResult)) =
  calculateFileMetrics parseResult
    (FileAnalysisResult.issues (fst (analyzeFile analyzers parseResult))).
Proof.
  unfold analyzeFile.
  destruct (fold_left _ analyzers _) as [issues console]. reflexivity.
Qed.

End FileMetricsFacts.

(** C2, as the code has it.  The complexity of a file is the mean of the
    scores of its complexity findings, 1 when there is none, and its
    maintainability is max(0, 100 - 2 (number of findings) - 2 complexity).
    For a file without findings this gives complexity 1 and maintainability
    100 - 0 - 2 = 98. *)
Theorem analyzeFile_metrics_without_findings :
  forall (analyzers : list BaseAnalyzer.IAnalyzer.t) (parseResult : ParseResult),
    let result := fst (AnalyzerCoordinator.analyzeFile analyzers parseResult) in
    (FileMetrics.complexity (FileAnalysisResult.metrics result)
       = Spec.file_complexity (FileAnalysisResult.issues result))
    /\ (FileMetrics.maintainability (FileAnalysisResult.metrics result)
        == Spec.file_maintainability (FileAnalysisResult.issues result))%Q
    /\ (FileAnalysisResult.issues result = [] ->
        (FileMetrics.complexity (FileAnalysisResult.metrics result) == 1)%Q /\
        (FileMetrics.maintainability (FileAnalysisResult.metrics result) == 98)%Q).
Proof.
  intros analyzers parseResult result. subst result.
  rewrite analyzeFile_metrics.
  split; [apply calculateFileMetrics_complexity|].
  split; [apply calculateFileMetrics_maintainability|].
  intros ->. split; reflexivity.
Qed.

Lemma analyzeFile_metrics_without_findings_witness :
  let result :=
    fst (AnalyzerCoordinator.analyzeFile (AnalyzerCoordinator.constructor Examples.uuid)
           (Examples.parsed (Examples.File [Examples.const_x]) "const x = 1;")) in
  FileAnalysisResult.issues result = [] /\
  (FileMetrics.complexity (FileAnalysisResult.metrics result) == 1)%Q /\
  (FileMetrics.maintainability (FileAnalysisResult.metrics result) == 98)%Q.
Proof.
  split; [reflexivity|].
  exact (proj2 (proj2 (analyzeFile_metrics_without_findings
                         (AnalyzerCoordinator.constructor Examples.uuid)
                         (Examples.parsed (Examples.File [Examples.const_x]) "const x = 1;")))
               eq_refl).
Defined.

(** C2 as stated fails: the file [const x = 1;] has no finding, and its
    maintainability is 98, not 100. *)
Lemma zero_findings_maintainability_is_not_100 :
  let result :=
    fst (AnalyzerCoordinator.analyzeFile (AnalyzerCoordinator.constructor Examples.uuid)
           (Examples.parsed (Examples.File [Examples.const_x]) "const x = 1;")) in
  FileAnalysisResult.issues result = [] /\
  ~ (FileMetrics.maintainability (FileAnalysisResult.metrics result) == 100)%Q.
Proof.
  split; [reflexivity|].
  vm_compute. discriminate.
Qed.

(** ** The model on small inputs *)

Example split_newline_example :
  split_newline (String.concat newline ["a"; "b"; ""]%string) = ["a"; "b"; ""]%string.
Proof. reflexivity. Qed.

Example extractCodeSnippet_example :
  BaseAnalyzer.extractCodeSnippet
    (String.concat newline ["a"; "b"; "c"; "d"; "e"; "f"]%string)
    (Examples.node "X" (Examples.at_lines 3 3) []) 1
  = String.concat newline ["b"; "c"; "d"]%string.
Proof. reflexivity. Qed.

Example cyclomatic_of_three_nested_ifs :
  ComplexityAnalyzer.calculateCyclomaticComplexity
    (Examples.FunctionDeclaration "f" (Examples.nested_ifs 3)) = Some 4.
Proof. reflexivity. Qed.

Example preorder_of_an_if :
  Tree.preorder (Examples.IfStatement []) =
  [Examples.IfStatement []; Examples.BooleanLiteral true; Examples.BlockStatement []].
Proof. reflexivity. Qed.

Example findNodes_example :
  ASTTraverser.findNodes (Examples.FunctionDeclaration "f" (Examples.nested_ifs 2))
    "IfStatement"
  = Some [Examples.IfStatement (Examples.nested_ifs 1); Examples.IfStatement []].
Proof. reflexivity. Qed.

Example findNode_example :
  ASTTraverser.findNode (Examples.File [Examples.const_x]) (CodeQualityAnalyzer.names "x")
  = Some (Some (Examples.node "VariableDeclarator" (Examples.at_lines 1 1)
                  [("id"%string, Examples.Identifier "x");
                   ("init"%string, Examples.NumericLiteral 1)])).
Proof. reflexivity. Qed.

(** The unused-variable report does fire when the declared name is held by
    something that is not an [Identifier] node, and an underscore silences
    it. *)
Example unused_variable_example :
  let declarator (name : string) :=
    Examples.node "VariableDeclarator" None
      [("id"%string, VObj None None None [("name"%string, VStr name)])] in
  (exists issue,
     CodeQualityAnalyzer.analyze Examples.uuid
       (Examples.context (Examples.parsed (Examples.File [declarator "y"%string]) EmptyString))
     = Some [issue] /\ ruleId issue = "unused-variable"%string) /\
  CodeQualityAnalyzer.analyze Examples.uuid
    (Examples.context (Examples.parsed (Examples.File [declarator "_y"%string]) EmptyString))
  = Some [].
Proof. split; [eexists; split; reflexivity | reflexivity]. Qed.

Example eval_call_example :
  exists issue,
    SecurityAnalyzer.analyze Examples.uuid
      (Examples.context
         (Examples.parsed
            (Examples.File
               [Examples.ExpressionStatement
                  (Examples.node "CallExpression" None
                     [("callee"%string, Examples.Identifier "eval");
                      ("arguments"%string, VArr [Examples.Identifier "userInput"])])])
            "eval(userInput)"))
    = Some [issue]
    /\ ruleId issue = "dangerous-function"%string /\ severity issue = WARNING
    /\ cwe issue = Some "CWE-94"%string.
Proof. eexists. repeat split. Qed.

(** [containsStringLiteral] reads [node.left] and [node.right]. *)
Lemma containsStringLiteral_unfold (node : ASTNode) :
  SecurityAnalyzer.containsStringLiteral node =
  (has_type "StringLiteral" node || has_type "Literal" node)
  || (truthy node@."left" && SecurityAnalyzer.containsStringLiteral node@."left")
  || (truthy node@."right" && SecurityAnalyzer.containsStringLiteral node@."right").
Proof.
  assert (Hscan : forall key props,
    String.eqb key "type" = false -> String.eqb key "loc" = false ->
    String.eqb key "range" = false ->
    (fix scan (ps : list (string * value)) : bool :=
       match ps with
       | [] => false
       | (k, v) :: ps' =>
           if String.eqb k key
           then truthy v && SecurityAnalyzer.containsStringLiteral v
           else scan ps'
       end) props
    = (truthy match lookup key props with Some x => x | None => VUndefined end
       && SecurityAnalyzer.containsStringLiteral
            match lookup key props with Some x => x | None => VUndefined end)).
  { intros key props _ _ _. induction props as [|[k v] props IH]; [reflexivity|].
    cbn [lookup]. destruct (String.eqb k key); [reflexivity | exact IH]. }
  destruct node as [| | | | |elems|ty loc range props]; try reflexivity.
  cbn [SecurityAnalyzer.containsStringLiteral].
  destruct (has_type "StringLiteral" _ || has_type "Literal" _); [reflexivity|].
  cbn [orb].
  change (get "left" (VObj ty loc range props))
    with (match lookup "left"%string props with Some x => x | None => VUndefined end).
  change (get "right" (VObj ty loc range props))
    with (match lookup "right"%string props with Some x => x | None => VUndefined end).
  rewrite (Hscan "left"%string props eq_refl eq_refl eq_refl).
  rewrite (Hscan "right"%string props eq_refl eq_refl eq_refl).
  match goal with
  | |- (if ?a then true else ?b) = ?x || ?y =>
      change x with a; change y with b; destruct a; reflexivity
  end.
Qed.

(** ** The security analyzer *)

Section SecurityFacts.
Import ASTTraverser BaseAnalyzer SecurityAnalyzer Trace Spec.
Variable uuidv4 : nat -> string.
Variables filePath sourceCode : string.

Lemma classified_snoc (issues : list Issue) (issue : Issue) (vuln cwe_id owasp_id : string) :
  all_classified issues ->
  has_taxonomy (as_security issue vuln cwe_id owasp_id) = true ->
  all_classified (issues ++ [as_security issue vuln cwe_id owasp_id]).
Proof.
  intros H Hi. apply Forall_app. split; [exact H|]. constructor; [exact Hi | constructor].
Qed.

Ltac classify :=
  repeat match goal with
         | |- all_classified (if ?c then _ else _) => destruct c
         | |- all_classified (match ?c with _ => _ end) => destruct c
         end;
  try assumption;
  try (apply classified_snoc; [assumption | reflexivity]).

Lemma checkSQLInjectionInExpression_classified node issues :
  all_classified issues ->
  all_classified (checkSQLInjectionInExpression uuidv4 node filePath sourceCode issues).
Proof. intros H. unfold checkSQLInjectionInExpression. cbv zeta. classify. Qed.

Lemma checkSQLInjection_classified node issues issues' :
  all_classified issues ->
  checkSQLInjection uuidv4 node filePath sourceCode issues = Some issues' ->
  all_classified issues'.
Proof.
  intros H. unfold checkSQLInjection. cbv zeta.
  destruct (is_str "query" _ || is_str "execute" _); [|intros [= <-]; exact H].
  match goal with |- (match ?c with _ => _ end) = _ -> _ =>
    destruct c as [issues1|] eqn:E; [|discriminate] end.
  assert (H1 : all_classified issues1).
  { destruct (has_type "TemplateLiteral" _ && _); [|injection E as <-; exact H].
    match type of E with (match ?c with _ => _ end) = _ =>
      destruct c as [[|]|]; try discriminate E; injection E as <- end;
      classify. }
  intros E'.
  destruct (has_type "BinaryExpression" _ && _); injection E' as <-; classify.
Qed.

Lemma checkCommandInjection_classified node issues :
  all_classified issues ->
  all_classified (checkCommandInjection uuidv4 node filePath sourceCode issues).
Proof. intros H. unfold checkCommandInjection. cbv zeta. classify. Qed.

Lemma checkXSS_classified node issues :
  all_classified issues ->
  all_classified (checkXSS uuidv4 node filePath sourceCode issues).
Proof. intros H. unfold checkXSS. classify. Qed.

Lemma checkHardcodedSecrets_classified node issues :
  all_classified issues ->
  all_classified (checkHardcodedSecrets uuidv4 node filePath sourceCode issues).
Proof.
  intros H. unfold checkHardcodedSecrets.
  destruct (node@."value"); try exact H.
  destruct (String.length s <? 8)%nat; [exact H|].
  unfold secretPatterns. cbv zeta. cbn [regex pattern_name minLength].
  classify.
Qed.

Lemma checkDangerousFunctions_classified node issues :
  all_classified issues ->
  all_classified (checkDangerousFunctions uuidv4 node filePath sourceCode issues).
Proof. intros H. unfold checkDangerousFunctions. cbv zeta. classify. Qed.

Lemma object_entries (St : Type) (Q : VisitorEntry St -> Prop)
    (entries : list (string * VisitorEntry St)) :
  Forall (fun kv => Q (snd kv)) entries ->
  forall key e, object entries key = Some e -> Q e.
Proof.
  unfold object. induction 1 as [|[k e0] rest Hq _ IH]; intros key e; simpl.
  - discriminate.
  - destruct (String.eqb k key); [intros [= <-]; exact Hq | apply IH].
Qed.

Lemma visitor_classified :
  forall key e, visitor uuidv4 filePath sourceCode key = Some e ->
                entry_preserves all_classified e.
Proof.
  apply object_entries.
  repeat constructor; cbn [snd]; unfold entry_preserves, preserves, returns_void;
    intros node parent path s s' b Hs.
  - destruct (checkSQLInjection _ _ _ _ _) as [issues1|] eqn:E; [|discriminate].
    intros [= <- _]. apply checkCommandInjection_classified.
    eapply checkSQLInjection_classified; eassumption.
  - intros [= <- _]. apply checkSQLInjectionInExpression_classified. exact Hs.
  - intros [= <- _]. apply checkXSS_classified. exact Hs.
  - intros [= <- _]. apply checkHardcodedSecrets_classified. exact Hs.
  - intros [= <- _]. apply checkHardcodedSecrets_classified. exact Hs.
  - intros [= <- _]. apply checkDangerousFunctions_classified. exact Hs.
Qed.

End SecurityFacts.

(** C8.  Every finding that the Security Analyzer produces, on any input,
    carries a vulnerability name, a CWE identifier and an OWASP bucket, none
    of them empty: each of the six checks sets the three fields. *)
Theorem security_findings_carry_taxonomy :
  forall (uuidv4 : nat -> string) (context : BaseAnalyzer.AnalyzerContext)
         (issues : list Issue),
    SecurityAnalyzer.analyze uuidv4 context = Some issues ->
    Forall (fun i => Spec.has_taxonomy i = true) issues.
Proof.
  intros uuidv4 context issues H.
  unfold SecurityAnalyzer.analyze in H. cbv zeta in H.
  exact (@traverse_preserves (list Issue) Spec.all_classified _
           (@visitor_classified uuidv4 _ _) _ _ _ _ _ (Forall_nil _) H).
Qed.

Lemma security_findings_carry_taxonomy_witness :
  exists issues,
    SecurityAnalyzer.analyze Examples.uuid
      (Examples.context
         (Examples.parsed
            (Examples.File [Examples.ExpressionStatement (Examples.sql_query_call None None)])
            Examples.sql_source)) = Some issues /\
    List.length issues = 2%nat /\
    Forall (fun i => Spec.has_taxonomy i = true) issues.
Proof.
  eexists. split; [reflexivity|]. split; [reflexivity|].
  exact (security_findings_carry_taxonomy Examples.uuid
           (Examples.context
              (Examples.parsed
                 (Examples.File
                    [Examples.ExpressionStatement (Examples.sql_query_call None None)])
                 Examples.sql_source))
           eq_refl).
Defined.

(** C4, as the code has it.  For the expression
    [db.query("SELECT * FROM users WHERE id = " + userId)] the Security
    Analyzer produces two findings, not one: the check of the call and the
    check of the concatenation both fire.  Each has ruleId "sql-injection",
    severity Error and cwe "CWE-89"; the first is located at the call, the
    second at the concatenation. *)
Theorem sql_concatenation_in_query_call_is_reported_twice :
  forall (uuidv4 : nat -> string) (language : Language) (sourceCode filePath : string)
         (call_loc arg_loc : option SourceRange),
  exists from_call from_concatenation : Issue,
    SecurityAnalyzer.analyze uuidv4
      {| BaseAnalyzer.parseResult :=
           {| ast := Examples.File
                       [Examples.ExpressionStatement
                          (Examples.sql_query_call call_loc arg_loc)];
              language := language;
              sourceCode := sourceCode;
              pr_filePath := filePath |};
         BaseAnalyzer.issues := [];
         BaseAnalyzer.options := None |}
    = Some [from_call; from_concatenation]
    /\ (ruleId from_call = "sql-injection"%string /\ severity from_call = ERROR /\
        cwe from_call = Some "CWE-89"%string /\
        location from_call =
        location (BaseAnalyzer.createIssue EmptyString EmptyString EmptyString ERROR SECURITY
                    (Examples.sql_query_call call_loc arg_loc) EmptyString None))
    /\ (ruleId from_concatenation = "sql-injection"%string /\
        severity from_concatenation = ERROR /\
        cwe from_concatenation = Some "CWE-89"%string /\
        location from_concatenation =
        location (BaseAnalyzer.createIssue EmptyString EmptyString EmptyString ERROR SECURITY
                    (Examples.sql_concatenation arg_loc) EmptyString None)).
Proof.
  intros uuidv4 language sourceCode filePath call_loc arg_loc.
  eexists. eexists. split; [reflexivity|].
  repeat split.
Qed.

(** C4 as stated fails: on that expression the analyzer does not produce
    exactly one finding. *)
Lemma sql_concatenation_in_query_call_is_not_reported_once :
  ~ (exists finding : Issue,
       SecurityAnalyzer.analyze Examples.uuid
         (Examples.context
            (Examples.parsed
               (Examples.File
                  [Examples.ExpressionStatement (Examples.sql_query_call None None)])
               Examples.sql_source))
       = Some [finding]).
Proof.
  intros [finding H]. vm_compute in H. discriminate H.
Qed.

(** ** The complexity analyzer *)

Section UntouchedFacts.
Import ASTTraverser Tree.
Variable St : Type.

Lemma in_preorder (node x : ASTNode) :
  is_object node = true ->
  In x (preorder node) <->
  x = node \/ exists c, In c (children node) /\ In x (preorder c).
Proof.
  intros Hobj. rewrite preorder_unfold by exact Hobj. simpl.
  rewrite in_flat_map. split; intros [H|H]; auto.
Qed.

Lemma in_preorder_child (node c x : ASTNode) :
  In c (children node) -> In x (preorder c) -> In x (preorder node).
Proof.
  intros Hc Hx.
  destruct (is_object node) eqn:Hobj.
  - apply in_preorder; [exact Hobj|]. right. exists c. split; assumption.
  - destruct node; try discriminate Hobj; destruct Hc.
Qed.

(** A visitor whose wildcard entry is not a function, on a tree none of
    whose nodes has an entry for its type, is never called: the traversal
    returns the state it was given. *)
Lemma traverse_untouched (visitor : Visitor St) (node : ASTNode) :
  (forall w, visitor "*"%string <> Some (Fn w)) ->
  (forall x, In x (preorder node) -> visitor (type_key (type_of x)) = None) ->
  forall parent path s, traverse visitor node parent path s = Some s.
Proof.
  intros Hwild.
  induction node as [node IH] using children_ind.
  intros Hnone parent path s.
  destruct (is_object node) eqn:Hobj; [|apply traverse_primitive; exact Hobj].
  rewrite traverse_unfold by exact Hobj. unfold visit, call_enter, call_exit, call_wildcard.
  rewrite (Hnone node) by (apply in_preorder; [exact Hobj | left; reflexivity]).
  assert (Hw : match visitor "*"%string with
               | Some (Fn w) => '(s', _) <- w node parent (path ++ [type_of node]) s ;; Some s'
               | _ => Some s
               end = Some s).
  { destruct (visitor "*"%string) as [[w|enter exit]|] eqn:E; try reflexivity.
    elim (Hwild w eq_refl). }
  rewrite Hw.
  assert (Hdesc : forall l,
    (forall c, In c l -> In c (children node)) ->
    each (fun child => traverse visitor child (Some node) (path ++ [type_of node])) l s
    = Some s).
  { induction l as [|c l IHl]; intros Hl; simpl; [reflexivity|].
    rewrite (IH c (Hl c (or_introl eq_refl))).
    - apply IHl. intros x Hx. apply Hl. right. exact Hx.
    - intros x Hx. apply Hnone.
      eapply in_preorder_child; [apply Hl; left; reflexivity | exact Hx]. }
  rewrite (Hdesc (children node) (fun c H => H)). reflexivity.
Qed.

End UntouchedFacts.

Section ComplexityFacts.
Import ASTTraverser Tree ComplexityAnalyzer Examples.

Lemma type_key_is (x : ASTNode) (name : string) :
  type_key (type_of x) = name -> name <> "undefined"%string -> type_of x = Some name.
Proof.
  destruct (type_of x) as [t|]; simpl; intros H Hn; [rewrite H; reflexivity|].
  elim Hn. symmetry. exact H.
Qed.

(** The cognitive score of a tree without logical expressions is 0,
    whatever control constructs it holds: the entry registered under "*"
    is an enter/exit pair, which the traversal never calls as a wildcard. *)
Lemma cognitive_complexity_without_logical_expression (node : ASTNode) :
  (forall x, In x (preorder node) ->
             type_of x <> Some "*"%string /\ type_of x <> Some "LogicalExpression"%string) ->
  calculateCognitiveComplexity node = Some 0.
Proof.
  intros H. unfold calculateCognitiveComplexity. cbv zeta.
  rewrite traverse_untouched; [reflexivity | |].
  - intros w. unfold cognitive_visitor, object. cbn. discriminate.
  - intros x Hx. destruct (H x Hx) as [Hstar Hlogical].
    unfold cognitive_visitor, object. cbn [lookup].
    destruct (String.eqb "*" _) eqn:E1.
    + apply String.eqb_eq in E1. symmetry in E1.
      elim Hstar. apply type_key_is; [exact E1 | discriminate].
    + destruct (String.eqb "LogicalExpression" _) eqn:E2; [|reflexivity].
      apply String.eqb_eq in E2. symmetry in E2.
      elim Hlogical. apply type_key_is; [exact E2 | discriminate].
Qed.

(** The nesting depth of every tree is 0, for the same reason. *)
Lemma nesting_depth_is_zero (node : ASTNode) :
  (forall x, In x (preorder node) -> type_of x <> Some "*"%string) ->
  calculateNestingDepth node = Some 0.
Proof.
  intros H. unfold calculateNestingDepth. cbv zeta.
  rewrite traverse_untouched; [reflexivity | |].
  - intros w. unfold nesting_visitor, object. cbn. discriminate.
  - intros x Hx. unfold nesting_visitor, object. cbn [lookup].
    destruct (String.eqb "*" _) eqn:E1; [|reflexivity].
    apply String.eqb_eq in E1. symmetry in E1.
    elim (H x Hx). apply type_key_is; [exact E1 | discriminate].
Qed.

End ComplexityFacts.

Section SampleFacts.
Import ASTTraverser Tree ComplexityAnalyzer Examples.

Lemma preorder_BlockStatement (body : list ASTNode) :
  preorder (BlockStatement body) =
  BlockStatement body :: flat_map preorder (filter kept body).
Proof.
  rewrite preorder_unfold by reflexivity.
  change (children (BlockStatement body)) with (filter kept body ++ []).
  rewrite app_nil_r. reflexivity.
Qed.

Lemma preorder_IfStatement (body : list ASTNode) :
  preorder (IfStatement body) =
  IfStatement body :: BooleanLiteral true :: preorder (BlockStatement body).
Proof.
  rewrite preorder_unfold by reflexivity.
  change (children (IfStatement body)) with [BooleanLiteral true; BlockStatement body].
  cbn [flat_map]. rewrite app_nil_r. reflexivity.
Qed.

Lemma preorder_FunctionDeclaration (name : string) (body : list ASTNode) :
  preorder (FunctionDeclaration name body) =
  FunctionDeclaration name body :: Identifier name :: preorder (BlockStatement body).
Proof.
  rewrite preorder_unfold by reflexivity.
  change (children (FunctionDeclaration name body))
    with [Identifier name; BlockStatement body].
  cbn [flat_map]. rewrite app_nil_r. reflexivity.
Qed.

Lemma nested_ifs_sample (n : nat) :
  Forall (fun x => of_sample_type x = true)
    (flat_map preorder (filter kept (nested_ifs n))).
Proof.
  induction n as [|n IH]; [constructor|].
  change (filter kept (nested_ifs (S n))) with [IfStatement (nested_ifs n)].
  cbn [flat_map]. rewrite app_nil_r, preorder_IfStatement, preorder_BlockStatement.
  repeat (constructor; [reflexivity|]). exact IH.
Qed.

Lemma consecutive_ifs_sample (n : nat) :
  Forall (fun x => of_sample_type x = true)
    (flat_map preorder (filter kept (consecutive_ifs n))).
Proof.
  induction n as [|n IH]; [constructor|].
  change (filter kept (consecutive_ifs (S n)))
    with (IfStatement [] :: filter kept (consecutive_ifs n)).
  cbn [flat_map]. apply Forall_app. split; [|exact IH].
  repeat constructor.
Qed.

Lemma function_sample (name : string) (body : list ASTNode) :
  Forall (fun x => of_sample_type x = true) (flat_map preorder (filter kept body)) ->
  forall x, In x (preorder (FunctionDeclaration name body)) ->
            type_of x <> Some "*"%string /\ type_of x <> Some "LogicalExpression"%string.
Proof.
  intros Hbody x Hx.
  assert (Hs : of_sample_type x = true).
  { rewrite preorder_FunctionDeclaration, preorder_BlockStatement in Hx.
    destruct Hx as [<-|[<-|[<-|Hx]]]; try reflexivity.
    rewrite Forall_forall in Hbody. apply Hbody. exact Hx. }
  unfold of_sample_type in Hs.
  destruct (type_of x) as [t|]; [|discriminate Hs].
  split; intros [= ->]; discriminate Hs.
Qed.

End SampleFacts.

(** C1, on the code.  A function whose body is [n] consecutive [if]
    statements and a function whose body is [n] nested [if] statements both
    have cognitive complexity 0, for every [n]; the claim gives [n] and
    [n (n + 1) / 2]. *)
Theorem cognitive_complexity_ignores_if_statements :
  forall (name : string) (n : nat),
    ComplexityAnalyzer.calculateCognitiveComplexity
      (Examples.FunctionDeclaration name (Examples.consecutive_ifs n)) = Some 0
    /\
    ComplexityAnalyzer.calculateCognitiveComplexity
      (Examples.FunctionDeclaration name (Examples.nested_ifs n)) = Some 0.
Proof.
  intros name n. split; apply cognitive_complexity_without_logical_expression;
    apply function_sample.
  - apply consecutive_ifs_sample.
  - apply nested_ifs_sample.
Qed.

(** C5, on the code.  The nesting depth computed for a function made of
    nested [if] statements is 0 at every depth, and for the function with 5
    nested [if] blocks the Complexity Analyzer emits no finding at all; the
    claim gives one "excessive-nesting" finding with score 5. *)
Theorem nested_ifs_are_not_reported :
  (forall (name : string) (n : nat),
     ComplexityAnalyzer.calculateNestingDepth
       (Examples.FunctionDeclaration name (Examples.nested_ifs n)) = Some 0)
  /\
  ComplexityAnalyzer.analyze Examples.uuid
    (Examples.context
       (Examples.parsed
          (Examples.File [Examples.FunctionDeclaration "deeplyNested" (Examples.nested_ifs 5)])
          "function deeplyNested() { if (true) { if (true) { if (true) { if (true) { if (true) { } } } } } }"))
  = Some [].
Proof.
  split; [|reflexivity].
  intros name n. apply nesting_depth_is_zero.
  intros x Hx. apply (@function_sample name _ (nested_ifs_sample n) x Hx).
Qed.

(** ** The code-quality analyzer *)

(** C6, on the code.  For the file [const name = 1;], whatever the name, the
    Code Quality Analyzer reports nothing: the identifier of the declaration
    is itself an [Identifier] node, so the declared name is recorded as used.
    The claim gives one "unused-variable" finding when the name does not
    start with an underscore. *)
Theorem declared_and_unreferenced_variable_is_not_reported :
  forall (uuidv4 : nat -> string) (name : string),
    CodeQualityAnalyzer.analyze uuidv4
      (Examples.context
         (Examples.parsed (Examples.File [Examples.const_declaration name])
            (template ["const "; name; " = 1;"]%string)))
    = Some [].
Proof.
  intros uuidv4 name.
  unfold CodeQualityAnalyzer.analyze. cbv zeta.
  destruct name as [|c rest]; [reflexivity|].
  match goal with
  | |- (match ?t with _ => _ end) = _ =>
      replace t with
        (Some {| CodeQualityAnalyzer.declaredVariables := [VStr (String c rest)];
                 CodeQualityAnalyzer.usedVariables := [VStr (String c rest)];
                 CodeQualityAnalyzer.issues := [] |})
        by reflexivity
  end.
  cbn [CodeQualityAnalyzer.declaredVariables CodeQualityAnalyzer.usedVariables
       CodeQualityAnalyzer.issues CodeQualityAnalyzer.report_unused
       CodeQualityAnalyzer.has existsb CodeQualityAnalyzer.same_value_zero].
  rewrite String.eqb_refl. reflexivity.
Qed.

(** ** Project metrics *)

Section ServiceFacts.
Import AnalysisService Spec.
Variable parseFile : string -> option ParseResult.
Variable reviewCode : ParseResult -> list Issue -> option (list Suggestion).
Variable findFiles : string -> AnalysisOptions -> string + list string.
Variable uuidv4 : nat -> string.
Variable analysisId : string.
Variable now : nat -> Z.

Lemma analyzeFile_without_metrics (filePath : string) (options : AnalysisOptions)
    (fileResult : FileAnalysisResult.t) :
  analyzeFile parseFile reviewCode uuidv4 filePath options = Some fileResult ->
  FileInfo.metrics (FileAnalysisResult.file fileResult) = None.
Proof.
  unfold analyzeFile.
  destruct (parseFile filePath) as [parseResult|]; [|discriminate].
  unfold AnalyzerCoordinator.analyzeFile.
  destruct (fold_left _ _ _) as [issues console]. cbn [fst].
  destruct (enableAI options) as [[|]|]; try (intros [= <-]; reflexivity).
  destruct (reviewCode _ _); [|discriminate].
  intros [= <-]. reflexivity.
Qed.

Lemma add_file_without_metrics (options : AnalysisOptions) (files : list string) :
  forall result,
    without_metrics (AnalysisResult.files result) ->
    without_metrics
      (AnalysisResult.files
         (fold_left (add_file parseFile reviewCode uuidv4 options) files result)).
Proof.
  induction files as [|file files IH]; intros result H; simpl; [exact H|].
  apply IH. unfold add_file.
  destruct (analyzeFile _ _ _ _ _) as [fileResult|] eqn:E; [|exact H].
  cbn [AnalysisResult.files]. apply Forall_app. split; [exact H|].
  constructor; [|constructor].
  eapply analyzeFile_without_metrics. exact E.
Qed.

Lemma add_complexity_without_metrics (files : list FileInfo.t) :
  without_metrics files ->
  fold_left add_complexity files 0%Q = 0%Q.
Proof.
  induction 1 as [|f files Hf _ IH]; simpl; [reflexivity|].
  unfold add_complexity at 2. rewrite Hf. exact IH.
Qed.

Lemma average_without_metrics (files : list FileInfo.t) (issues : list Issue) (t : Z) :
  without_metrics files ->
  (CodeMetrics.averageComplexity
     (ProjectMetrics.code (calculateProjectMetrics files issues t)) == 0)%Q.
Proof.
  intros H. unfold calculateProjectMetrics.
  cbn [ProjectMetrics.code CodeMetrics.averageComplexity].
  rewrite (add_complexity_without_metrics H).
  destruct (0 <? List.length files)%nat; [|reflexivity].
  unfold Qdiv. ring.
Qed.

Lemma fold_left_lines (files : list FileInfo.t) (acc : Z) :
  fold_left (fun sum f => sum + FileInfo.linesOfCode f) files acc =
  acc + Spec.sum (map FileInfo.linesOfCode files).
Proof.
  revert acc; induction files as [|f files IH]; intros acc; simpl.
  - lia.
  - rewrite IH. lia.
Qed.

(** The parts of the project metrics that are as the specification has
    them: the total of the lines, the clamped index (on the average that the
    code computed) and the grade. *)
Lemma calculateProjectMetrics_other_fields (files : list FileInfo.t) (issues : list Issue)
    (t : Z) :
  let m := calculateProjectMetrics files issues t in
  CodeMetrics.totalLines (ProjectMetrics.code m) = Spec.sum (map FileInfo.linesOfCode files)
  /\ QualityMetrics.maintainabilityIndex (ProjectMetrics.quality m) =
     Num.max 0 (Num.min 100
                  (100 - Num.of_Z (Z.of_nat (List.length issues) * 2)
                   - CodeMetrics.averageComplexity (ProjectMetrics.code m) * 5))%Q
  /\ ProjectMetrics.grade m =
     calculateGrade (QualityMetrics.maintainabilityIndex (ProjectMetrics.quality m)).
Proof.
  cbv zeta. unfold calculateProjectMetrics.
  cbn [ProjectMetrics.code ProjectMetrics.quality ProjectMetrics.grade
       CodeMetrics.totalLines CodeMetrics.averageComplexity
       QualityMetrics.maintainabilityIndex].
  rewrite fold_left_lines. repeat split.
Qed.

Lemma calculateGrade_thresholds (score : Q) :
  let g := calculateGrade score in
  ((80 <= score)%Q -> Grade.letter g = A /\ Grade.label g = "Excellent"%string) /\
  ((60 <= score)%Q -> (score < 80)%Q -> Grade.letter g = B /\ Grade.label g = "Good"%string) /\
  ((40 <= score)%Q -> (score < 60)%Q -> Grade.letter g = C /\ Grade.label g = "Fair"%string) /\
  ((20 <= score)%Q -> (score < 40)%Q -> Grade.letter g = D /\ Grade.label g = "Poor"%string) /\
  ((score < 20)%Q -> Grade.letter g = F /\ Grade.label g = "Critical"%string).
Proof.
  assert (Hle : forall k, Qle_bool k score = true -> (k <= score)%Q)
    by (intros k; apply Qle_bool_iff).
  assert (Hgt : forall k, Qle_bool k score = false -> (score < k)%Q).
  { intros k E. apply Qnot_le_lt. rewrite <- Qle_bool_iff. congruence. }
  cbv zeta. unfold calculateGrade.
  destruct (Qle_bool 80 score) eqn:E80;
    [apply Hle in E80 | apply Hgt in E80;
     destruct (Qle_bool 60 score) eqn:E60;
       [apply Hle in E60 | apply Hgt in E60;
        destruct (Qle_bool 40 score) eqn:E40;
          [apply Hle in E40 | apply Hgt in E40;
           destruct (Qle_bool 20 score) eqn:E20;
             [apply Hle in E20 | apply Hgt in E20]]]];
  cbn [Grade.letter Grade.label];
  repeat split; intros; try reflexivity; exfalso; lra.
Qed.

End ServiceFacts.

(** C9, on the code.  Whatever the directory holds, the [averageComplexity]
    of the project metrics is 0: the files of the result are the [FileInfo]
    records of the file results, which have no [metrics], so every term of
    the sum is replaced by 0.  For the project of one file with ten findings
    and file complexity 1, the claim gives averageComplexity 1,
    maintainabilityIndex 100 - 20 - 5 = 75 and grade B; the code gives 0, 80
    and grade A. *)
Theorem project_average_complexity_is_always_zero :
  (forall (parseFile : string -> option ParseResult)
          (reviewCode : ParseResult -> list Issue -> option (list Suggestion))
          (findFiles : string -> AnalysisService.AnalysisOptions -> string + list string)
          (uuidv4 : nat -> string) (analysisId : string) (now : nat -> Z)
          (directoryPath : string) (options : AnalysisService.AnalysisOptions),
     (CodeMetrics.averageComplexity
        (ProjectMetrics.code
           (AnalysisResult.metrics
              (AnalysisService.analyzeDirectory parseFile reviewCode findFiles uuidv4
                 analysisId now directoryPath options))) == 0)%Q)
  /\
  (FileMetrics.complexity
     (FileAnalysisResult.metrics
        (fst (AnalyzerCoordinator.analyzeFile
                (AnalyzerCoordinator.constructor Examples.uuid) Examples.ten_evals)))
   = 1%Q /\
   List.length (AnalysisResult.files Examples.ten_evals_project) = 1%nat /\
   List.length (AnalysisResult.issues Examples.ten_evals_project) = 10%nat /\
   (CodeMetrics.averageComplexity
      (ProjectMetrics.code (AnalysisResult.metrics Examples.ten_evals_project)) == 0)%Q /\
   (QualityMetrics.maintainabilityIndex
      (ProjectMetrics.quality (AnalysisResult.metrics Examples.ten_evals_project)) == 80)%Q /\
   Grade.letter (ProjectMetrics.grade (AnalysisResult.metrics Examples.ten_evals_project)) = A).
Proof.
  split.
  - intros. unfold AnalysisService.analyzeDirectory.
    destruct (findFiles directoryPath options) as [message|files];
      cbn [AnalysisResult.metrics]; [reflexivity|].
    apply average_without_metrics.
    apply add_file_without_metrics. constructor.
  - repeat split; vm_compute; reflexivity.
Qed.


(** * Further properties *)

(** ** A visitor that only enters *)

Section FoldFacts.
Import ASTTraverser Tree.
Variable St : Type.

Lemma each_fold {A} (f : A -> St -> option St) (g : A -> St -> St) (l : list A) :
  (forall x s, In x l -> f x s = Some (g x s)) ->
  forall s, each f l s = Some (fold_left (fun s x => g x s) l s).
Proof.
  induction l as [|x l IH]; intros Hf s; simpl; [reflexivity|].
  rewrite (Hf x s (or_introl eq_refl)).
  apply IH. intros y t Hy. apply Hf. right. exact Hy.
Qed.

Lemma fold_left_flat_map {A B} (g : B -> St -> St) (h : A -> list B) (l : list A) (s : St) :
  fold_left (fun s x => fold_left (fun s y => g y s) (h x) s) l s =
  fold_left (fun s y => g y s) (flat_map h l) s.
Proof.
  revert s; induction l as [|x l IH]; intros s; simpl; [reflexivity|].
  rewrite fold_left_app. apply IH.
Qed.

(** When, at every node, the enter step of the visitor changes the state by
    [step] without asking to skip, and its wildcard and exit steps leave the
    state alone, the traversal is the fold of [step] over the nodes in
    pre-order. *)
Lemma traverse_fold (visitor : Visitor St) (step : ASTNode -> St -> St) :
  (forall node parent path s,
     is_object node = true ->
     call_enter (visitor (type_key (type_of node))) node parent path s
       = Some (step node s, false)
     /\ call_wildcard visitor node parent path s = Some s
     /\ call_exit (visitor (type_key (type_of node))) node parent path s = Some s) ->
  forall node parent path s,
    traverse visitor node parent path s =
    Some (fold_left (fun s x => step x s) (preorder node) s).
Proof.
  intros Hv node.
  induction node as [node IH] using children_ind.
  intros parent path s.
  destruct (is_object node) eqn:Hobj.
  2:{ rewrite traverse_primitive by exact Hobj.
      destruct node; try discriminate Hobj; reflexivity. }
  rewrite traverse_unfold, preorder_unfold by exact Hobj.
  unfold visit.
  destruct (Hv node parent (path ++ [type_of node]) s Hobj) as [-> _].
  destruct (Hv node parent (path ++ [type_of node]) (step node s) Hobj) as [_ [-> _]].
  rewrite (each_fold
             (fun child => traverse visitor child (Some node) (path ++ [type_of node]))
             (fun child s => fold_left (fun s x => step x s) (preorder child) s)).
  - rewrite fold_left_flat_map.
    match goal with |- call_exit _ _ _ _ ?t = _ =>
      destruct (Hv node parent (path ++ [type_of node]) t Hobj) as [_ [_ ->]] end.
    reflexivity.
  - intros c t Hc. apply IH. exact Hc.
Qed.

End FoldFacts.

(** ** [findNodes] and [findNode] *)

Section FindFacts.
Import ASTTraverser Tree.

Lemma fold_left_filter {A} (p : A -> bool) (l : list A) (acc : list A) :
  fold_left (fun found x => if p x then found ++ [x] else found) l acc =
  acc ++ filter p l.
Proof.
  revert acc; induction l as [|x l IH]; intros acc; simpl.
  - rewrite app_nil_r. reflexivity.
  - rewrite IH. destruct (p x); [rewrite <- app_assoc|]; reflexivity.
Qed.

Lemma find_append {A} (p : A -> bool) (l1 l2 : list A) :
  find p (l1 ++ l2) = match find p l1 with Some x => Some x | None => find p l2 end.
Proof.
  induction l1 as [|x l1 IH]; simpl; [reflexivity|].
  destruct (p x); [reflexivity | exact IH].
Qed.

Lemma each_found (f : ASTNode -> option ASTNode -> option (option ASTNode))
    (p : ASTNode -> bool) (l : list ASTNode) :
  (forall c result, In c l ->
     f c result = Some (match result with
                        | Some r => Some r
                        | None => find p (preorder c)
                        end)) ->
  forall result,
    each f l result = Some (match result with
                            | Some r => Some r
                            | None => find p (flat_map preorder l)
                            end).
Proof.
  induction l as [|c l IH]; intros Hf result; simpl.
  - destruct result; reflexivity.
  - rewrite (Hf c result (or_introl eq_refl)).
    rewrite IH by (intros x r Hx; apply Hf; right; exact Hx).
    destruct result as [r|]; [reflexivity|].
    rewrite find_append. destruct (find p (preorder c)); reflexivity.
Qed.

Lemma findNode_traverse (predicate : ASTNode -> bool) (node : ASTNode) :
  forall parent path result,
    traverse
      (object
         [ ("*"%string,
             Fn (fun node _ _ result =>
                   match result with
                   | Some _ => Some (result, true)
                   | None =>
                       if predicate node then Some (Some node, true)
                       else Some (None, false)
                   end)) ])
      node parent path result
    = Some (match result with
            | Some r => Some r
            | None => find predicate (preorder node)
            end).
Proof.
  induction node as [node IH] using children_ind.
  intros parent path result.
  destruct (is_object node) eqn:Hobj.
  2:{ rewrite traverse_primitive by exact Hobj.
      destruct node; try discriminate Hobj; destruct result; reflexivity. }
  rewrite traverse_unfold, preorder_unfold by exact Hobj.
  unfold visit, call_enter, call_wildcard, call_exit, object. cbn [lookup].
  cbn [find].
  rewrite (String.eqb_refl "*").
  destruct (String.eqb "*" (type_key (type_of node))).
  - destruct result as [r|]; [reflexivity|].
    destruct (predicate node); [reflexivity|].
    rewrite (each_found _ predicate) by (intros c r Hc; apply IH; exact Hc).
    reflexivity.
  - destruct result as [r|].
    + rewrite (each_found _ predicate) by (intros c t Hc; apply IH; exact Hc).
      reflexivity.
    + destruct (predicate node).
      * rewrite (each_found _ predicate) by (intros c t Hc; apply IH; exact Hc).
        reflexivity.
      * rewrite (each_found _ predicate) by (intros c t Hc; apply IH; exact Hc).
        reflexivity.
Qed.

End FindFacts.

(** X1.  [findNodes] returns the nodes whose type is [nodeType], all of them
    and in pre-order, for every node type other than the wildcard key, on
    every tree whose node types are not names inherited from
    [Object.prototype]. *)
Theorem findNodes_lists_the_nodes_of_a_type :
  forall (ast : ASTNode) (nodeType : string),
    nodeType <> "*"%string ->
    Measure.parser_typed ast = true ->
    ASTTraverser.findNodes ast nodeType =
    Some (filter (Measure.keyed nodeType) (Tree.preorder ast)).
Proof.
  intros ast nodeType Hstar _.
  unfold ASTTraverser.findNodes. cbv zeta.
  rewrite (@traverse_fold _ _
             (fun node found => if Measure.keyed nodeType node then found ++ [node] else found)).
  - rewrite fold_left_filter. reflexivity.
  - intros node parent path s _.
    unfold ASTTraverser.call_enter, ASTTraverser.call_wildcard, ASTTraverser.call_exit,
      ASTTraverser.object, Measure.keyed.
    cbn [lookup].
    assert (E : String.eqb nodeType "*" = false)
      by (apply String.eqb_neq; exact Hstar).
    rewrite E.
    destruct (String.eqb nodeType (ASTTraverser.type_key (type_of node))); repeat split.
Qed.

Lemma findNodes_lists_the_nodes_of_a_type_witness :
  ("IfStatement" <> "*")%string /\
  Measure.parser_typed (Examples.FunctionDeclaration "f" (Examples.nested_ifs 2)) = true /\
  ASTTraverser.findNodes (Examples.FunctionDeclaration "f" (Examples.nested_ifs 2))
    "IfStatement"
  = Some (filter (Measure.keyed "IfStatement")
            (Tree.preorder (Examples.FunctionDeclaration "f" (Examples.nested_ifs 2)))).
Proof.
  assert (H : ("IfStatement" <> "*")%string) by discriminate.
  split; [exact H|]. split; [reflexivity|].
  exact (findNodes_lists_the_nodes_of_a_type
           (Examples.FunctionDeclaration "f" (Examples.nested_ifs 2)) H eq_refl).
Defined.

(** X2.  On a tree whose node types are not names inherited from
    [Object.prototype], [findNode] returns the first node, in pre-order, that
    satisfies the predicate, and [null] when no node does. *)
Theorem findNode_returns_the_first_match :
  forall (ast : ASTNode) (predicate : ASTNode -> bool),
    Measure.parser_typed ast = true ->
    ASTTraverser.findNode ast predicate = Some (find predicate (Tree.preorder ast)).
Proof.
  intros ast predicate _. unfold ASTTraverser.findNode. cbv zeta.
  apply (findNode_traverse predicate ast None [] None).
Qed.

Lemma findNode_returns_the_first_match_witness :
  Measure.parser_typed (Examples.FunctionDeclaration "f" (Examples.nested_ifs 2)) = true /\
  ASTTraverser.findNode (Examples.FunctionDeclaration "f" (Examples.nested_ifs 2))
    (has_type "IfStatement")
  = Some (Some (Examples.IfStatement (Examples.nested_ifs 1))).
Proof.
  split; [reflexivity|].
  exact (findNode_returns_the_first_match
           (Examples.FunctionDeclaration "f" (Examples.nested_ifs 2))
           (has_type "IfStatement") eq_refl).
Defined.

(** ** What the complexity analyzer computes *)

Section CountFacts.
Import ASTTraverser Tree ComplexityAnalyzer.

Lemma fold_left_weight (w : ASTNode -> bool) (l : list ASTNode) (acc : Z) :
  fold_left (fun s x => if w x then s + 1 else s) l acc =
  acc + Z.of_nat (List.length (filter w l)).
Proof.
  revert acc; induction l as [|x l IH]; intros acc; simpl.
  - lia.
  - rewrite IH. destruct (w x); simpl List.length; lia.
Qed.

Lemma fold_left_weight_fst (w : ASTNode -> bool) (l : list ASTNode) (acc : Z * Z) :
  fold_left (fun s x => if w x then (fst s + 1, snd s) else s) l acc =
  (fst acc + Z.of_nat (List.length (filter w l)), snd acc).
Proof.
  revert acc; induction l as [|x l IH]; intros [c n]; simpl.
  - f_equal. lia.
  - rewrite IH. destruct (w x); simpl; f_equal; lia.
Qed.

Lemma fold_left_same {A B} (l : list A) (acc : B) :
  fold_left (fun s _ => s) l acc = acc.
Proof. induction l as [|x l IH]; simpl; [reflexivity | exact IH]. Qed.

Lemma cyclomatic_step (node : ASTNode) (parent : option ASTNode)
    (path : list (option string)) (s : Z) :
  call_enter (cyclomatic_visitor (type_key (type_of node))) node parent path s
    = Some ((if Measure.is_decision_point node then s + 1 else s), false)
  /\ call_wildcard cyclomatic_visitor node parent path s = Some s
  /\ call_exit (cyclomatic_visitor (type_key (type_of node))) node parent path s = Some s.
Proof.
  unfold call_enter, call_wildcard, call_exit, cyclomatic_visitor, object,
    Measure.is_decision_point.
  destruct (type_of node) as [t|]; [|repeat split].
  cbn [type_key lookup existsb].
  repeat match goal with
         | |- context [String.eqb ?k t] =>
             is_var t; destruct (String.eqb k t) eqn:?;
             [ match goal with H : String.eqb k t = true |- _ =>
                 apply String.eqb_eq in H; subst t end | ]
         end;
    cbn -[get truthy is_logical_operator]; unfold callback;
    try destruct (truthy node@."test");
    try destruct (is_logical_operator node);
    repeat split.
Qed.

Lemma cognitive_step (node : ASTNode) (parent : option ASTNode)
    (path : list (option string)) (s : Z * Z) :
  call_enter (cognitive_visitor (type_key (type_of node))) node parent path s
    = Some ((if Measure.is_short_circuit node then (fst s + 1, snd s) else s), false)
  /\ call_wildcard cognitive_visitor node parent path s = Some s
  /\ call_exit (cognitive_visitor (type_key (type_of node))) node parent path s = Some s.
Proof.
  destruct s as [complexity nestingLevel].
  unfold call_enter, call_wildcard, call_exit, cognitive_visitor, object,
    Measure.is_short_circuit, has_type.
  destruct (type_of node) as [t|] eqn:Et; [|repeat split].
  cbn [type_key lookup].
  destruct (String.eqb "*" t) eqn:Estar.
  - apply String.eqb_eq in Estar. subst t.
    unfold callback, includes_type. rewrite Et. cbn. repeat split.
  - destruct (String.eqb "LogicalExpression" t) eqn:Elogical.
    + apply String.eqb_eq in Elogical. subst t. cbn -[is_logical_operator].
      unfold callback.
      destruct (is_logical_operator node); repeat split.
    + rewrite String.eqb_sym, Elogical. cbn. repeat split.
Qed.

Lemma nesting_step (node : ASTNode) (parent : option ASTNode)
    (path : list (option string)) (s : Z * Z) :
  call_enter (nesting_visitor (type_key (type_of node))) node parent path s
    = Some (s, false)
  /\ call_wildcard nesting_visitor node parent path s = Some s
  /\ call_exit (nesting_visitor (type_key (type_of node))) node parent path s = Some s.
Proof.
  destruct s as [maxDepth currentDepth].
  unfold call_enter, call_wildcard, call_exit, nesting_visitor, object.
  destruct (type_of node) as [t|] eqn:Et; [|repeat split].
  cbn [type_key lookup].
  destruct (String.eqb "*" t) eqn:Estar; [|repeat split].
  apply String.eqb_eq in Estar. subst t.
  unfold callback, includes_type. rewrite Et. cbn. repeat split.
Qed.

End CountFacts.

Lemma cyclomatic_counts (node : ASTNode) :
  ComplexityAnalyzer.calculateCyclomaticComplexity node =
  Some (1 + Measure.count Measure.is_decision_point node).
Proof.
  unfold ComplexityAnalyzer.calculateCyclomaticComplexity. cbv zeta.
  rewrite (@traverse_fold _ _
             (fun x s => if Measure.is_decision_point x then s + 1 else s)).
  - rewrite fold_left_weight. reflexivity.
  - intros x parent path s _. apply cyclomatic_step.
Qed.

Lemma cognitive_counts (node : ASTNode) :
  ComplexityAnalyzer.calculateCognitiveComplexity node =
  Some (Measure.count Measure.is_short_circuit node).
Proof.
  unfold ComplexityAnalyzer.calculateCognitiveComplexity. cbv zeta.
  rewrite (@traverse_fold _ _
             (fun x s => if Measure.is_short_circuit x then (fst s + 1, snd s) else s)).
  - rewrite fold_left_weight_fst. reflexivity.
  - intros x parent path s _. apply cognitive_step.
Qed.

Lemma nesting_zero (node : ASTNode) :
  ComplexityAnalyzer.calculateNestingDepth node = Some 0.
Proof.
  unfold ComplexityAnalyzer.calculateNestingDepth. cbv zeta.
  rewrite (@traverse_fold _ _ (fun _ s => s)).
  - rewrite fold_left_same. reflexivity.
  - intros x parent path s _. apply nesting_step.
Qed.

(** X3.  The cyclomatic complexity of a node is 1 plus the number of decision
    points among the nodes of its tree; in particular it is computed for
    every tree whose node types are not names inherited from
    [Object.prototype], and is at least 1. *)
Theorem cyclomatic_complexity_counts_decision_points :
  forall node : ASTNode,
    Measure.parser_typed node = true ->
    ComplexityAnalyzer.calculateCyclomaticComplexity node =
    Some (1 + Measure.count Measure.is_decision_point node)
    /\ 1 <= 1 + Measure.count Measure.is_decision_point node.
Proof.
  intros node _. split; [apply cyclomatic_counts | unfold Measure.count; lia].
Qed.

Lemma cyclomatic_complexity_counts_decision_points_witness :
  Measure.parser_typed (Examples.FunctionDeclaration "f" (Examples.nested_ifs 2)) = true /\
  ComplexityAnalyzer.calculateCyclomaticComplexity
    (Examples.FunctionDeclaration "f" (Examples.nested_ifs 2)) = Some 3.
Proof.
  split; [reflexivity|].
  exact (proj1 (cyclomatic_complexity_counts_decision_points
                  (Examples.FunctionDeclaration "f" (Examples.nested_ifs 2)) eq_refl)).
Defined.

(** X4.  The cognitive complexity of a node is the number of logical
    expressions with [&&] or [||] in its tree, for every tree whose node
    types are not names inherited from [Object.prototype]: control constructs
    and nesting add nothing. *)
Theorem cognitive_complexity_counts_short_circuits :
  forall node : ASTNode,
    Measure.parser_typed node = true ->
    ComplexityAnalyzer.calculateCognitiveComplexity node =
    Some (Measure.count Measure.is_short_circuit node).
Proof. intros node _. apply cognitive_counts. Qed.

Lemma cognitive_complexity_counts_short_circuits_witness :
  Measure.parser_typed (Examples.FunctionDeclaration "f" [Examples.both_or_either]) = true /\
  ComplexityAnalyzer.calculateCognitiveComplexity
    (Examples.FunctionDeclaration "f" [Examples.both_or_either]) = Some 2.
Proof.
  split; [reflexivity|].
  exact (cognitive_complexity_counts_short_circuits
           (Examples.FunctionDeclaration "f" [Examples.both_or_either]) eq_refl).
Defined.

(** X5.  The nesting depth that [calculateNestingDepth] computes is 0 for
    every tree whose node types are not names inherited from
    [Object.prototype]. *)
Theorem nesting_depth_of_every_tree_is_zero :
  forall node : ASTNode,
    Measure.parser_typed node = true ->
    ComplexityAnalyzer.calculateNestingDepth node = Some 0.
Proof. intros node _. apply nesting_zero. Qed.

Lemma nesting_depth_of_every_tree_is_zero_witness :
  Measure.parser_typed (Examples.FunctionDeclaration "f" (Examples.nested_ifs 6)) = true /\
  ComplexityAnalyzer.calculateNestingDepth
    (Examples.FunctionDeclaration "f" (Examples.nested_ifs 6)) = Some 0.
Proof.
  split; [reflexivity|].
  exact (nesting_depth_of_every_tree_is_zero
           (Examples.FunctionDeclaration "f" (Examples.nested_ifs 6)) eq_refl).
Defined.

Section ComplexityFindingFacts.
Import ASTTraverser Tree Trace BaseAnalyzer ComplexityAnalyzer.
Variable uuidv4 : nat -> string.
Variables filePath sourceCode : string.


(** [analyzeFunctionComplexity] returns, and what it adds are findings of
    the expected form. *)
Lemma analyzeFunctionComplexity_adds (node : ASTNode) (issues : list Issue) :
  exists added,
    analyzeFunctionComplexity uuidv4 node filePath sourceCode issues
      = Some (issues ++ added)
    /\ Forall (fun i => Measure.is_complexity_finding i = true) added.
Proof.
  unfold analyzeFunctionComplexity, calculateComplexity.
  rewrite cyclomatic_counts, cognitive_counts, nesting_zero.
  cbv zeta.
  cbn [cyclomaticComplexity cognitiveComplexity maxNesting].
  change (NESTING_THRESHOLD <? 0) with false. cbv iota.
  set (cyclomatic := 1 + Measure.count Measure.is_decision_point node).
  set (cognitive := Measure.count Measure.is_short_circuit node).
  assert (Hok : forall (issue : Issue) (score limit : Z),
    (limit <? score) = true ->
    category issue = COMPLEXITY ->
    (String.eqb (ruleId issue) "high-cyclomatic-complexity"
       && (limit =? 10) && Measure.Severity_eqb (severity issue) WARNING
     || String.eqb (ruleId issue) "high-cognitive-complexity"
          && (limit =? 15) && Measure.Severity_eqb (severity issue) WARNING
     || String.eqb (ruleId issue) "long-function"
          && (limit =? 50) && Measure.Severity_eqb (severity issue) INFO) = true ->
    Measure.is_complexity_finding (as_complexity issue score limit) = true).
  { intros issue score limit Hlt Hcat Hrule. unfold Measure.is_complexity_finding.
    cbn [as_complexity category complexityScore threshold ruleId severity].
    rewrite Hcat, Hlt, Hrule. reflexivity. }
  destruct (CYCLOMATIC_THRESHOLD <? cyclomatic) eqn:E1;
  destruct (COGNITIVE_THRESHOLD <? cognitive) eqn:E2;
  (destruct (loc_of node) as [l|];
   [destruct (FUNCTION_LENGTH_THRESHOLD <? line (end_ l) - line (start l)) eqn:E3|]);
  first
    [ exists []; split; [rewrite app_nil_r; reflexivity | constructor]
    | eexists; (split; [rewrite <- ?app_assoc; reflexivity|]);
      repeat (constructor; [apply Hok; [assumption | reflexivity | reflexivity]|]);
      constructor ].
Qed.


Lemma complexity_visitor_keeps :
  forall key e, visitor uuidv4 filePath sourceCode key = Some e ->
    entry_preserves (Forall (fun i => Measure.is_complexity_finding i = true)) e.
Proof.
  apply object_entries.
  repeat constructor; cbn [snd]; unfold entry_preserves, preserves;
    intros node parent path s s' b Hs;
    try destruct (truthy node@."value");
    try (destruct (analyzeFunctionComplexity_adds node s) as [added [-> Hadd]]);
    try (destruct (analyzeFunctionComplexity_adds node@."value" s) as [added [-> Hadd]]);
    intros [= <- _]; try exact Hs;
    apply Forall_app; split; assumption.
Qed.

End ComplexityFindingFacts.



(** X7.  Every finding of the Complexity Analyzer has category complexity and
    a score strictly above its threshold, and is one of
    "high-cyclomatic-complexity" (threshold 10, warning),
    "high-cognitive-complexity" (threshold 15, warning) and "long-function"
    (threshold 50, info); "excessive-nesting" is never emitted. *)
Theorem complexity_findings_exceed_their_threshold :
  forall (uuidv4 : nat -> string) (context : BaseAnalyzer.AnalyzerContext)
         (issues : list Issue),
    ComplexityAnalyzer.analyze uuidv4 context = Some issues ->
    Forall (fun i => Measure.is_complexity_finding i = true
                     /\ ruleId i <> "excessive-nesting"%string) issues.
Proof.
  intros uuidv4 context issues H.
  unfold ComplexityAnalyzer.analyze in H. cbv zeta in H.
  pose proof (@traverse_preserves (list Issue)
                (Forall (fun i => Measure.is_complexity_finding i = true)) _
                (@complexity_visitor_keeps uuidv4 _ _) _ _ _ _ _ (Forall_nil _) H) as Hall.
  apply Forall_impl with (2 := Hall).
  intros i Hi. split; [exact Hi|].
  intros Hrule. unfold Measure.is_complexity_finding in Hi. rewrite Hrule in Hi.
  destruct (IssueCategory_eqb _ _), (complexityScore i), (threshold i);
    try discriminate Hi.
  cbn in Hi. rewrite !andb_false_r in Hi. discriminate Hi.
Qed.

Lemma complexity_findings_exceed_their_threshold_witness :
  exists issues,
    ComplexityAnalyzer.analyze Examples.uuid (Examples.context Examples.busy_function)
      = Some issues
    /\ List.length issues = 1%nat
    /\ Forall (fun i => Measure.is_complexity_finding i = true
                        /\ ruleId i <> "excessive-nesting"%string) issues.
Proof.
  eexists. split; [vm_compute; reflexivity|]. split; [reflexivity|].
  apply (complexity_findings_exceed_their_threshold
           Examples.uuid (Examples.context Examples.busy_function)).
  vm_compute. reflexivity.
Defined.

(** ** Following a traversal node by node *)

Section FollowFacts.
Import ASTTraverser Tree.
Variable St : Type.
Variable R : list ASTNode -> St -> Prop.

Lemma each_follows {A} (f : A -> St -> option St) (h : A -> list ASTNode) (l : list A) :
  (forall x seen s s', In x l -> R seen s -> f x s = Some s' -> R (seen ++ h x) s') ->
  forall seen s s', R seen s -> each f l s = Some s' -> R (seen ++ flat_map h l) s'.
Proof.
  induction l as [|x l IH]; intros Hf seen s s' Hs; simpl.
  - intros [= <-]. rewrite app_nil_r. exact Hs.
  - destruct (f x s) as [s1|] eqn:E; [|discriminate].
    intros Hrest. rewrite app_assoc. apply IH with (s := s1).
    + intros y seen' t t' Hy. apply Hf. right. exact Hy.
    + eapply Hf; [left; reflexivity | exact Hs | exact E].
    + exact Hrest.
Qed.

(** A relation between the nodes met so far and the state, which the enter
    step of every node extends by that node without asking to skip, and
    which the wildcard and exit steps keep, holds at the end of the
    traversal for the nodes of the tree in pre-order. *)
Lemma traverse_follows (visitor : Visitor St) :
  (forall node parent path seen s s' b,
     is_object node = true -> R seen s ->
     call_enter (visitor (type_key (type_of node))) node parent path s = Some (s', b) ->
     R (seen ++ [node]) s' /\ b = false) ->
  (forall node parent path seen s s',
     R seen s -> call_wildcard visitor node parent path s = Some s' -> R seen s') ->
  (forall node parent path seen s s',
     R seen s ->
     call_exit (visitor (type_key (type_of node))) node parent path s = Some s' ->
     R seen s') ->
  forall node parent path seen s s',
    R seen s -> traverse visitor node parent path s = Some s' ->
    R (seen ++ preorder node) s'.
Proof.
  intros Henter Hwild Hexit node.
  induction node as [node IH] using children_ind.
  intros parent path seen s s' Hs.
  destruct (is_object node) eqn:Hobj.
  2:{ rewrite traverse_primitive by exact Hobj. intros [= <-].
      replace (preorder node) with (@nil ASTNode)
        by (destruct node; try discriminate Hobj; reflexivity).
      rewrite app_nil_r. exact Hs. }
  rewrite traverse_unfold, preorder_unfold by exact Hobj. unfold visit.
  destruct (call_enter _ _ _ _ _) as [[s1 shouldSkip]|] eqn:Eenter; [|discriminate].
  destruct (Henter _ _ _ _ _ _ _ Hobj Hs Eenter) as [H1 ->].
  destruct (call_wildcard _ _ _ _ _) as [s2|] eqn:Ewild; [|discriminate].
  pose proof (Hwild _ _ _ _ _ _ H1 Ewild) as H2.
  match goal with |- (match ?d with _ => _ end) = _ -> _ =>
    destruct d as [s3|] eqn:Edesc; [|discriminate] end.
  intros Eexit.
  apply (Hexit _ _ _ _ _ _) with (2 := Eexit).
  change (node :: flat_map preorder (children node))
    with ([node] ++ flat_map preorder (children node)).
  rewrite app_assoc.
  eapply each_follows; [| exact H2 | exact Edesc].
  intros c seen' t t' Hc Ht. apply (IH c Hc). exact Ht.
Qed.

End FollowFacts.

(** ** What the security analyzer reports *)

Section SecurityReportFacts.
Import ASTTraverser Tree Trace BaseAnalyzer SecurityAnalyzer Measure.
Variable uuidv4 : nat -> string.
Variables filePath sourceCode : string.

Lemma adds_nil rule node : adds rule node [].
Proof. constructor. Qed.

Lemma adds_one rule node (i : Issue) :
  ruleId i = rule -> location i = Measure.place node ->
  Measure.is_security_finding i = true -> adds rule node [i].
Proof. intros H1 H2 H3. constructor; [repeat split; assumption | constructor]. Qed.

Ltac one_or_none :=
  first
    [ exists []; split; [rewrite app_nil_r; reflexivity | split; [apply adds_nil | simpl; lia]]
    | eexists [_]; split;
      [reflexivity | split; [apply adds_one; reflexivity | simpl; lia]] ].

Lemma checkSQLInjectionInExpression_adds node issues :
  exists added,
    checkSQLInjectionInExpression uuidv4 node filePath sourceCode issues = issues ++ added
    /\ adds "sql-injection" node added /\ (List.length added <= 1)%nat.
Proof.
  unfold checkSQLInjectionInExpression. cbv zeta.
  destruct (is_str "+" _); [|one_or_none].
  destruct (containsStringLiteral node); [|one_or_none].
  destruct (existsb _ _); one_or_none.
Qed.

Lemma checkSQLInjection_adds node issues issues' :
  checkSQLInjection uuidv4 node filePath sourceCode issues = Some issues' ->
  exists added,
    issues' = issues ++ added
    /\ adds "sql-injection" node added /\ (List.length added <= 2)%nat.
Proof.
  unfold checkSQLInjection. cbv zeta.
  destruct (is_str "query" _ || is_str "execute" _).
  2:{ intros [= <-]. exists []. rewrite app_nil_r.
      repeat split; [apply adds_nil | simpl; lia]. }
  match goal with |- (match ?c with _ => _ end) = _ -> _ =>
    destruct c as [issues1|] eqn:E; [|discriminate] end.
  assert (H1 : exists a1, issues1 = issues ++ a1
                          /\ adds "sql-injection" node a1 /\ (List.length a1 <= 1)%nat).
  { destruct (has_type "TemplateLiteral" _ && _).
    2:{ injection E as <-. exists []. rewrite app_nil_r.
        repeat split; [apply adds_nil | simpl; lia]. }
    match type of E with (match ?c with _ => _ end) = _ =>
      destruct c as [[|]|]; try discriminate E; injection E as <- end.
    - eexists [_]. split; [reflexivity|].
      split; [apply adds_one; reflexivity | simpl; lia].
    - exists []. rewrite app_nil_r. repeat split; [apply adds_nil | simpl; lia]. }
  destruct H1 as [a1 [-> [Ha1 Hlen]]].
  destruct (has_type "BinaryExpression" _ && _); intros [= <-].
  - eexists (a1 ++ [_]). split; [rewrite app_assoc; reflexivity|].
    split.
    + apply Forall_app. split; [exact Ha1 | apply adds_one; reflexivity].
    + rewrite length_app. simpl. lia.
  - exists a1. repeat split; [exact Ha1 | lia].
Qed.

Lemma checkCommandInjection_adds node issues :
  exists added,
    checkCommandInjection uuidv4 node filePath sourceCode issues = issues ++ added
    /\ adds "command-injection" node added /\ (List.length added <= 1)%nat.
Proof.
  unfold checkCommandInjection. cbv zeta.
  destruct (includes_str _ _); [|one_or_none].
  destruct (has_type "TemplateLiteral" _ || _); one_or_none.
Qed.

Lemma checkXSS_adds node issues :
  exists added,
    checkXSS uuidv4 node filePath sourceCode issues = issues ++ added
    /\ adds "xss-danger" node added /\ (List.length added <= 1)%nat.
Proof. unfold checkXSS. destruct (is_str _ _); one_or_none. Qed.

Lemma checkHardcodedSecrets_adds node issues :
  exists added,
    checkHardcodedSecrets uuidv4 node filePath sourceCode issues = issues ++ added
    /\ adds "hardcoded-secret" node added /\ (List.length added <= 1)%nat.
Proof.
  unfold checkHardcodedSecrets.
  destruct (node@."value"); try one_or_none.
  destruct (String.length s <? 8)%nat; [one_or_none|].
  unfold secretPatterns. cbv zeta. cbn [regex pattern_name minLength].
  repeat match goal with
         | |- context [if ?c then _ else _] => destruct c
         end; one_or_none.
Qed.

Lemma checkDangerousFunctions_exact node issues :
  exists issue,
    ruleId issue = "dangerous-function"%string
    /\ location issue = Measure.place node
    /\ Measure.is_security_finding issue = true
    /\ checkDangerousFunctions uuidv4 node filePath sourceCode issues =
       issues ++ (if includes_str ["eval"; "Function"; "setTimeout"; "setInterval"]%string
                       node@."name"
                  then [issue] else []).
Proof.
  unfold checkDangerousFunctions. cbv zeta.
  destruct (includes_str _ _).
  - match goal with |- exists _, _ /\ _ /\ _ /\ _ ++ [?i] = _ => exists i end.
    repeat split.
  - eexists (as_security
               (createIssue "" "dangerous-function" "" WARNING SECURITY node "" None)
               "Code Injection" "CWE-94" "A03:2021 - Injection").
    rewrite app_nil_r. repeat split.
Qed.

End SecurityReportFacts.

Section SecurityOrderFacts.
Import ASTTraverser Tree Trace BaseAnalyzer SecurityAnalyzer Measure.
Variable uuidv4 : nat -> string.
Variables filePath sourceCode : string.

Lemma adds_other rule rule' node added :
  adds rule node added -> String.eqb rule rule' = false -> reported_under rule' added = [].
Proof.
  intros H Hne. induction H as [|i added [Hi _] _ IH]; [reflexivity|].
  unfold reported_under in *. simpl. rewrite Hi, Hne. exact IH.
Qed.

Lemma adds_findings rule node added :
  adds rule node added -> Forall (fun i => is_security_finding i = true) added.
Proof. apply Forall_impl. intros i [_ [_ H]]. exact H. Qed.

Lemma reports_dangerous_step seen issues node added :
  reports_dangerous seen issues ->
  map location (reported_under "dangerous-function" added) =
  map place (filter is_dangerous_identifier [node]) ->
  reports_dangerous (seen ++ [node]) (issues ++ added).
Proof.
  unfold reports_dangerous, reported_under. intros H Hadd.
  rewrite !filter_app, !map_app, H. f_equal. exact Hadd.
Qed.

Lemma reports_dangerous_quiet seen issues node added :
  reports_dangerous seen issues ->
  is_dangerous_identifier node = false ->
  reported_under "dangerous-function" added = [] ->
  reports_dangerous (seen ++ [node]) (issues ++ added).
Proof.
  intros H Hnode Hadd. apply reports_dangerous_step; [exact H|].
  rewrite Hadd. simpl. rewrite Hnode. reflexivity.
Qed.

Lemma reports_dangerous_same seen issues node :
  reports_dangerous seen issues -> is_dangerous_identifier node = false ->
  reports_dangerous (seen ++ [node]) issues.
Proof.
  intros H Hnode. rewrite <- (app_nil_r issues).
  apply reports_dangerous_quiet; [exact H | exact Hnode | reflexivity].
Qed.

Ltac other_key Ekey E :=
  unfold is_dangerous_identifier, keyed; rewrite <- Ekey;
  first [ rewrite E; reflexivity
        | apply String.eqb_eq in E; rewrite <- E; reflexivity ].

Lemma security_visitor_reports_dangerous :
  forall node parent path seen issues issues',
    reports_dangerous seen issues ->
    traverse (visitor uuidv4 filePath sourceCode) node parent path issues = Some issues' ->
    reports_dangerous (seen ++ preorder node) issues'.
Proof.
  apply traverse_follows.
  - intros node parent path seen s s' b _ Hs.
    unfold visitor, object, call_enter. cbn [lookup].
    remember (type_key (type_of node)) as key eqn:Ekey.
    destruct (String.eqb "CallExpression" key) eqn:E1.
    { unfold returns_void.
      destruct (checkSQLInjection _ _ _ _ _) as [issues1|] eqn:Esql; [|discriminate].
      destruct (@checkSQLInjection_adds _ _ _ _ _ _ Esql) as [a1 [-> [Ha1 _]]].
      destruct (checkCommandInjection_adds uuidv4 filePath sourceCode node (s ++ a1))
        as [a2 [-> [Ha2 _]]].
      intros [= <- <-]. split; [|reflexivity].
      rewrite <- app_assoc.
      apply reports_dangerous_quiet; [exact Hs | other_key Ekey E1 |].
      unfold reported_under. rewrite filter_app.
      change (reported_under "dangerous-function" a1
              ++ reported_under "dangerous-function" a2 = []).
      rewrite (@adds_other _ "dangerous-function" _ _ Ha1 eq_refl), (@adds_other _ "dangerous-function" _ _ Ha2 eq_refl).
      reflexivity. }
    destruct (String.eqb "BinaryExpression" key) eqn:E2.
    { unfold returns_void.
      destruct (checkSQLInjectionInExpression_adds uuidv4 filePath sourceCode node s)
        as [a [-> [Ha _]]].
      intros [= <- <-]. split; [|reflexivity].
      apply reports_dangerous_quiet; [exact Hs | other_key Ekey E2 |].
      apply (@adds_other _ "dangerous-function" _ _ Ha eq_refl). }
    destruct (String.eqb "JSXAttribute" key) eqn:E3.
    { unfold returns_void.
      destruct (checkXSS_adds uuidv4 filePath sourceCode node s) as [a [-> [Ha _]]].
      intros [= <- <-]. split; [|reflexivity].
      apply reports_dangerous_quiet; [exact Hs | other_key Ekey E3 |].
      apply (@adds_other _ "dangerous-function" _ _ Ha eq_refl). }
    destruct (String.eqb "StringLiteral" key) eqn:E4.
    { unfold returns_void.
      destruct (checkHardcodedSecrets_adds uuidv4 filePath sourceCode node s)
        as [a [-> [Ha _]]].
      intros [= <- <-]. split; [|reflexivity].
      apply reports_dangerous_quiet; [exact Hs | other_key Ekey E4 |].
      apply (@adds_other _ "dangerous-function" _ _ Ha eq_refl). }
    destruct (String.eqb "Literal" key) eqn:E5.
    { unfold returns_void.
      destruct (checkHardcodedSecrets_adds uuidv4 filePath sourceCode node s)
        as [a [-> [Ha _]]].
      intros [= <- <-]. split; [|reflexivity].
      apply reports_dangerous_quiet; [exact Hs | other_key Ekey E5 |].
      apply (@adds_other _ "dangerous-function" _ _ Ha eq_refl). }
    destruct (String.eqb "Identifier" key) eqn:E6.
    { unfold returns_void.
      destruct (checkDangerousFunctions_exact uuidv4 filePath sourceCode node s)
        as [issue [Hrule [Hloc [_ ->]]]].
      intros [= <- <-]. split; [|reflexivity].
      apply reports_dangerous_step; [exact Hs|].
      unfold is_dangerous_identifier, keyed. cbn [filter]. rewrite <- Ekey, E6.
      unfold includes_str. cbn [andb existsb].
      match goal with |- context [if ?c then [issue] else []] => destruct c end;
        [|reflexivity].
      unfold reported_under. simpl. rewrite Hrule. simpl. rewrite Hloc. reflexivity. }
    intros [= <- <-]. split; [|reflexivity].
    apply reports_dangerous_same; [exact Hs | other_key Ekey E6].
  - intros node parent path seen s s' Hs.
    unfold call_wildcard, visitor, object. cbn. intros [= <-]. exact Hs.
  - intros node parent path seen s s' Hs.
    unfold visitor, object, call_exit. cbn [lookup].
    repeat match goal with
           | |- context [String.eqb ?a ?k] => destruct (String.eqb a k)
           end; intros [= <-]; exact Hs.
Qed.

Lemma security_visitor_keeps :
  forall key e, visitor uuidv4 filePath sourceCode key = Some e ->
    entry_preserves (Forall (fun i => is_security_finding i = true)) e.
Proof.
  apply object_entries.
  repeat constructor; cbn [snd]; unfold entry_preserves, preserves, returns_void;
    intros node parent path s s' b Hs.
  - destruct (checkSQLInjection _ _ _ _ _) as [issues1|] eqn:Esql; [|discriminate].
    destruct (@checkSQLInjection_adds _ _ _ _ _ _ Esql) as [a1 [-> [Ha1 _]]].
    destruct (checkCommandInjection_adds uuidv4 filePath sourceCode node (s ++ a1))
      as [a2 [-> [Ha2 _]]].
    intros [= <- _]. rewrite !Forall_app.
    repeat split; [exact Hs | |]; eapply adds_findings; eassumption.
  - destruct (checkSQLInjectionInExpression_adds uuidv4 filePath sourceCode node s)
      as [a [-> [Ha _]]].
    intros [= <- _]. rewrite Forall_app. split; [exact Hs|].
    eapply adds_findings; eassumption.
  - destruct (checkXSS_adds uuidv4 filePath sourceCode node s) as [a [-> [Ha _]]].
    intros [= <- _]. rewrite Forall_app. split; [exact Hs|].
    eapply adds_findings; eassumption.
  - destruct (checkHardcodedSecrets_adds uuidv4 filePath sourceCode node s)
      as [a [-> [Ha _]]].
    intros [= <- _]. rewrite Forall_app. split; [exact Hs|].
    eapply adds_findings; eassumption.
  - destruct (checkHardcodedSecrets_adds uuidv4 filePath sourceCode node s)
      as [a [-> [Ha _]]].
    intros [= <- _]. rewrite Forall_app. split; [exact Hs|].
    eapply adds_findings; eassumption.
  - destruct (checkDangerousFunctions_exact uuidv4 filePath sourceCode node s)
      as [issue [_ [_ [Hi ->]]]].
    intros [= <- _]. rewrite Forall_app. split; [exact Hs|].
    match goal with |- context [if ?c then [issue] else []] => destruct c end;
      repeat constructor. exact Hi.
Qed.

End SecurityOrderFacts.

(** X8.  Every finding of the Security Analyzer is an instance of one of its
    five rules: it has category security, no complexity score, and the
    severity, vulnerability name, CWE identifier and OWASP bucket that the
    rule fixes (errors for "sql-injection", "command-injection" and
    "hardcoded-secret", warnings for "xss-danger" and
    "dangerous-function"). *)
Theorem security_findings_follow_the_rule_table :
  forall (uuidv4 : nat -> string) (context : BaseAnalyzer.AnalyzerContext)
         (issues : list Issue),
    SecurityAnalyzer.analyze uuidv4 context = Some issues ->
    Forall (fun i => Measure.is_security_finding i = true) issues.
Proof.
  intros uuidv4 context issues H.
  unfold SecurityAnalyzer.analyze in H. cbv zeta in H.
  exact (@traverse_preserves (list Issue)
           (Forall (fun i => Measure.is_security_finding i = true)) _
           (@security_visitor_keeps uuidv4 _ _) _ _ _ _ _ (Forall_nil _) H).
Qed.

Lemma security_findings_follow_the_rule_table_witness :
  exists issues,
    SecurityAnalyzer.analyze Examples.uuid (Examples.context Examples.ten_evals)
      = Some issues
    /\ List.length issues = 10%nat
    /\ Forall (fun i => Measure.is_security_finding i = true) issues.
Proof.
  eexists. split; [vm_compute; reflexivity|]. split; [reflexivity|].
  apply (security_findings_follow_the_rule_table
           Examples.uuid (Examples.context Examples.ten_evals)).
  vm_compute. reflexivity.
Defined.

(** X9.  The findings under "dangerous-function" are in one-to-one
    correspondence with the identifiers named [eval], [Function],
    [setTimeout] or [setInterval] in the tree: one finding for each such
    identifier, whether it is called or not, in pre-order and located at the
    identifier. *)
Theorem dangerous_identifiers_are_reported_in_order :
  forall (uuidv4 : nat -> string) (context : BaseAnalyzer.AnalyzerContext)
         (issues : list Issue),
    SecurityAnalyzer.analyze uuidv4 context = Some issues ->
    map location (Measure.reported_under "dangerous-function" issues) =
    map Measure.place
      (filter Measure.is_dangerous_identifier
         (Tree.preorder (ast (BaseAnalyzer.parseResult context)))).
Proof.
  intros uuidv4 context issues H.
  unfold SecurityAnalyzer.analyze in H. cbv zeta in H.
  exact (@security_visitor_reports_dangerous uuidv4 _ _ _ _ _ [] [] _ eq_refl H).
Qed.

Lemma dangerous_identifiers_are_reported_in_order_witness :
  exists issues,
    SecurityAnalyzer.analyze Examples.uuid (Examples.context Examples.ten_evals)
      = Some issues
    /\ map location (Measure.reported_under "dangerous-function" issues) =
       map Measure.place
         (filter Measure.is_dangerous_identifier
            (Tree.preorder
               (ast (BaseAnalyzer.parseResult (Examples.context Examples.ten_evals))))).
Proof.
  eexists. split; [vm_compute; reflexivity|].
  apply (dangerous_identifiers_are_reported_in_order
           Examples.uuid (Examples.context Examples.ten_evals)).
  vm_compute. reflexivity.
Defined.

(** ** Hard-coded secrets *)

Section SecretFacts.
Import SecurityAnalyzer.

Lemma prefix_length (p s : string) :
  String.prefix p s = true -> (String.length p <= String.length s)%nat.
Proof.
  revert s; induction p as [|c p IH]; intros s; [simpl; lia|].
  destruct s as [|d s]; simpl; [discriminate|].
  destruct (Ascii.ascii_dec c d); [|discriminate].
  intros H. apply IH in H. lia.
Qed.

Lemma substring_length (n m : nat) (s : string) :
  (String.length (String.substring n m s) <= m)%nat.
Proof.
  revert n m; induction s as [|c s IH]; intros n m.
  - destruct n, m; simpl; lia.
  - destruct n as [|n].
    + destruct m as [|m]; simpl; [lia|]. specialize (IH 0%nat m). lia.
    + simpl. apply IH.
Qed.

Lemma dot_star_then_length (pat s : string) :
  dot_star_then pat s = true -> (String.length pat <= String.length s)%nat.
Proof.
  induction s as [|c s IH]; cbn [dot_star_then].
  - rewrite orb_false_r. apply prefix_length.
  - destruct (String.prefix pat (String c s)) eqn:E.
    + intros _. apply prefix_length in E. exact E.
    + cbn [orb]. intros H. apply andb_prop in H. destruct H as [_ H].
      apply IH in H. simpl. lia.
Qed.

Lemma re_stripe_key_length (s : string) :
  re_stripe_key s = true -> (28 <= String.length s)%nat.
Proof.
  unfold re_stripe_key. intros H.
  apply andb_prop in H. destruct H as [_ H]. apply Nat.leb_le in H. lia.
Qed.

Lemma re_long_token_length (s : string) :
  re_long_token s = true -> (32 <= String.length s)%nat.
Proof.
  unfold re_long_token. intros H.
  apply andb_prop in H. destruct H as [_ H]. apply Nat.leb_le in H. exact H.
Qed.

Lemma re_private_key_length (s : string) :
  re_private_key s = true -> (26 <= String.length s)%nat.
Proof.
  induction s as [|c s IH].
  - simpl. discriminate.
  - intros H. cbn [re_private_key] in H. apply orb_prop in H. destruct H as [H|H].
    + apply andb_prop in H. destruct H as [_ H].
      apply dot_star_then_length in H.
      pose proof (substring_length 10 (String.length (String c s) - 10) (String c s)) as Hs.
      change (String.length "PRIVATE KEY-----") with 16%nat in H. lia.
    + apply IH in H. simpl. lia.
Qed.

End SecretFacts.

(** X10.  [checkHardcodedSecrets] adds at most one finding for a literal,
    and only for a string value of at least 15 characters: the guard that
    lets strings of 8 characters through is never the one that decides, since
    each of the four patterns needs 15 characters or more. *)
Theorem hardcoded_secrets_are_long_strings :
  forall (uuidv4 : nat -> string) (node : ASTNode) (filePath sourceCode : string)
         (issues : list Issue),
  exists added,
    SecurityAnalyzer.checkHardcodedSecrets uuidv4 node filePath sourceCode issues
      = issues ++ added
    /\ (List.length added <= 1)%nat
    /\ (added <> [] ->
        exists value, node@."value" = VStr value /\ (15 <= String.length value)%nat).
Proof.
  intros uuidv4 node filePath sourceCode issues.
  destruct (node@."value") as [| | | |value| |] eqn:Evalue;
    try (exists []; unfold SecurityAnalyzer.checkHardcodedSecrets; rewrite Evalue;
         rewrite app_nil_r; repeat split; [simpl; lia | intros H; elim H; reflexivity]).
  destruct (le_lt_dec 15 (String.length value)) as [Hlong|Hshort].
  - destruct (checkHardcodedSecrets_adds uuidv4 filePath sourceCode node issues)
      as [added [E [_ Hlen]]].
    exists added. repeat split; [exact E | exact Hlen |].
    intros _. exists value. split; [reflexivity | exact Hlong].
  - exists []. rewrite app_nil_r. repeat split; [| simpl; lia | intros H; elim H; reflexivity].
    unfold SecurityAnalyzer.checkHardcodedSecrets. rewrite Evalue.
    destruct (String.length value <? 8)%nat; [reflexivity|].
    unfold SecurityAnalyzer.secretPatterns. cbv zeta.
    cbn [SecurityAnalyzer.regex SecurityAnalyzer.pattern_name SecurityAnalyzer.minLength].
    assert (H1 : SecurityAnalyzer.re_stripe_key value = false).
    { destruct (SecurityAnalyzer.re_stripe_key value) eqn:E; [|reflexivity].
      apply re_stripe_key_length in E. lia. }
    assert (H2 : SecurityAnalyzer.re_long_token value = false).
    { destruct (SecurityAnalyzer.re_long_token value) eqn:E; [|reflexivity].
      apply re_long_token_length in E. lia. }
    assert (H3 : SecurityAnalyzer.re_private_key value = false).
    { destruct (SecurityAnalyzer.re_private_key value) eqn:E; [|reflexivity].
      apply re_private_key_length in E. lia. }
    assert (H4 : (15 <=? String.length value)%nat = false)
      by (apply Nat.leb_gt; exact Hshort).
    rewrite H1, H2, H3, H4. rewrite andb_false_r. reflexivity.
Qed.

(** ** What the code-quality analyzer reports *)

Section QualityFacts.
Import ASTTraverser Tree Trace BaseAnalyzer CodeQualityAnalyzer Measure.
Variable uuidv4 : nat -> string.
Variables filePath sourceCode : string.

Lemma has_add_same (v : string) (set : list value) : has (VStr v) (add (VStr v) set) = true.
Proof.
  unfold add. destruct (has (VStr v) set) eqn:E; [exact E|].
  unfold has. rewrite existsb_app. simpl. rewrite String.eqb_refl.
  rewrite orb_true_r. reflexivity.
Qed.

Lemma has_add_mono (x y : value) (set : list value) :
  has y set = true -> has y (add x set) = true.
Proof.
  intros H. unfold add. destruct (has x set); [exact H|].
  unfold has in *. rewrite existsb_app, H. reflexivity.
Qed.

Lemma add_truthy (x : value) (set : list value) :
  truthy x = true -> Forall (fun v => truthy v = true) set ->
  Forall (fun v => truthy v = true) (add x set).
Proof.
  intros Hx Hset. unfold add. destruct (has x set); [exact Hset|].
  apply Forall_app. split; [exact Hset | repeat constructor; exact Hx].
Qed.

Lemma covers_other seen used node :
  covers seen used -> keyed "Identifier" node = false -> covers (seen ++ [node]) used.
Proof.
  intros H Hnode x v Hx Hkey. apply in_app_or in Hx. destruct Hx as [Hx|[<-|[]]].
  - apply H; assumption.
  - rewrite Hnode in Hkey. discriminate.
Qed.

Lemma covers_use seen used node :
  covers seen used ->
  covers (seen ++ [node])
    (if truthy node@."name" then add node@."name" used else used).
Proof.
  intros H x v Hx Hkey Hname Hv. apply in_app_or in Hx. destruct Hx as [Hx|[<-|[]]].
  - destruct (truthy node@."name"); [apply has_add_mono|]; apply (H x v); assumption.
  - rewrite Hname. simpl.
    destruct (String.eqb v EmptyString) eqn:E;
      [apply String.eqb_eq in E; contradiction|].
    simpl. apply has_add_same.
Qed.

Ltac walk_finding :=
  first
    [ exists []; split; [rewrite app_nil_r; reflexivity | constructor]
    | eexists [_]; split;
      [reflexivity | repeat constructor; discriminate] ].

Lemma checkMagicNumbers_adds node issues :
  exists added, checkMagicNumbers uuidv4 node filePath sourceCode issues = issues ++ added
                /\ Forall is_walk_finding added.
Proof.
  unfold checkMagicNumbers.
  destruct (node@."value"); try walk_finding.
  cbv zeta. destruct (existsb _ _); [walk_finding|].
  destruct (has_type _ _); walk_finding.
Qed.

Lemma checkLongParameterList_adds node issues :
  exists added, checkLongParameterList uuidv4 node filePath sourceCode issues = issues ++ added
                /\ Forall is_walk_finding added.
Proof.
  unfold checkLongParameterList. cbv zeta. destruct (gt _ _); walk_finding.
Qed.

Lemma checkEmptyCatchBlock_adds node issues :
  exists added, checkEmptyCatchBlock uuidv4 node filePath sourceCode issues = issues ++ added
                /\ Forall is_walk_finding added.
Proof.
  unfold checkEmptyCatchBlock. cbv zeta. destruct (is_num _ _); walk_finding.
Qed.

Lemma checkConsoleStatements_adds node issues :
  exists added, checkConsoleStatements uuidv4 node filePath sourceCode issues = issues ++ added
                /\ Forall is_walk_finding added.
Proof.
  unfold checkConsoleStatements. destruct (is_str _ _ && _); walk_finding.
Qed.

(** On a node that reached the callback registered under "CallExpression",
    [checkDebuggerStatements] does nothing. *)
Lemma checkDebuggerStatements_idle node issues :
  keyed "CallExpression" node = true ->
  checkDebuggerStatements uuidv4 node filePath sourceCode issues = issues.
Proof.
  unfold keyed, checkDebuggerStatements, has_type. intros H.
  apply String.eqb_eq in H.
  destruct (type_of node) as [t|]; [|reflexivity].
  simpl in H. subst t. reflexivity.
Qed.

Lemma check_comments_adds node comments issues issues' :
  check_comments uuidv4 node filePath comments issues = Some issues' ->
  exists added, issues' = issues ++ added /\ Forall is_walk_finding added.
Proof.
  revert issues; induction comments as [|comment rest IH]; intros issues; simpl.
  - intros [= <-]. exists []. rewrite app_nil_r. split; [reflexivity | constructor].
  - destruct (check_comment _ _ _ _ _) as [issues1|] eqn:E; [|discriminate].
    intros Hrest. apply IH in Hrest. destruct Hrest as [a2 [-> Ha2]].
    assert (H1 : exists a1, issues1 = issues ++ a1 /\ Forall is_walk_finding a1).
    { unfold check_comment in E.
      destruct (member "value" comment) as [text|]; [|discriminate].
      destruct (truthy text && _).
      - destruct text; try discriminate. injection E as <-.
        eexists [_]. split; [reflexivity | repeat constructor; discriminate].
      - injection E as <-. exists []. rewrite app_nil_r. split; [reflexivity | constructor]. }
    destruct H1 as [a1 [-> Ha1]].
    exists (a1 ++ a2). rewrite app_assoc. split; [reflexivity|].
    apply Forall_app. split; assumption.
Qed.

Lemma checkTodoComments_adds node issues issues' :
  checkTodoComments uuidv4 node filePath sourceCode issues = Some issues' ->
  exists added, issues' = issues ++ added /\ Forall is_walk_finding added.
Proof.
  unfold checkTodoComments. cbv zeta.
  destruct (or _ _); try discriminate.
  - intros [= <-]. exists []. rewrite app_nil_r. split; [reflexivity | constructor].
  - apply check_comments_adds.
Qed.

Lemma declare_each_keeps params s s' :
  declare_each params s = Some s' ->
  Forall (fun v => truthy v = true) (declaredVariables s) ->
  usedVariables s' = usedVariables s /\ issues s' = issues s
  /\ Forall (fun v => truthy v = true) (declaredVariables s').
Proof.
  revert s; induction params as [|param rest IH]; intros s; simpl.
  - intros [= <-] H. repeat split. exact H.
  - destruct (member "name" param) as [name|]; [|discriminate].
    intros Hrest Hs. apply IH in Hrest.
    + destruct (truthy name); exact Hrest.
    + destruct (truthy name) eqn:E; [|exact Hs].
      apply add_truthy; assumption.
Qed.

Lemma declare_params_keeps node s s' :
  declare_params node s = Some s' ->
  Forall (fun v => truthy v = true) (declaredVariables s) ->
  usedVariables s' = usedVariables s /\ issues s' = issues s
  /\ Forall (fun v => truthy v = true) (declaredVariables s').
Proof.
  unfold declare_params.
  destruct (node@."params"); try discriminate;
    try (intros [= <-] H; repeat split; exact H).
  apply declare_each_keeps.
Qed.

Lemma get_opt_truthy (key : string) (v : value) :
  truthy v@?key = true -> v@.key = v@?key.
Proof.
  unfold get_opt. destruct (nullish v); [discriminate | reflexivity].
Qed.

Ltac not_identifier Ekey E :=
  unfold keyed; rewrite <- Ekey;
  first [ rewrite E; reflexivity
        | apply String.eqb_eq in E; rewrite <- E; reflexivity ].

Lemma quality_visitor_follows :
  forall node parent path seen s s',
    quality_state seen s ->
    traverse (visitor uuidv4 filePath sourceCode) node parent path s = Some s' ->
    quality_state (seen ++ preorder node) s'.
Proof.
  apply traverse_follows.
  - intros node parent path seen s s' b _ [Hused [Hdecl Hiss]].
    unfold visitor, object, call_enter. cbn [lookup].
    remember (type_key (type_of node)) as key eqn:Ekey.
    destruct (String.eqb "VariableDeclarator" key) eqn:E1.
    { unfold on_state. intros [= <- <-]. split; [|reflexivity].
      assert (Hother : covers (seen ++ [node]) (usedVariables s))
        by (apply covers_other; [exact Hused | not_identifier Ekey E1]).
      destruct (truthy node@."id"@?"name") eqn:Et.
      - repeat split; cbn [usedVariables declaredVariables issues declare];
          [exact Hother | | exact Hiss].
        apply add_truthy; [|exact Hdecl].
        rewrite get_opt_truthy by exact Et. exact Et.
      - repeat split; [exact Hother | exact Hdecl | exact Hiss]. }
    destruct (String.eqb "FunctionDeclaration" key) eqn:E2.
    { unfold on_state.
      destruct (declare_params node s) as [s1|] eqn:Ep; [|discriminate].
      destruct (declare_params_keeps _ _ Ep Hdecl) as [Hu [Hi Hd]].
      destruct (checkLongParameterList_adds node (issues s1)) as [a [Ea Ha]].
      intros [= <- <-]. split; [|reflexivity].
      repeat split; cbn [usedVariables declaredVariables issues with_issues].
      - rewrite Hu. apply covers_other; [exact Hused | not_identifier Ekey E2].
      - exact Hd.
      - rewrite Ea, Hi. apply Forall_app. split; assumption. }
    destruct (String.eqb "FunctionExpression" key) eqn:E3.
    { unfold on_state.
      destruct (declare_params node s) as [s1|] eqn:Ep; [|discriminate].
      destruct (declare_params_keeps _ _ Ep Hdecl) as [Hu [Hi Hd]].
      destruct (checkLongParameterList_adds node (issues s1)) as [a [Ea Ha]].
      intros [= <- <-]. split; [|reflexivity].
      repeat split; cbn [usedVariables declaredVariables issues with_issues].
      - rewrite Hu. apply covers_other; [exact Hused | not_identifier Ekey E3].
      - exact Hd.
      - rewrite Ea, Hi. apply Forall_app. split; assumption. }
    destruct (String.eqb "ArrowFunctionExpression" key) eqn:E4.
    { unfold on_state.
      destruct (declare_params node s) as [s1|] eqn:Ep; [|discriminate].
      destruct (declare_params_keeps _ _ Ep Hdecl) as [Hu [Hi Hd]].
      intros [= <- <-]. split; [|reflexivity].
      repeat split.
      - rewrite Hu. apply covers_other; [exact Hused | not_identifier Ekey E4].
      - exact Hd.
      - rewrite Hi. exact Hiss. }
    destruct (String.eqb "Identifier" key) eqn:E5.
    { unfold on_state. intros [= <- <-]. split; [|reflexivity].
      pose proof (@covers_use seen (usedVariables s) node Hused) as Hcov.
      destruct (truthy node@."name"); repeat split; assumption. }
    destruct (String.eqb "Literal" key) eqn:E6.
    { unfold on_state.
      destruct (checkMagicNumbers_adds node (issues s)) as [a [Ea Ha]].
      intros [= <- <-]. split; [|reflexivity].
      repeat split; cbn [usedVariables declaredVariables issues with_issues].
      - apply covers_other; [exact Hused | not_identifier Ekey E5].
      - exact Hdecl.
      - rewrite Ea. apply Forall_app. split; assumption. }
    destruct (String.eqb "CatchClause" key) eqn:E7.
    { unfold on_state.
      destruct (checkEmptyCatchBlock_adds node (issues s)) as [a [Ea Ha]].
      intros [= <- <-]. split; [|reflexivity].
      repeat split; cbn [usedVariables declaredVariables issues with_issues].
      - apply covers_other; [exact Hused | not_identifier Ekey E5].
      - exact Hdecl.
      - rewrite Ea. apply Forall_app. split; assumption. }
    destruct (String.eqb "CallExpression" key) eqn:E8.
    { unfold on_state.
      destruct (checkConsoleStatements_adds node (issues s)) as [a [Ea Ha]].
      intros [= <- <-]. split; [|reflexivity].
      repeat split; cbn [usedVariables declaredVariables issues with_issues].
      - apply covers_other; [exact Hused | not_identifier Ekey E5].
      - exact Hdecl.
      - rewrite checkDebuggerStatements_idle
          by (unfold keyed; rewrite <- Ekey; exact E8).
        rewrite Ea. apply Forall_app. split; assumption. }
    destruct (String.eqb "*" key) eqn:E9.
    { unfold on_state.
      destruct (checkTodoComments _ _ _ _ _) as [issues'|] eqn:Et; [|discriminate].
      destruct (checkTodoComments_adds _ _ Et) as [a [-> Ha]].
      intros [= <- <-]. split; [|reflexivity].
      repeat split; cbn [usedVariables declaredVariables issues with_issues].
      - apply covers_other; [exact Hused | not_identifier Ekey E5].
      - exact Hdecl.
      - apply Forall_app. split; assumption. }
    intros [= <- <-]. split; [|reflexivity].
    repeat split; [| exact Hdecl | exact Hiss].
    apply covers_other; [exact Hused | not_identifier Ekey E5].
  - intros node parent path seen s s' [Hused [Hdecl Hiss]].
    unfold call_wildcard, visitor, object. cbn [lookup String.eqb Ascii.eqb Bool.eqb].
    unfold on_state.
    destruct (checkTodoComments _ _ _ _ _) as [issues'|] eqn:Et; [|discriminate].
    destruct (checkTodoComments_adds _ _ Et) as [a [-> Ha]].
    intros [= <-].
    repeat split; cbn [usedVariables declaredVariables issues with_issues];
      [exact Hused | exact Hdecl |].
    apply Forall_app. split; assumption.
  - intros node parent path seen s s' Hs.
    unfold visitor, object, call_exit. cbn [lookup].
    repeat match goal with
           | |- context [String.eqb ?a ?k] => destruct (String.eqb a k)
           end; intros [= <-]; exact Hs.
Qed.

End QualityFacts.

Section UnusedFacts.
Import ASTTraverser Tree Trace BaseAnalyzer CodeQualityAnalyzer Measure.
Variable uuidv4 : nat -> string.

Lemma findNode_find (ast : ASTNode) (predicate : ASTNode -> bool) :
  findNode ast predicate = Some (find predicate (preorder ast)).
Proof.
  unfold findNode. cbv zeta. apply (findNode_traverse predicate ast None [] None).
Qed.

Lemma report_unused_reports (ast : ASTNode) (filePath : string) (used : list value) :
  covers (preorder ast) used ->
  forall declared issues issues',
    Forall (fun v => truthy v = true) declared ->
    report_unused uuidv4 ast filePath used declared issues = Some issues' ->
    exists added,
      issues' = issues ++ added
      /\ Forall (fun i => is_quality_finding i = true
                          /\ ruleId i = "unused-variable"%string
                          /\ reports_unused ast i) added.
Proof.
  intros Hcov declared.
  induction declared as [|variable rest IH]; intros issues issues' Hdecl; simpl.
  - intros [= <-]. exists []. rewrite app_nil_r. split; [reflexivity | constructor].
  - inversion Hdecl as [|? ? Hvar Hrest]; subst.
    destruct (has variable used) eqn:Ehas; [apply IH; exact Hrest|].
    destruct variable as [| | | |name| |]; try discriminate.
    destruct (startsWith "_" name) eqn:Eprefix; [apply IH; exact Hrest|].
    rewrite findNode_find.
    destruct (find (names name) (preorder ast)) as [node|] eqn:Efind;
      [|apply IH; exact Hrest].
    intros H. apply IH in H; [|exact Hrest].
    destruct H as [added [-> Hadded]].
    eexists (_ :: added). split; [rewrite <- app_assoc; reflexivity|].
    constructor; [|exact Hadded].
    split; [reflexivity|]. split; [reflexivity|].
    exists name, node. repeat split; try assumption.
    intros x Hx Hkey Hname.
    assert (Hne : name <> EmptyString).
    { intros ->. discriminate Hvar. }
    rewrite (Hcov x name Hx Hkey Hname Hne) in Ehas. discriminate.
Qed.

Lemma quality_analyze_findings (context : AnalyzerContext) (issues : list Issue) :
  analyze uuidv4 context = Some issues ->
  exists walked reported,
    issues = walked ++ reported
    /\ Forall is_walk_finding walked
    /\ Forall (fun i => is_quality_finding i = true
                        /\ ruleId i = "unused-variable"%string
                        /\ reports_unused (ast (parseResult context)) i) reported.
Proof.
  unfold analyze. cbv zeta.
  destruct (traverse _ _ _ _ _) as [s|] eqn:Ewalk; [|discriminate].
  assert (Hinit : quality_state []
                    {| declaredVariables := []; usedVariables := []; issues := [] |}).
  { repeat split; try constructor. intros x v []. }
  pose proof (@quality_visitor_follows uuidv4 _ _ _ _ _ _ _ _ Hinit Ewalk)
    as [Hused [Hdecl Hiss]].
  intros Hreport.
  destruct (@report_unused_reports _ _ _ Hused _ _ _ Hdecl Hreport) as [added [-> Hadded]].
  exists (CodeQualityAnalyzer.issues s), added. repeat split; assumption.
Qed.

End UnusedFacts.

(** X11.  Every finding of the Code Quality Analyzer is a code smell under
    one of six rules, with the severity of its rule and neither taxonomy nor
    score: "magic-number", "long-parameter-list", "console-statement" and
    "todo-comment" (info), "empty-catch-block" and "unused-variable"
    (warning).  "debugger-statement" is never reported: its check runs only
    on nodes of type [CallExpression] and asks for the type
    [DebuggerStatement]. *)
Theorem quality_findings_follow_the_rule_table :
  forall (uuidv4 : nat -> string) (context : BaseAnalyzer.AnalyzerContext)
         (issues : list Issue),
    CodeQualityAnalyzer.analyze uuidv4 context = Some issues ->
    Forall (fun i => Measure.is_quality_finding i = true
                     /\ ruleId i <> "debugger-statement"%string) issues.
Proof.
  intros uuidv4 context issues H.
  destruct (quality_analyze_findings _ _ H) as [walked [reported [-> [Hw Hr]]]].
  assert (Hrule : forall i, Measure.is_quality_finding i = true ->
                            ruleId i <> "debugger-statement"%string).
  { intros i Hi Hrule. unfold Measure.is_quality_finding in Hi. rewrite Hrule in Hi.
    destruct (IssueCategory_eqb _ _); [|discriminate Hi].
    cbn in Hi. destruct (severity i); discriminate Hi. }
  apply Forall_app. split.
  - apply Forall_impl with (2 := Hw). intros i [Hi _]. split; [exact Hi | apply Hrule, Hi].
  - apply Forall_impl with (2 := Hr). intros i [Hi _]. split; [exact Hi | apply Hrule, Hi].
Qed.

Lemma quality_findings_follow_the_rule_table_witness :
  exists issues,
    CodeQualityAnalyzer.analyze Examples.uuid (Examples.context Examples.plain_parameter)
      = Some issues
    /\ List.length issues = 1%nat
    /\ Forall (fun i => Measure.is_quality_finding i = true
                        /\ ruleId i <> "debugger-statement"%string) issues.
Proof.
  eexists. split; [vm_compute; reflexivity|]. split; [reflexivity|].
  apply (quality_findings_follow_the_rule_table
           Examples.uuid (Examples.context Examples.plain_parameter)).
  vm_compute. reflexivity.
Defined.

(** X12.  A finding under "unused-variable" is only made for a name that
    does not start with an underscore and that no [Identifier] node of the
    tree carries, the declaration included; it is placed at the first node,
    in pre-order, that has this name or whose [id] has it. *)
Theorem unused_variables_are_names_without_identifier :
  forall (uuidv4 : nat -> string) (context : BaseAnalyzer.AnalyzerContext)
         (issues : list Issue),
    CodeQualityAnalyzer.analyze uuidv4 context = Some issues ->
    Forall (fun i => ruleId i = "unused-variable"%string ->
                     Measure.reports_unused (ast (BaseAnalyzer.parseResult context)) i)
      issues.
Proof.
  intros uuidv4 context issues H.
  destruct (quality_analyze_findings _ _ H) as [walked [reported [-> [Hw Hr]]]].
  apply Forall_app. split.
  - apply Forall_impl with (2 := Hw). intros i [_ Hne] Hrule. contradiction.
  - apply Forall_impl with (2 := Hr). intros i [_ [_ Hi]] _. exact Hi.
Qed.

Lemma unused_variables_are_names_without_identifier_witness :
  exists issues,
    CodeQualityAnalyzer.analyze Examples.uuid (Examples.context Examples.plain_parameter)
      = Some issues
    /\ map ruleId issues = ["unused-variable"%string]
    /\ Forall (fun i => ruleId i = "unused-variable"%string ->
                        Measure.reports_unused
                          (ast (BaseAnalyzer.parseResult
                                  (Examples.context Examples.plain_parameter))) i)
         issues.
Proof.
  eexists. split; [vm_compute; reflexivity|]. split; [reflexivity|].
  apply (unused_variables_are_names_without_identifier
           Examples.uuid (Examples.context Examples.plain_parameter)).
  vm_compute. reflexivity.
Defined.

(** ** The coordinator *)

(** X13.  An analyzer registered with [addAnalyzer] runs after the analyzers
    already there: the findings of the others come first and unchanged, the
    new analyzer is given them as the findings so far, and what it returns,
    or nothing when it throws, is appended; the console gets its name in
    that case and is otherwise as before. *)
Theorem addAnalyzer_runs_after_the_others :
  forall (analyzers : list BaseAnalyzer.IAnalyzer.t) (analyzer : BaseAnalyzer.IAnalyzer.t)
         (parseResult : ParseResult),
    let before := AnalyzerCoordinator.analyzeFile analyzers parseResult in
    let after :=
      AnalyzerCoordinator.analyzeFile
        (AnalyzerCoordinator.addAnalyzer analyzers analyzer) parseResult in
    FileAnalysisResult.issues (fst after) =
      FileAnalysisResult.issues (fst before)
      ++ Spec.contribution parseResult (FileAnalysisResult.issues (fst before)) analyzer
    /\ snd after =
       snd before
       ++ Spec.failed parseResult [analyzer] (FileAnalysisResult.issues (fst before)).
Proof.
  intros analyzers analyzer parseResult. cbv zeta.
  unfold AnalyzerCoordinator.addAnalyzer.
  rewrite !analyzeFile_issues, !analyzeFile_console, merged_app, failed_app.
  split; reflexivity.
Qed.

Section DefaultCoordinatorFacts.
Import ASTTraverser Tree Trace BaseAnalyzer AnalyzerCoordinator Measure.
Variable uuidv4 : nat -> string.

Lemma security_analyze_findings context issues :
  SecurityAnalyzer.analyze uuidv4 context = Some issues ->
  Forall (fun i => is_security_finding i = true) issues.
Proof.
  unfold SecurityAnalyzer.analyze. cbv zeta. intros H.
  exact (@traverse_preserves (list Issue)
           (Forall (fun i => is_security_finding i = true)) _
           (@security_visitor_keeps uuidv4 _ _) _ _ _ _ _ (Forall_nil _) H).
Qed.

Lemma complexity_analyze_findings context issues :
  ComplexityAnalyzer.analyze uuidv4 context = Some issues ->
  Forall (fun i => is_complexity_finding i = true) issues.
Proof.
  unfold ComplexityAnalyzer.analyze. cbv zeta. intros H.
  exact (@traverse_preserves (list Issue)
           (Forall (fun i => is_complexity_finding i = true)) _
           (@complexity_visitor_keeps uuidv4 _ _) _ _ _ _ _ (Forall_nil _) H).
Qed.

Lemma security_finding_well_scored i :
  is_security_finding i = true -> well_scored i = true.
Proof.
  unfold is_security_finding, well_scored.
  destruct (category i); simpl; try discriminate; reflexivity.
Qed.

Lemma quality_finding_well_scored i :
  is_quality_finding i = true -> well_scored i = true.
Proof.
  unfold is_quality_finding, well_scored.
  destruct (category i); simpl; try discriminate; reflexivity.
Qed.

Lemma complexity_finding_well_scored i :
  is_complexity_finding i = true -> well_scored i = true.
Proof.
  unfold is_complexity_finding, well_scored. intros H.
  apply andb_prop in H. destruct H as [_ H].
  destruct (complexityScore i) as [score|]; [|discriminate].
  destruct (threshold i) as [limit|]; [|discriminate].
  apply andb_prop in H. destruct H as [Hlt Hrule].
  apply Z.ltb_lt in Hlt.
  assert (Hlimit : 10 <= limit).
  { repeat (apply orb_prop in Hrule; destruct Hrule as [Hrule|Hrule]);
      apply andb_prop in Hrule; destruct Hrule as [Hrule _];
      apply andb_prop in Hrule; destruct Hrule as [_ Hrule];
      apply Z.eqb_eq in Hrule; lia. }
  replace (10 <? score) with true by (symmetry; apply Z.ltb_lt; lia).
  apply orb_true_r.
Qed.

Lemma default_findings_well_scored (parseResult : ParseResult) :
  Forall (fun i => well_scored i = true)
    (FileAnalysisResult.issues (fst (analyzeFile (constructor uuidv4) parseResult))).
Proof.
  rewrite analyzeFile_issues. unfold constructor. cbn [Spec.merged].
  rewrite !Forall_app. unfold Spec.contribution.
  cbn [IAnalyzer.analyze securityAnalyzer complexityAnalyzer codeQualityAnalyzer].
  repeat split; [constructor | | |].
  - destruct (SecurityAnalyzer.analyze _ _) as [found|] eqn:E; [|constructor].
    apply security_analyze_findings in E.
    apply Forall_impl with (2 := E). exact security_finding_well_scored.
  - destruct (ComplexityAnalyzer.analyze _ _) as [found|] eqn:E; [|constructor].
    apply complexity_analyze_findings in E.
    apply Forall_impl with (2 := E). exact complexity_finding_well_scored.
  - destruct (CodeQualityAnalyzer.analyze _ _) as [found|] eqn:E; [|constructor].
    destruct (quality_analyze_findings _ _ E) as [walked [reported [-> [Hw Hr]]]].
    apply Forall_app. split.
    + apply Forall_impl with (2 := Hw). intros i [Hi _].
      apply quality_finding_well_scored, Hi.
    + apply Forall_impl with (2 := Hr). intros i [Hi _].
      apply quality_finding_well_scored, Hi.
Qed.

Lemma scores_above_ten (issues : list Issue) :
  Forall (fun i => well_scored i = true) issues ->
  Forall (fun score => 10 < score) (Spec.complexity_scores issues).
Proof.
  unfold Spec.complexity_scores.
  induction 1 as [|i issues Hi _ IH]; simpl; [constructor|].
  unfold well_scored in Hi.
  destruct (IssueCategory_eqb (category i) COMPLEXITY); [|exact IH].
  simpl. constructor; [|exact IH].
  destruct (complexityScore i); [apply Z.ltb_lt; exact Hi | discriminate].
Qed.

Lemma sum_above_ten (scores : list Z) :
  Forall (fun score => 10 < score) scores ->
  scores <> [] -> 10 * Z.of_nat (List.length scores) < Spec.sum scores.
Proof.
  induction 1 as [|x l Hx _ IH]; [intros H; elim H; reflexivity|].
  intros _. destruct l as [|y l].
  - simpl. lia.
  - assert (Hl : 10 * Z.of_nat (List.length (y :: l)) < Spec.sum (y :: l))
      by (apply IH; discriminate).
    change (Spec.sum (x :: y :: l)) with (x + Spec.sum (y :: l)).
    change (List.length (x :: y :: l)) with (S (List.length (y :: l))).
    lia.
Qed.

Lemma file_complexity_one_or_above_ten (issues : list Issue) :
  Forall (fun i => well_scored i = true) issues ->
  Spec.file_complexity issues = 1%Q \/ (10 < Spec.file_complexity issues)%Q.
Proof.
  intros H. apply scores_above_ten in H. unfold Spec.file_complexity.
  destruct (Spec.complexity_scores issues) as [|x l] eqn:E; [left; reflexivity|].
  right. apply sum_above_ten in H; [|discriminate].
  apply Qlt_shift_div_l.
  - change 0%Q with (inject_Z 0). rewrite <- Zlt_Qlt. simpl List.length. lia.
  - change 10%Q with (inject_Z 10). rewrite <- inject_Z_mult, <- Zlt_Qlt. exact H.
Qed.

End DefaultCoordinatorFacts.

(** X14.  With the three analyzers of the constructor, the complexity of a
    file is either 1 (no complexity finding) or above 10, and its
    maintainability lies between 0 and 98, whatever the file: every
    complexity finding has a score above its threshold, which is 10 at
    least. *)
Theorem default_file_metrics_are_bounded :
  forall (uuidv4 : nat -> string) (parseResult : ParseResult),
    let m :=
      FileAnalysisResult.metrics
        (fst (AnalyzerCoordinator.analyzeFile
                (AnalyzerCoordinator.constructor uuidv4) parseResult)) in
    (FileMetrics.complexity m = 1%Q \/ (10 < FileMetrics.complexity m)%Q)
    /\ (0 <= FileMetrics.maintainability m)%Q
    /\ (FileMetrics.maintainability m <= 98)%Q.
Proof.
  intros uuidv4 parseResult. cbv zeta.
  rewrite analyzeFile_metrics.
  pose proof (default_findings_well_scored uuidv4 parseResult) as H.
  set (issues := FileAnalysisResult.issues _) in *.
  pose proof (file_complexity_one_or_above_ten H) as Hc.
  rewrite calculateFileMetrics_maintainability, calculateFileMetrics_complexity.
  split; [exact Hc|].
  unfold Spec.file_maintainability. cbv zeta.
  assert (Hn : (0 <= inject_Z (Z.of_nat (List.length issues)))%Q).
  { change 0%Q with (inject_Z 0). rewrite <- Zle_Qle. lia. }
  assert (Hone : (1 <= Spec.file_complexity issues)%Q).
  { destruct Hc as [-> | Hc]; lra. }
  destruct (Qle_bool 0 _) eqn:E.
  - apply Qle_bool_iff in E. split; [exact E | lra].
  - split; lra.
Qed.

(** ** Lines *)

Section LineFacts.

Lemma split_newline_length (s : string) :
  List.length (split_newline s) = S (Measure.newlines s).
Proof.
  induction s as [|c s IH]; simpl; [reflexivity|].
  destruct (Ascii.eqb c "010"%char); simpl; [rewrite IH; reflexivity|].
  destruct (split_newline s) as [|l ls]; [discriminate IH | exact IH].
Qed.

End LineFacts.

(** X15.  The [linesOfCode] of a file is one more than the number of line
    feeds of its source, so an empty file has one line and a final line feed
    counts a line more; the file record and the metrics carry the same
    number, whatever the analyzers. *)
Theorem lines_of_code_count_line_feeds :
  forall (analyzers : list BaseAnalyzer.IAnalyzer.t) (parseResult : ParseResult),
    let result := fst (AnalyzerCoordinator.analyzeFile analyzers parseResult) in
    FileInfo.linesOfCode (FileAnalysisResult.file result)
      = Z.of_nat (S (Measure.newlines (sourceCode parseResult)))
    /\ FileMetrics.linesOfCode (FileAnalysisResult.metrics result)
      = FileInfo.linesOfCode (FileAnalysisResult.file result).
Proof.
  intros analyzers parseResult. cbv zeta.
  unfold AnalyzerCoordinator.analyzeFile.
  destruct (fold_left _ analyzers _) as [issues console].
  cbn [fst FileAnalysisResult.file FileAnalysisResult.metrics FileInfo.linesOfCode].
  unfold AnalyzerCoordinator.calculateFileMetrics. cbn [FileMetrics.linesOfCode].
  rewrite split_newline_length. split; reflexivity.
Qed.

(** ** The analysis of a directory *)

Section DirectoryFacts.
Import AnalysisService Measure.
Variable parseFile : string -> option ParseResult.
Variable reviewCode : ParseResult -> list Issue -> option (list Suggestion).
Variable uuidv4 : nat -> string.
Variable options : AnalysisOptions.

Lemma add_files_gathered (files : list string) :
  forall result,
    let final := fold_left (add_file parseFile reviewCode uuidv4 options) files result in
    let analyzed := analyzeFile parseFile reviewCode uuidv4 in
    AnalysisResult.files final =
      AnalysisResult.files result
      ++ flat_map (fun file => match analyzed file options with
                               | Some fileResult => [FileAnalysisResult.file fileResult]
                               | None => []
                               end) files
    /\ AnalysisResult.issues final =
       AnalysisResult.issues result
       ++ flat_map (fun file => match analyzed file options with
                                | Some fileResult => FileAnalysisResult.issues fileResult
                                | None => []
                                end) files
    /\ AnalysisResult.suggestions final =
       AnalysisResult.suggestions result
       ++ flat_map (fun file => match analyzed file options with
                                | Some fileResult => FileAnalysisResult.suggestions fileResult
                                | None => []
                                end) files.
Proof.
  induction files as [|file files IH]; intros result; cbv zeta; simpl.
  - rewrite !app_nil_r. repeat split.
  - destruct (IH (add_file parseFile reviewCode uuidv4 options result file))
      as [Hf [Hi Hs]].
    rewrite Hf, Hi, Hs. unfold add_file.
    destruct (analyzeFile _ _ _ _ _) as [fileResult|]; simpl;
      rewrite <- ?app_assoc; repeat split.
Qed.

End DirectoryFacts.

(** X16.  When the files of the directory were found, [analyzeDirectory]
    completes whatever happens to single files: a file that cannot be parsed,
    or whose AI review fails, is left out, and the files, findings and
    suggestions of the result are those of the files that were analyzed, in
    the order in which the files were found. *)
Theorem analyzeDirectory_skips_the_files_that_fail :
  forall (parseFile : string -> option ParseResult)
         (reviewCode : ParseResult -> list Issue -> option (list Suggestion))
         (findFiles : string -> AnalysisService.AnalysisOptions -> string + list string)
         (uuidv4 : nat -> string) (analysisId : string) (now : nat -> Z)
         (directoryPath : string) (options : AnalysisService.AnalysisOptions)
         (files : list string),
    findFiles directoryPath options = inr files ->
    let result :=
      AnalysisService.analyzeDirectory parseFile reviewCode findFiles uuidv4
        analysisId now directoryPath options in
    let analyzed := AnalysisService.analyzeFile parseFile reviewCode uuidv4 in
    AnalysisResult.status result = COMPLETED
    /\ AnalysisResult.error result = None
    /\ AnalysisResult.files result =
       flat_map (fun file => match analyzed file options with
                             | Some fileResult => [FileAnalysisResult.file fileResult]
                             | None => []
                             end) files
    /\ AnalysisResult.issues result =
       flat_map (fun file => match analyzed file options with
                             | Some fileResult => FileAnalysisResult.issues fileResult
                             | None => []
                             end) files
    /\ AnalysisResult.suggestions result =
       flat_map (fun file => match analyzed file options with
                             | Some fileResult => FileAnalysisResult.suggestions fileResult
                             | None => []
                             end) files.
Proof.
  intros parseFile reviewCode findFiles uuidv4 analysisId now directoryPath options
    files Hfound. cbv zeta.
  unfold AnalysisService.analyzeDirectory. rewrite Hfound.
  cbn [AnalysisResult.status AnalysisResult.error AnalysisResult.files
       AnalysisResult.issues AnalysisResult.suggestions].
  match goal with
  | |- context [fold_left _ files ?r] =>
      destruct (add_files_gathered parseFile reviewCode uuidv4 options files r)
        as [Hf [Hi Hs]]
  end.
  rewrite Hf, Hi, Hs. repeat split.
Qed.

Lemma analyzeDirectory_skips_the_files_that_fail_witness :
  let parseFile :=
    fun file => if String.eqb file "broken.js" then None else Some Examples.ten_evals in
  let findFiles :=
    fun (_ : string) (_ : AnalysisService.AnalysisOptions) =>
      @inr string _ ["a.js"; "broken.js"; "b.js"]%string in
  let result :=
    AnalysisService.analyzeDirectory parseFile (fun _ _ => Some []) findFiles
      Examples.uuid "analysis-0" (fun n => Z.of_nat n) "project" Examples.default_options in
  findFiles "project"%string Examples.default_options
    = inr ["a.js"; "broken.js"; "b.js"]%string
  /\ AnalysisResult.status result = COMPLETED
  /\ List.length (AnalysisResult.files result) = 2%nat
  /\ List.length (AnalysisResult.issues result) = 20%nat.
Proof.
  intros parseFile findFiles result.
  pose proof (analyzeDirectory_skips_the_files_that_fail
                parseFile (fun _ _ => Some []) findFiles Examples.uuid "analysis-0"
                (fun n => Z.of_nat n) "project" Examples.default_options eq_refl)
    as [Hstatus [_ [Hfiles [Hissues _]]]].
  split; [reflexivity|]. split; [exact Hstatus|]. unfold result.
  split; [rewrite Hfiles | rewrite Hissues]; vm_compute; reflexivity.
Defined.

Section GradeFacts.
Import AnalysisService Measure.

Lemma index_without_complexity (average : Q) (n : nat) :
  (average == 0)%Q ->
  let index :=
    Num.max 0 (Num.min 100 (100 - Num.of_Z (Z.of_nat n * 2) - average * 5))%Q in
  (index == Num.max 0 (100 - 2 * Num.of_nat n))%Q
  /\ Grade.letter (calculateGrade index) = grade_of_count n.
Proof.
  intros Havg. cbv zeta.
  assert (Hn : (Num.of_Z (Z.of_nat n * 2) == 2 * Num.of_nat n)%Q).
  { unfold Num.of_Z, Num.of_nat. rewrite inject_Z_mult. ring. }
  assert (Hpos : (0 <= Num.of_nat n)%Q).
  { unfold Num.of_nat. change 0%Q with (inject_Z 0). rewrite <- Zle_Qle. lia. }
  assert (Hle : forall k : nat, (n <= k)%nat -> (Num.of_nat n <= Num.of_nat k)%Q).
  { intros k Hk. unfold Num.of_nat. rewrite <- Zle_Qle. lia. }
  assert (Hgt : forall k : nat, (k < n)%nat -> (Num.of_nat k + 1 <= Num.of_nat n)%Q).
  { intros k Hk. unfold Num.of_nat. change 1%Q with (inject_Z 1).
    rewrite <- inject_Z_plus, <- Zle_Qle. lia. }
  set (x := (100 - Num.of_Z (Z.of_nat n * 2) - average * 5)%Q) in *.
  assert (Hx : (x == 100 - 2 * Num.of_nat n)%Q).
  { unfold x. rewrite Hn, Havg. ring. }
  assert (Hindex : (Num.max 0 (Num.min 100 x) == Num.max 0 (100 - 2 * Num.of_nat n))%Q).
  { unfold Num.max, Num.min.
    destruct (Qle_bool 100 x) eqn:E1.
    - apply Qle_bool_iff in E1.
      destruct (Qle_bool 0 100) eqn:E2; [|discriminate E2].
      destruct (Qle_bool 0 (100 - 2 * Num.of_nat n)) eqn:E3.
      + lra.
      + assert ((100 - 2 * Num.of_nat n < 0)%Q)
          by (apply Qnot_le_lt; rewrite <- Qle_bool_iff; congruence).
        lra.
    - destruct (Qle_bool 0 x) eqn:E2, (Qle_bool 0 (100 - 2 * Num.of_nat n)) eqn:E3;
        try exact Hx; try reflexivity.
      + apply Qle_bool_iff in E2.
        assert ((100 - 2 * Num.of_nat n < 0)%Q)
          by (apply Qnot_le_lt; rewrite <- Qle_bool_iff; congruence).
        lra.
      + apply Qle_bool_iff in E3.
        assert ((x < 0)%Q) by (apply Qnot_le_lt; rewrite <- Qle_bool_iff; congruence).
        lra. }
  split; [exact Hindex|].
  set (index := Num.max 0 (Num.min 100 x)) in *.
  assert (Hvalue : (index == 100 - 2 * Num.of_nat n)%Q \/
                   ((index == 0)%Q /\ (100 - 2 * Num.of_nat n < 0)%Q)).
  { rewrite Hindex. unfold Num.max.
    destruct (Qle_bool 0 (100 - 2 * Num.of_nat n)) eqn:E; [left; reflexivity|].
    right. split; [reflexivity|].
    apply Qnot_le_lt. rewrite <- Qle_bool_iff. congruence. }
  destruct (calculateGrade_thresholds index) as [HA [HB [HC [HD HF]]]].
  unfold grade_of_count.
  destruct (n <=? 10)%nat eqn:E10.
  { apply Nat.leb_le, Hle in E10. change (Num.of_nat 10) with 10%Q in E10.
    apply HA. destruct Hvalue as [H|[H H']]; lra. }
  apply Nat.leb_gt, Hgt in E10. change (Num.of_nat 10) with 10%Q in E10.
  destruct (n <=? 20)%nat eqn:E20.
  { apply Nat.leb_le, Hle in E20. change (Num.of_nat 20) with 20%Q in E20.
    apply HB; destruct Hvalue as [H|[H H']]; lra. }
  apply Nat.leb_gt, Hgt in E20. change (Num.of_nat 20) with 20%Q in E20.
  destruct (n <=? 30)%nat eqn:E30.
  { apply Nat.leb_le, Hle in E30. change (Num.of_nat 30) with 30%Q in E30.
    apply HC; destruct Hvalue as [H|[H H']]; lra. }
  apply Nat.leb_gt, Hgt in E30. change (Num.of_nat 30) with 30%Q in E30.
  destruct (n <=? 40)%nat eqn:E40.
  { apply Nat.leb_le, Hle in E40. change (Num.of_nat 40) with 40%Q in E40.
    apply HD; destruct Hvalue as [H|[H H']]; lra. }
  apply Nat.leb_gt, Hgt in E40. change (Num.of_nat 40) with 40%Q in E40.
  apply HF. destruct Hvalue as [H|[H H']]; lra.
Qed.

End GradeFacts.

(** X17.  The grade of a directory depends on the number of its findings
    alone: the maintainability index is [max(0, 100 - 2 n)] for [n]
    findings, whatever the files, their sizes and their complexity, so up to
    10 findings give an A, up to 20 a B, up to 30 a C, up to 40 a D and more
    an F. *)
Theorem directory_grade_counts_findings :
  forall (parseFile : string -> option ParseResult)
         (reviewCode : ParseResult -> list Issue -> option (list Suggestion))
         (findFiles : string -> AnalysisService.AnalysisOptions -> string + list string)
         (uuidv4 : nat -> string) (analysisId : string) (now : nat -> Z)
         (directoryPath : string) (options : AnalysisService.AnalysisOptions)
         (files : list string),
    findFiles directoryPath options = inr files ->
    let result :=
      AnalysisService.analyzeDirectory parseFile reviewCode findFiles uuidv4
        analysisId now directoryPath options in
    let n := List.length (AnalysisResult.issues result) in
    (QualityMetrics.maintainabilityIndex
       (ProjectMetrics.quality (AnalysisResult.metrics result))
     == Num.max 0 (100 - 2 * Num.of_nat n))%Q
    /\ Grade.letter (ProjectMetrics.grade (AnalysisResult.metrics result))
       = Measure.grade_of_count n.
Proof.
  intros parseFile reviewCode findFiles uuidv4 analysisId now directoryPath options
    files Hfound. cbv zeta.
  unfold AnalysisService.analyzeDirectory. rewrite Hfound.
  cbn [AnalysisResult.metrics AnalysisResult.issues].
  match goal with
  | |- context [AnalysisService.calculateProjectMetrics ?fs ?found ?t] =>
      pose proof (calculateProjectMetrics_other_fields fs found t) as [_ [Hindex Hgrade]];
      assert (Havg : (CodeMetrics.averageComplexity
                        (ProjectMetrics.code
                           (AnalysisService.calculateProjectMetrics fs found t)) == 0)%Q)
        by (apply average_without_metrics, add_file_without_metrics; constructor)
  end.
  rewrite Hgrade, Hindex.
  apply index_without_complexity. exact Havg.
Qed.

Lemma directory_grade_counts_findings_witness :
  (fun (_ : string) (_ : AnalysisService.AnalysisOptions) =>
     @inr string _ ["ten-evals.js"%string]) "project"%string Examples.default_options
    = inr ["ten-evals.js"%string]
  /\ Grade.letter (ProjectMetrics.grade (AnalysisResult.metrics Examples.ten_evals_project))
     = Measure.grade_of_count
         (List.length (AnalysisResult.issues Examples.ten_evals_project)).
Proof.
  split; [reflexivity|].
  exact (proj2 (directory_grade_counts_findings
                  (fun _ => Some Examples.ten_evals) (fun _ _ => Some [])
                  (fun _ _ => inr ["ten-evals.js"%string])
                  Examples.uuid "analysis-0" (fun n => Z.of_nat n)
                  "project" Examples.default_options eq_refl)).
Defined.

(** ** Parsers *)

Section ParserFacts.
Import BaseParser Measure.

Lemma split_dot_dotless (ext : string) : dotless ext = true -> split_dot ext = [ext].
Proof.
  induction ext as [|c ext IH]; simpl; [reflexivity|].
  destruct (Ascii.eqb c "."%char); simpl; [discriminate|].
  intros H. rewrite (IH H). reflexivity.
Qed.

Lemma pop_cons {A} (x : A) (l : list A) : l <> [] -> pop (x :: l) = pop l.
Proof. destruct l; [intros H; elim H; reflexivity | reflexivity]. Qed.

Lemma split_dot_last (prefix ext : string) :
  dotless ext = true ->
  pop (split_dot (prefix ++ String "."%char ext)) = Some ext
  /\ (2 <= List.length (split_dot (prefix ++ String "."%char ext)))%nat.
Proof.
  intros Hext. induction prefix as [|c prefix [IHpop IHlen]].
  - simpl. rewrite (split_dot_dotless _ Hext). split; [reflexivity | simpl; lia].
  - cbn [String.append split_dot].
    destruct (Ascii.eqb c "."%char).
    + split; [|simpl; lia].
      rewrite pop_cons; [exact IHpop|].
      intros E. rewrite E in IHlen. simpl in IHlen. lia.
    + destruct (split_dot (prefix ++ String "."%char ext)) as [|piece pieces];
        [simpl in IHlen; lia|].
      split; [|exact IHlen].
      destruct pieces as [|x pieces]; [simpl in IHlen; lia|].
      exact IHpop.
Qed.

Lemma language_of_known (ext : string) :
  language_of (Some ext) <> UNKNOWN <->
  In ext ParserFactory.getSupportedExtensions.
Proof.
  unfold language_of, ParserFactory.getSupportedExtensions.
  destruct (String.eqb ext "js") eqn:E1;
    [apply String.eqb_eq in E1; subst; simpl; split; [auto | discriminate]|].
  destruct (String.eqb ext "jsx") eqn:E2;
    [apply String.eqb_eq in E2; subst; simpl; split; [auto | discriminate]|].
  destruct (String.eqb ext "mjs") eqn:E3;
    [apply String.eqb_eq in E3; subst; simpl; split; [auto 6 | discriminate]|].
  destruct (String.eqb ext "cjs") eqn:E4;
    [apply String.eqb_eq in E4; subst; simpl; split; [auto 7 | discriminate]|].
  destruct (String.eqb ext "ts") eqn:E5;
    [apply String.eqb_eq in E5; subst; simpl; split; [auto | discriminate]|].
  destruct (String.eqb ext "tsx") eqn:E6;
    [apply String.eqb_eq in E6; subst; simpl; split; [auto 6 | discriminate]|].
  destruct (String.eqb ext "py") eqn:E7;
    [apply String.eqb_eq in E7; subst; simpl; split; [auto 8 | discriminate]|].
  simpl. apply String.eqb_neq in E1, E2, E3, E4, E5, E6, E7.
  split; [intros H; elim H; reflexivity|].
  intros [H|[H|[H|[H|[H|[H|[H|[]]]]]]]]; symmetry in H; contradiction.
Qed.

End ParserFacts.

(** X18.  [detectLanguage] looks at the text after the last dot of the path
    only, and ignores its case; a name without any dot is taken whole as
    its own extension, so a file named [py] counts as Python. *)
Theorem detectLanguage_reads_the_text_after_the_last_dot :
  forall prefix ext : string,
    Measure.dotless ext = true ->
    let language := BaseParser.language_of (Some (BaseParser.toLowerCase ext)) in
    ParserFactory.detectLanguage (prefix ++ String "."%char ext) = language
    /\ ParserFactory.detectLanguage ext = language
    /\ BaseParser.detectLanguage (prefix ++ String "."%char ext) = language.
Proof.
  intros prefix ext Hext. cbv zeta.
  unfold ParserFactory.detectLanguage, BaseParser.detectLanguage. cbv zeta.
  rewrite (proj1 (split_dot_last prefix ext Hext)), (split_dot_dotless ext Hext).
  repeat split.
Qed.

Lemma detectLanguage_reads_the_text_after_the_last_dot_witness :
  Measure.dotless "TSX" = true
  /\ ParserFactory.detectLanguage "/src/components/App.test.TSX" = TYPESCRIPT
  /\ ParserFactory.detectLanguage "TSX" = TYPESCRIPT.
Proof.
  split; [reflexivity|].
  pose proof (detectLanguage_reads_the_text_after_the_last_dot
                "/src/components/App.test" "TSX" eq_refl) as [H1 [H2 _]].
  split; [exact H1 | exact H2].
Defined.

(** X19.  The languages that [detectLanguage] knows and the extensions that
    [getSupportedExtensions] lists agree: a path has a language other than
    [UNKNOWN] exactly when the text after its last dot, in lower case, is
    one of the listed extensions. *)
Theorem detected_languages_are_the_supported_extensions :
  forall filePath : string,
    ParserFactory.detectLanguage filePath <> UNKNOWN <->
    exists ext,
      BaseParser.pop (BaseParser.split_dot filePath) = Some ext
      /\ In (BaseParser.toLowerCase ext) ParserFactory.getSupportedExtensions.
Proof.
  intros filePath. unfold ParserFactory.detectLanguage. cbv zeta.
  destruct (BaseParser.pop (BaseParser.split_dot filePath)) as [ext|]; simpl option_map.
  - rewrite language_of_known. split.
    + intros H. exists ext. split; [reflexivity | exact H].
    + intros [ext' [[= <-] H]]. exact H.
  - split; [intros H; elim H; reflexivity | intros [ext [H _]]; discriminate].
Qed.

Section FactoryFacts.
Import BaseParser ParserFactory Measure.
Variable python_loads : bool.
Variable babel : string -> string + ASTNode.
Variable tree_sitter : string -> string + TreeSitter.SyntaxNode.

Lemma Language_eqb_eq (a b : Language) : Language_eqb a b = true <-> a = b.
Proof. destruct a, b; simpl; split; intros H; try reflexivity; discriminate H. Qed.

Lemma getParser_built (language : Language) (parsers : Parsers) :
  factory_built parsers ->
  factory_built (snd (getParser python_loads language parsers)).
Proof.
  intros H. unfold getParser, initializeParser, has. cbn [snd].
  destruct (parsers language) eqn:E; cbn [negb]; [exact H|].
  destruct language; cbn [fst]; try exact H;
    try (destruct python_loads; cbn [fst]; try exact H);
    intros l p; unfold set; destruct l; simpl; try apply H; intros [= <-]; reflexivity.
Qed.

Lemma parseCode_parsers (code filePath : string) (parsers : Parsers) :
  snd (parseCode python_loads babel tree_sitter code filePath parsers) =
  if Language_eqb (ParserFactory.detectLanguage filePath) UNKNOWN then parsers
  else snd (getParser python_loads (ParserFactory.detectLanguage filePath) parsers).
Proof.
  unfold parseCode. cbv zeta.
  destruct (Language_eqb _ UNKNOWN); [reflexivity|].
  destruct (getParser _ _ _) as [[parser|] parsers']; reflexivity.
Qed.

Lemma getParser_at (language l : Language) (parsers : Parsers) :
  snd (getParser python_loads language parsers) l =
  if Language_eqb l language && negb (has language parsers)
     && match language with PYTHON => python_loads | UNKNOWN => false | _ => true end
  then parser_for language
  else parsers l.
Proof.
  unfold getParser, initializeParser, has, set. cbn [snd].
  destruct language; destruct (parsers _) eqn:E; cbn [negb fst];
    try destruct python_loads; cbn [fst];
    destruct l; simpl; try rewrite E; reflexivity.
Qed.

Lemma detected_supports_javascript (filePath : string) :
  parser_for (ParserFactory.detectLanguage filePath) = Some JavaScript ->
  JavaScriptParser.supports (BaseParser.detectLanguage filePath) = true.
Proof.
  change (BaseParser.detectLanguage filePath) with (ParserFactory.detectLanguage filePath).
  destruct (ParserFactory.detectLanguage filePath); simpl; intros H;
    try reflexivity; discriminate H.
Qed.

Lemma detected_supports_python (filePath : string) :
  parser_for (ParserFactory.detectLanguage filePath) = Some Python ->
  PythonParser.supports (BaseParser.detectLanguage filePath) = true.
Proof.
  change (BaseParser.detectLanguage filePath) with (ParserFactory.detectLanguage filePath).
  destruct (ParserFactory.detectLanguage filePath); simpl; intros H;
    try reflexivity; discriminate H.
Qed.

Lemma getParser_parser (language : Language) (parsers : Parsers) :
  factory_built parsers ->
  fst (getParser python_loads language parsers) =
  if has language parsers
     || match language with PYTHON => python_loads | UNKNOWN => false | _ => true end
  then parser_for language
  else None.
Proof.
  intros Hbuilt. unfold getParser, initializeParser, has, set. cbn [fst].
  destruct language; destruct (parsers _) as [parser|] eqn:E; cbn [negb fst orb];
    try (rewrite E; symmetry; apply Hbuilt; exact E);
    try destruct python_loads; cbn [fst]; simpl; try rewrite E; reflexivity.
Qed.

Lemma run_handed_on (parser : IParser) (code filePath : string) :
  parser_for (ParserFactory.detectLanguage filePath) = Some parser ->
  run babel tree_sitter parser code filePath =
  handed_on
    match parser with
    | JavaScript => babel code
    | Python =>
        match tree_sitter code with
        | inr rootNode => inr (PythonParser.convertTreeSitterToAST rootNode)
        | inl message => inl message
        end
    end (ParserFactory.detectLanguage filePath) code filePath.
Proof.
  intros H. unfold run, JavaScriptParser.parse, PythonParser.parse, handed_on. cbv zeta.
  destruct parser.
  - rewrite (detected_supports_javascript _ H). reflexivity.
  - rewrite (detected_supports_python _ H). cbn [negb].
    destruct (tree_sitter code); reflexivity.
Qed.

Lemma parseCode_hands_on (code filePath : string) (parsers : Parsers) :
  factory_built parsers ->
  fst (parseCode python_loads babel tree_sitter code filePath parsers) =
  match ParserFactory.detectLanguage filePath with
  | UNKNOWN => inl (template ["Unsupported file type: "; filePath]%string)
  | PYTHON =>
      if has PYTHON parsers || python_loads then
        handed_on
          (match tree_sitter code with
           | inr rootNode => inr (PythonParser.convertTreeSitterToAST rootNode)
           | inl message => inl message
           end) PYTHON code filePath
      else inl "No parser available for language: python"%string
  | language => handed_on (babel code) language code filePath
  end.
Proof.
  intros Hbuilt. unfold parseCode. cbv zeta.
  pose proof (getParser_parser (ParserFactory.detectLanguage filePath) Hbuilt) as Hparser.
  pose proof (fun parser => @run_handed_on parser code filePath) as Hrun.
  destruct (getParser _ _ _) as [parser parsers'].
  cbn [fst] in Hparser. subst parser.
  destruct (ParserFactory.detectLanguage filePath);
    cbn [Language_eqb parser_for] in *;
    try reflexivity;
    rewrite ?orb_true_r;
    try (destruct (has PYTHON parsers || python_loads); [|reflexivity]);
    cbn [fst]; rewrite Hrun by reflexivity; reflexivity.
Qed.

End FactoryFacts.

(** X20.  The factory loads its parsers on demand, and [isSupported] answers
    from what is loaded: a new factory supports no file at all; after
    [parseCode] on a path, that path is supported exactly when its language
    is known and, for Python, the parser was there or could be loaded; and
    the answer for paths of other languages is as before. *)
Theorem isSupported_follows_the_parsers_loaded :
  forall (python_loads : bool) (babel : string -> string + ASTNode)
         (tree_sitter : string -> string + TreeSitter.SyntaxNode),
    (forall filePath, ParserFactory.isSupported filePath ParserFactory.empty = false)
    /\ forall (code filePath : string) (parsers : ParserFactory.Parsers),
         let language := ParserFactory.detectLanguage filePath in
         let after :=
           snd (ParserFactory.parseCode python_loads babel tree_sitter code filePath parsers) in
         ParserFactory.isSupported filePath after =
           negb (ParserFactory.Language_eqb language UNKNOWN)
           && (ParserFactory.has language parsers
               || negb (ParserFactory.Language_eqb language PYTHON) || python_loads)
         /\ forall other,
              ParserFactory.detectLanguage other <> language ->
              ParserFactory.isSupported other after = ParserFactory.isSupported other parsers.
Proof.
  intros python_loads babel tree_sitter. split.
  - intros filePath. unfold ParserFactory.isSupported. cbv zeta.
    apply andb_false_r.
  - intros code filePath parsers. cbv zeta.
    unfold ParserFactory.isSupported, ParserFactory.has. cbv zeta.
    rewrite parseCode_parsers.
    destruct (ParserFactory.Language_eqb (ParserFactory.detectLanguage filePath) UNKNOWN)
      eqn:Eunknown; cbn [negb andb]; [split; reflexivity|].
    split.
    + rewrite getParser_at. unfold ParserFactory.has.
      destruct (ParserFactory.detectLanguage filePath);
        try discriminate Eunknown;
        destruct (parsers _); try destruct python_loads; reflexivity.
    + intros other Hother. rewrite getParser_at.
      replace (ParserFactory.Language_eqb (ParserFactory.detectLanguage other)
                 (ParserFactory.detectLanguage filePath)) with false; [reflexivity|].
      symmetry.
      destruct (ParserFactory.Language_eqb (ParserFactory.detectLanguage other)
                  (ParserFactory.detectLanguage filePath)) eqn:E; [|reflexivity].
      apply Language_eqb_eq in E. contradiction.
Qed.

(** X21.  Through the factory the parsers' own language check never fails.
    On a map of parsers built by the factory, [parseCode] gives "Unsupported
    file type" for a path of unknown language, "No parser available" when
    the Python parser cannot be loaded, and otherwise what the parsing
    library of the language returns, as a result that carries the language
    of the path, the code and the path; the map it leaves is again one the
    factory built. *)
Theorem parseCode_hands_on_what_the_library_returns :
  forall (python_loads : bool) (babel : string -> string + ASTNode)
         (tree_sitter : string -> string + TreeSitter.SyntaxNode)
         (code filePath : string) (parsers : ParserFactory.Parsers),
    Measure.factory_built parsers ->
    let language := ParserFactory.detectLanguage filePath in
    let outcome :=
      ParserFactory.parseCode python_loads babel tree_sitter code filePath parsers in
    fst outcome =
      match language with
      | UNKNOWN => inl (template ["Unsupported file type: "; filePath]%string)
      | PYTHON =>
          if ParserFactory.has PYTHON parsers || python_loads then
            Measure.handed_on
              (match tree_sitter code with
               | inr rootNode => inr (PythonParser.convertTreeSitterToAST rootNode)
               | inl message => inl message
               end) PYTHON code filePath
          else inl "No parser available for language: python"%string
      | _ => Measure.handed_on (babel code) language code filePath
      end
    /\ Measure.factory_built (snd outcome).
Proof.
  intros python_loads babel tree_sitter code filePath parsers Hbuilt. cbv zeta.
  split.
  2:{ unfold ParserFactory.parseCode. cbv zeta.
      destruct (ParserFactory.Language_eqb _ UNKNOWN); [exact Hbuilt|].
      pose proof (getParser_built python_loads (ParserFactory.detectLanguage filePath)
                    Hbuilt) as H.
      destruct (ParserFactory.getParser _ _ _) as [[parser|] parsers']; exact H. }
  unfold ParserFactory.parseCode. cbv zeta.
  pose proof (getParser_parser python_loads (ParserFactory.detectLanguage filePath)
                Hbuilt) as Hparser.
  pose proof (fun parser => @run_handed_on babel tree_sitter parser code filePath) as Hrun.
  destruct (ParserFactory.getParser _ _ _) as [parser parsers'].
  cbn [fst] in Hparser. subst parser.
  destruct (ParserFactory.detectLanguage filePath);
    cbn [ParserFactory.Language_eqb Measure.parser_for] in *;
    try reflexivity;
    rewrite ?orb_true_r;
    try (destruct (ParserFactory.has PYTHON parsers || python_loads); [|reflexivity]);
    cbn [fst]; rewrite Hrun by reflexivity; reflexivity.
Qed.

Lemma parseCode_hands_on_what_the_library_returns_witness :
  Measure.factory_built ParserFactory.empty
  /\ fst (ParserFactory.parseCode true
            (fun _ => inr (Examples.File [])) (fun _ => inl "no grammar"%string)
            "" "main.py" ParserFactory.empty)
     = inl "Parse error in main.py: no grammar"%string.
Proof.
  assert (H : Measure.factory_built ParserFactory.empty) by (intros l p; discriminate).
  split; [exact H|].
  exact (proj1 (parseCode_hands_on_what_the_library_returns
                  true (fun _ => inr (Examples.File []))
                  (fun _ => inl "no grammar"%string) "" "main.py" H)).
Defined.

(** ** Python *)

Section PythonFacts.
Import ASTTraverser Tree TreeSitter PythonParser Measure.

Lemma SyntaxNode_children_ind (P : SyntaxNode -> Prop) :
  (forall type startPosition endPosition startIndex endIndex text children,
     Forall P (present children) ->
     P (Node type startPosition endPosition startIndex endIndex text children)) ->
  forall node, P node.
Proof.
  intros H.
  fix IH 1. intros [type startPosition endPosition startIndex endIndex text children].
  apply H. unfold present.
  induction children as [|[child|] children IHc]; simpl.
  - constructor.
  - constructor; [apply IH | exact IHc].
  - exact IHc.
Qed.

Lemma preorder_node type startPosition endPosition startIndex endIndex text children :
  TreeSitter.preorder
    (Node type startPosition endPosition startIndex endIndex text children) =
  Node type startPosition endPosition startIndex endIndex text children
  :: flat_map TreeSitter.preorder (present children).
Proof.
  cbn [TreeSitter.preorder]. f_equal. unfold present.
  induction children as [|[child|] children IH]; simpl; [reflexivity | | exact IH].
  rewrite IH. reflexivity.
Qed.

Lemma convert_node type startPosition endPosition startIndex endIndex text children :
  convertTreeSitterToAST
    (Node type startPosition endPosition startIndex endIndex text children) =
  VObj (Some type)
    (Some {| start := {| line := Point.row startPosition + 1;
                         column := Point.column startPosition |};
             end_ := {| line := Point.row endPosition + 1;
                        column := Point.column endPosition |} |})
    (Some (startIndex, endIndex))
    [("text"%string, VStr text);
     ("children"%string, VArr (map convertTreeSitterToAST (present children)))].
Proof.
  cbn [convertTreeSitterToAST].
  match goal with
  | |- VObj _ _ _ [_; (_, VArr ?l)] = _ =>
      replace l with (map convertTreeSitterToAST (present children)); [reflexivity|]
  end.
  unfold present.
  induction children as [|[child|] children IH]; simpl;
    [reflexivity | f_equal; exact IH | exact IH].
Qed.

Lemma type_of_convert (node : SyntaxNode) :
  JS.type_of (convertTreeSitterToAST node) = Some (TreeSitter.type_of node).
Proof. destruct node. reflexivity. Qed.

Lemma children_convert type startPosition endPosition startIndex endIndex text children :
  Forall (fun c => String.eqb (TreeSitter.type_of c) EmptyString = false)
    (present children) ->
  Tree.children
    (convertTreeSitterToAST
       (Node type startPosition endPosition startIndex endIndex text children)) =
  map convertTreeSitterToAST (present children).
Proof.
  intros H. rewrite convert_node. cbn -[present]. rewrite app_nil_r.
  induction H as [|c l Hc _ IH]; [reflexivity|].
  cbn [map filter]. unfold type_truthy at 1. rewrite type_of_convert, Hc.
  replace (is_object (convertTreeSitterToAST c)) with true by (destruct c; reflexivity).
  cbn [andb negb]. rewrite IH. reflexivity.
Qed.

Lemma named_children type startPosition endPosition startIndex endIndex text children :
  named (Node type startPosition endPosition startIndex endIndex text children) = true ->
  Forall (fun c => named c = true) (present children)
  /\ Forall (fun c => String.eqb (TreeSitter.type_of c) EmptyString = false)
       (present children).
Proof.
  unfold named. rewrite preorder_node. cbn [forallb].
  intros H. apply andb_prop in H. destruct H as [_ H].
  induction (present children) as [|c l IH]; [split; constructor|].
  cbn [flat_map] in H. rewrite forallb_app in H.
  apply andb_prop in H. destruct H as [Hc Hl].
  destruct (IH Hl) as [IH1 IH2].
  split; constructor; try assumption.
  destruct c. rewrite preorder_node in Hc. cbn [forallb] in Hc.
  apply andb_prop in Hc. destruct Hc as [Hc _].
  apply negb_true_iff in Hc. exact Hc.
Qed.

Lemma preorder_convert (node : SyntaxNode) :
  named node = true ->
  Tree.preorder (convertTreeSitterToAST node) =
  map convertTreeSitterToAST (TreeSitter.preorder node).
Proof.
  induction node as [type startPosition endPosition startIndex endIndex text children IH]
    using SyntaxNode_children_ind.
  intros Hnamed.
  destruct (named_children _ _ _ _ _ _ _ Hnamed) as [Hn Ht].
  rewrite preorder_unfold by reflexivity.
  rewrite (children_convert _ _ _ _ _ _ _ Ht), preorder_node.
  cbn [map]. f_equal.
  induction (present children) as [|c l IHl]; [reflexivity|].
  inversion IH as [|? ? IHc IHrest]; subst.
  inversion Hn as [|? ? Hc Hrest]; subst.
  inversion Ht as [|? ? Htc Htrest]; subst.
  cbn [map flat_map]. rewrite map_app, (IHc Hc), (IHl IHrest Hrest Htrest). reflexivity.
Qed.

End PythonFacts.

(** X22.  [convertTreeSitterToAST] keeps the shape of the syntax tree: when
    every node has a type, the nodes that a traversal of the converted tree
    meets are the conversions of the nodes of the syntax tree, in the same
    pre-order, absent children left out; each carries the type of its node
    and its rows turned into lines counted from 1. *)
Theorem convertTreeSitterToAST_keeps_the_tree :
  forall root : TreeSitter.SyntaxNode,
    Measure.named root = true ->
    Tree.preorder (PythonParser.convertTreeSitterToAST root) =
      map PythonParser.convertTreeSitterToAST (TreeSitter.preorder root)
    /\ forall type startPosition endPosition startIndex endIndex text children,
         In (TreeSitter.Node type startPosition endPosition startIndex endIndex text children)
            (TreeSitter.preorder root) ->
         let node :=
           PythonParser.convertTreeSitterToAST
             (TreeSitter.Node type startPosition endPosition startIndex endIndex text
                children) in
         In node (Tree.preorder (PythonParser.convertTreeSitterToAST root))
         /\ type_of node = Some type
         /\ loc_of node =
            Some {| start := {| line := TreeSitter.Point.row startPosition + 1;
                                column := TreeSitter.Point.column startPosition |};
                    end_ := {| line := TreeSitter.Point.row endPosition + 1;
                               column := TreeSitter.Point.column endPosition |} |}
         /\ range_of node = Some (startIndex, endIndex).
Proof.
  intros root Hnamed. split; [apply preorder_convert; exact Hnamed|].
  intros type startPosition endPosition startIndex endIndex text children Hin. cbv zeta.
  split; [|repeat split].
  rewrite (preorder_convert root Hnamed). apply in_map. exact Hin.
Qed.

Lemma convertTreeSitterToAST_keeps_the_tree_witness :
  Measure.named Examples.python_eval = true
  /\ List.length (Tree.preorder (PythonParser.convertTreeSitterToAST Examples.python_eval))
     = 11%nat.
Proof.
  split; [reflexivity|].
  rewrite (proj1 (convertTreeSitterToAST_keeps_the_tree Examples.python_eval eq_refl)).
  reflexivity.
Defined.

Section PythonFindingFacts.
Import ASTTraverser Tree TreeSitter PythonParser BaseAnalyzer Measure.
Variable uuidv4 : nat -> string.

(** A visitor whose callbacks, on the nodes of the tree, all return the
    state they were given, without asking to skip: the traversal returns the
    state it was given. *)
Lemma traverse_idle (St : Type) (visitor : Visitor St) (root : ASTNode) :
  (forall x parent path s,
     In x (Tree.preorder root) ->
     call_enter (visitor (type_key (JS.type_of x))) x parent path s = Some (s, false)
     /\ call_wildcard visitor x parent path s = Some s
     /\ call_exit (visitor (type_key (JS.type_of x))) x parent path s = Some s) ->
  forall parent path s, traverse visitor root parent path s = Some s.
Proof.
  induction root as [node IH] using children_ind.
  intros Hidle parent path s.
  destruct (is_object node) eqn:Hobj; [|apply traverse_primitive; exact Hobj].
  rewrite traverse_unfold by exact Hobj. unfold visit.
  assert (Hnode : In node (Tree.preorder node))
    by (apply in_preorder; [exact Hobj | left; reflexivity]).
  destruct (Hidle node parent (path ++ [JS.type_of node]) s Hnode) as [He [Hw Hexit]].
  rewrite He, Hw.
  assert (Hdesc : forall l,
    (forall c, In c l -> In c (Tree.children node)) ->
    each (fun child => traverse visitor child (Some node) (path ++ [JS.type_of node])) l s
    = Some s).
  { induction l as [|c l IHl]; intros Hl; simpl; [reflexivity|].
    rewrite (IH c (Hl c (or_introl eq_refl))).
    - apply IHl. intros x Hx. apply Hl. right. exact Hx.
    - intros x p q t Hx. apply Hidle.
      eapply in_preorder_child; [apply Hl; left; reflexivity | exact Hx]. }
  rewrite (Hdesc (Tree.children node) (fun c H => H)). exact Hexit.
Qed.

Lemma python_typed_named (root : SyntaxNode) : python_typed root = true -> named root = true.
Proof.
  unfold python_typed, named. rewrite !forallb_forall.
  intros H n Hn. specialize (H n Hn). cbv zeta in H.
  apply andb_prop in H. destruct H as [H _]. apply andb_prop in H. destruct H as [H _].
  exact H.
Qed.

Lemma python_nodes (root : SyntaxNode) (x : ASTNode) :
  python_typed root = true ->
  In x (Tree.preorder (convertTreeSitterToAST root)) ->
  exists n, x = convertTreeSitterToAST n
            /\ existsb (String.eqb (TreeSitter.type_of n)) analyzer_keys = false.
Proof.
  intros Htyped Hx.
  rewrite (preorder_convert root (python_typed_named root Htyped)) in Hx.
  apply in_map_iff in Hx. destruct Hx as [n [<- Hn]].
  exists n. split; [reflexivity|].
  unfold python_typed in Htyped. rewrite forallb_forall in Htyped.
  specialize (Htyped n Hn). cbv zeta in Htyped.
  apply andb_prop in Htyped. destruct Htyped as [H _].
  apply andb_prop in H. destruct H as [_ H].
  apply negb_true_iff in H. exact H.
Qed.

Ltac not_a_key H :=
  repeat match goal with
         | |- context [String.eqb ?k ?t] =>
             let E := fresh "E" in
             destruct (String.eqb k t) eqn:E;
             [apply String.eqb_eq in E; rewrite <- E in H; discriminate H|]
         end.

Lemma security_idle_on_python (root : SyntaxNode) (context : AnalyzerContext) :
  python_typed root = true ->
  ast (parseResult context) = convertTreeSitterToAST root ->
  SecurityAnalyzer.analyze uuidv4 context = Some [].
Proof.
  intros Htyped Hast. unfold SecurityAnalyzer.analyze. cbv zeta. rewrite Hast.
  apply traverse_untouched.
  - intros w. unfold SecurityAnalyzer.visitor, object. cbn. discriminate.
  - intros x Hx. destruct (python_nodes root x Htyped Hx) as [n [-> Hn]].
    rewrite type_of_convert. cbn [type_key].
    remember (TreeSitter.type_of n) as t.
    unfold SecurityAnalyzer.visitor, object. cbn [lookup].
    not_a_key Hn. reflexivity.
Qed.

Lemma complexity_idle_on_python (root : SyntaxNode) (context : AnalyzerContext) :
  python_typed root = true ->
  ast (parseResult context) = convertTreeSitterToAST root ->
  ComplexityAnalyzer.analyze uuidv4 context = Some [].
Proof.
  intros Htyped Hast. unfold ComplexityAnalyzer.analyze. cbv zeta. rewrite Hast.
  apply traverse_untouched.
  - intros w. unfold ComplexityAnalyzer.visitor, object. cbn. discriminate.
  - intros x Hx. destruct (python_nodes root x Htyped Hx) as [n [-> Hn]].
    rewrite type_of_convert. cbn [type_key].
    remember (TreeSitter.type_of n) as t.
    unfold ComplexityAnalyzer.visitor, object. cbn [lookup].
    not_a_key Hn. reflexivity.
Qed.

Lemma quality_idle_on_python (root : SyntaxNode) (context : AnalyzerContext) :
  python_typed root = true ->
  ast (parseResult context) = convertTreeSitterToAST root ->
  CodeQualityAnalyzer.analyze uuidv4 context = Some [].
Proof.
  intros Htyped Hast. unfold CodeQualityAnalyzer.analyze. cbv zeta. rewrite Hast.
  rewrite traverse_idle; [reflexivity|].
  intros x parent path s Hx.
  destruct (python_nodes root x Htyped Hx) as [n [-> Hn]].
  rewrite type_of_convert. cbn [type_key].
  assert (Htodo : forall p q,
            CodeQualityAnalyzer.on_state
              (fun node s =>
                 issues' <- CodeQualityAnalyzer.checkTodoComments uuidv4 node
                              (pr_filePath (parseResult context))
                              (sourceCode (parseResult context))
                              (CodeQualityAnalyzer.issues s) ;;
                 Some (CodeQualityAnalyzer.with_issues (fun _ => issues') s))
              (convertTreeSitterToAST n) p q s = Some (s, false)).
  { intros p q. unfold CodeQualityAnalyzer.on_state. destruct n, s. reflexivity. }
  remember (TreeSitter.type_of n) as t.
  split; [|split].
  - unfold CodeQualityAnalyzer.visitor, object, call_enter. cbn [lookup].
    not_a_key Hn.
    destruct (String.eqb "*" t); [apply Htodo | reflexivity].
  - unfold call_wildcard, CodeQualityAnalyzer.visitor, object.
    cbn [lookup String.eqb Ascii.eqb Bool.eqb].
    rewrite Htodo. reflexivity.
  - unfold CodeQualityAnalyzer.visitor, object, call_exit. cbn [lookup].
    not_a_key Hn.
    destruct (String.eqb "*" t); reflexivity.
Qed.

End PythonFindingFacts.

(** X23.  On a Python file the three analyzers find nothing.  The tree that
    the Python parser builds has the node types of the tree-sitter grammar,
    none of which is a key of the analyzers, and its nodes have none of the
    properties that the wildcard check reads; so every analysis of such a
    file returns without finding and without failure, with complexity 1 and
    maintainability 98. *)
Theorem python_files_get_no_findings :
  forall (uuidv4 : nat -> string) (root : TreeSitter.SyntaxNode)
         (language : Language) (code filePath : string),
    Measure.python_typed root = true ->
    let parseResult :=
      BaseParser.createParseResult (PythonParser.convertTreeSitterToAST root)
        language code filePath in
    let outcome :=
      AnalyzerCoordinator.analyzeFile (AnalyzerCoordinator.constructor uuidv4) parseResult in
    FileAnalysisResult.issues (fst outcome) = []
    /\ snd outcome = []
    /\ FileMetrics.complexity (FileAnalysisResult.metrics (fst outcome)) = 1%Q
    /\ (FileMetrics.maintainability (FileAnalysisResult.metrics (fst outcome)) == 98)%Q.
Proof.
  intros uuidv4 root language code filePath Htyped. cbv zeta.
  set (parseResult := BaseParser.createParseResult _ language code filePath).
  assert (Hsec : forall so_far,
            SecurityAnalyzer.analyze uuidv4
              {| BaseAnalyzer.parseResult := parseResult;
                 BaseAnalyzer.issues := so_far; BaseAnalyzer.options := None |} = Some [])
    by (intros; apply security_idle_on_python with root; [exact Htyped | reflexivity]).
  assert (Hcx : forall so_far,
            ComplexityAnalyzer.analyze uuidv4
              {| BaseAnalyzer.parseResult := parseResult;
                 BaseAnalyzer.issues := so_far; BaseAnalyzer.options := None |} = Some [])
    by (intros; apply complexity_idle_on_python with root; [exact Htyped | reflexivity]).
  assert (Hcq : forall so_far,
            CodeQualityAnalyzer.analyze uuidv4
              {| BaseAnalyzer.parseResult := parseResult;
                 BaseAnalyzer.issues := so_far; BaseAnalyzer.options := None |} = Some [])
    by (intros; apply quality_idle_on_python with root; [exact Htyped | reflexivity]).
  rewrite analyzeFile_metrics, analyzeFile_issues, analyzeFile_console.
  unfold AnalyzerCoordinator.constructor.
  cbn [Spec.merged Spec.failed]. unfold Spec.contribution.
  cbn [BaseAnalyzer.IAnalyzer.analyze AnalyzerCoordinator.securityAnalyzer
       AnalyzerCoordinator.complexityAnalyzer AnalyzerCoordinator.codeQualityAnalyzer].
  repeat (rewrite ?Hsec, ?Hcx, ?Hcq; cbn [app]).
  repeat split.
Qed.

Lemma python_files_get_no_findings_witness :
  Measure.python_typed Examples.python_eval = true
  /\ FileAnalysisResult.issues
       (fst (AnalyzerCoordinator.analyzeFile
               (AnalyzerCoordinator.constructor Examples.uuid)
               (BaseParser.createParseResult
                  (PythonParser.convertTreeSitterToAST Examples.python_eval)
                  PYTHON "eval(2 * 3)" "danger.py"))) = [].
Proof.
  split; [reflexivity|].
  exact (proj1 (python_files_get_no_findings Examples.uuid Examples.python_eval
                  PYTHON "eval(2 * 3)" "danger.py" eq_refl)).
Defined.

(** ** The findings of the complexity analyzer, function by function *)

Section FunctionReportFacts.
Import ASTTraverser Tree Trace BaseAnalyzer ComplexityAnalyzer Measure.
Variable uuidv4 : nat -> string.
Variables filePath sourceCode : string.

Lemma analyzeFunctionComplexity_reports (node : ASTNode) (issues : list Issue) :
  exists added,
    analyzeFunctionComplexity uuidv4 node filePath sourceCode issues
      = Some (issues ++ added)
    /\ map summary added = function_report node.
Proof.
  unfold analyzeFunctionComplexity, calculateComplexity, function_report.
  rewrite cyclomatic_counts, cognitive_counts, nesting_zero.
  cbv zeta.
  cbn [cyclomaticComplexity cognitiveComplexity maxNesting].
  change (NESTING_THRESHOLD <? 0) with false. cbv iota.
  unfold CYCLOMATIC_THRESHOLD, COGNITIVE_THRESHOLD, FUNCTION_LENGTH_THRESHOLD.
  destruct (10 <? 1 + count is_decision_point node);
  destruct (15 <? count is_short_circuit node);
  (destruct (loc_of node) as [l|] eqn:Eloc;
   [destruct (50 <? line (end_ l) - line (start l))|]);
  first
    [ exists []; split; [rewrite app_nil_r; reflexivity | reflexivity]
    | eexists; split;
      [rewrite <- ?app_assoc; reflexivity
      | cbn [map app];
        unfold summary, as_complexity, createIssue, place;
        cbn [ruleId complexityScore location or_else opt_location opt_ruleId
             snippet_and_suggestions];
        reflexivity] ].
Qed.

Ltac other_function Ekey E :=
  unfold keyed; rewrite <- Ekey;
  first [ rewrite E; reflexivity
        | apply String.eqb_eq in E; rewrite <- E; reflexivity ].

Lemma complexity_visitor_reports :
  forall node parent path seen issues issues',
    map summary issues = flat_map reported_at seen ->
    traverse (visitor uuidv4 filePath sourceCode) node parent path issues = Some issues' ->
    map summary issues' = flat_map reported_at (seen ++ preorder node).
Proof.
  apply (@traverse_follows (list Issue)
           (fun seen issues => map summary issues = flat_map reported_at seen)).
  - intros node parent path seen s s' b _ Hs.
    assert (Hstep : forall added,
              map summary added = reported_at node ->
              map summary (s ++ added) = flat_map reported_at (seen ++ [node])).
    { intros added Hadded. rewrite map_app, flat_map_app, Hs, Hadded. simpl.
      rewrite app_nil_r. reflexivity. }
    unfold visitor, object, call_enter. cbn [lookup].
    unfold reported_at, keyed in Hstep.
    remember (type_key (type_of node)) as key eqn:Ekey.
    destruct (String.eqb "FunctionDeclaration" key) eqn:E1.
    { destruct (analyzeFunctionComplexity_reports node s) as [added [-> Hadded]].
      intros [= <- <-]. split; [|reflexivity]. apply Hstep. exact Hadded. }
    destruct (String.eqb "FunctionExpression" key) eqn:E2.
    { destruct (analyzeFunctionComplexity_reports node s) as [added [-> Hadded]].
      intros [= <- <-]. split; [|reflexivity]. apply Hstep. exact Hadded. }
    destruct (String.eqb "ArrowFunctionExpression" key) eqn:E3.
    { destruct (analyzeFunctionComplexity_reports node s) as [added [-> Hadded]].
      intros [= <- <-]. split; [|reflexivity]. apply Hstep. exact Hadded. }
    cbn [orb] in Hstep.
    destruct (String.eqb "MethodDefinition" key) eqn:E4; cbn [andb] in Hstep.
    { destruct (truthy node@."value").
      - destruct (analyzeFunctionComplexity_reports node@."value" s)
          as [added [-> Hadded]].
        intros [= <- <-]. split; [|reflexivity]. apply Hstep. exact Hadded.
      - intros [= <- <-]. split; [|reflexivity].
        rewrite <- (app_nil_r s). apply Hstep. reflexivity. }
    intros [= <- <-]. split; [|reflexivity].
    rewrite <- (app_nil_r s). apply Hstep. reflexivity.
  - intros node parent path seen s s' Hs.
    unfold call_wildcard, visitor, object. cbn. intros [= <-]. exact Hs.
  - intros node parent path seen s s' Hs.
    unfold visitor, object, call_exit. cbn [lookup].
    repeat match goal with
           | |- context [String.eqb ?a ?k] => destruct (String.eqb a k)
           end; intros [= <-]; exact Hs.
Qed.

End FunctionReportFacts.

(** X24.  The findings of the Complexity Analyzer are those of the functions
    of the tree, taken in pre-order: for a function declaration, a function
    expression or an arrow function, a finding when it has more than 9
    decision points, one when it has more than 15 logical operators and one
    when its last line is more than 50 lines after its first, in this order;
    for a method definition the same findings for its [value], which are
    made a second time when the traversal reaches that value as a function
    expression.  Nothing else is reported. *)
Theorem complexity_findings_are_those_of_the_functions :
  forall (uuidv4 : nat -> string) (context : BaseAnalyzer.AnalyzerContext)
         (issues : list Issue),
    ComplexityAnalyzer.analyze uuidv4 context = Some issues ->
    map Measure.summary issues =
    flat_map Measure.reported_at
      (Tree.preorder (ast (BaseAnalyzer.parseResult context))).
Proof.
  intros uuidv4 context issues H.
  unfold ComplexityAnalyzer.analyze in H. cbv zeta in H.
  exact (@complexity_visitor_reports uuidv4 _ _ _ _ _ [] [] _ eq_refl H).
Qed.

Lemma complexity_findings_are_those_of_the_functions_witness :
  exists issues,
    ComplexityAnalyzer.analyze Examples.uuid (Examples.context Examples.busy_method)
      = Some issues
    /\ map Measure.summary issues =
       flat_map Measure.reported_at
         (Tree.preorder
            (ast (BaseAnalyzer.parseResult (Examples.context Examples.busy_method))))
    /\ map ruleId issues =
       ["high-cyclomatic-complexity"; "high-cyclomatic-complexity"]%string.
Proof.
  eexists. split; [vm_compute; reflexivity|].
  split; [|reflexivity].
  apply (complexity_findings_are_those_of_the_functions
           Examples.uuid (Examples.context Examples.busy_method)).
  vm_compute. reflexivity.
Defined.

(** ** Code snippets *)

Section SnippetFacts.
Import BaseAnalyzer Measure.

Lemma split_newline_free (s : string) :
  Forall (fun l => newline_free l = true) (split_newline s).
Proof.
  induction s as [|c s IH]; simpl; [repeat constructor|].
  destruct (Ascii.eqb c "010"%char) eqn:E; [constructor; [reflexivity | exact IH]|].
  destruct (split_newline s) as [|l ls]; [repeat constructor; simpl; rewrite E; reflexivity|].
  inversion IH as [|? ? Hl Hls]; subst.
  constructor; [simpl; rewrite E, Hl; reflexivity | exact Hls].
Qed.

Lemma split_newline_line (x : string) : newline_free x = true -> split_newline x = [x].
Proof.
  induction x as [|c x IH]; simpl; [reflexivity|].
  destruct (Ascii.eqb c "010"%char); simpl; [discriminate|].
  intros H. rewrite (IH H). reflexivity.
Qed.

Lemma split_newline_append (x rest : string) :
  newline_free x = true ->
  split_newline (x ++ String "010"%char rest) = x :: split_newline rest.
Proof.
  induction x as [|c x IH]; simpl; [reflexivity|].
  destruct (Ascii.eqb c "010"%char); simpl; [discriminate|].
  intros H. rewrite (IH H). reflexivity.
Qed.

Lemma split_join (x : string) (lines : list string) :
  Forall (fun l => newline_free l = true) (x :: lines) ->
  split_newline (join_newline (x :: lines)) = x :: lines.
Proof.
  unfold join_newline. revert x.
  induction lines as [|y lines IH]; intros x H; inversion H as [|? ? Hx Hrest]; subst.
  - simpl. apply split_newline_line. exact Hx.
  - change (String.concat newline (x :: y :: lines))
      with (x ++ String "010"%char (String.concat newline (y :: lines)))%string.
    rewrite (@split_newline_append x _ Hx), (IH y Hrest). reflexivity.
Qed.

Lemma join_split (s : string) : join_newline (split_newline s) = s.
Proof.
  unfold join_newline.
  induction s as [|c s IH]; [reflexivity|].
  cbn [split_newline].
  destruct (Ascii.eqb c "010"%char) eqn:E.
  - apply Ascii.eqb_eq in E. subst c.
    destruct (split_newline s) as [|l ls] eqn:Es.
    + pose proof (split_newline_length s) as Hlen. rewrite Es in Hlen. discriminate Hlen.
    + change (String.concat newline (EmptyString :: l :: ls))
        with (String "010"%char (String.concat newline (l :: ls))).
      rewrite IH. reflexivity.
  - destruct (split_newline s) as [|l ls] eqn:Es.
    + pose proof (split_newline_length s) as Hlen. rewrite Es in Hlen. discriminate Hlen.
    + destruct ls as [|l' ls]; simpl in *; rewrite <- IH; reflexivity.
Qed.

Lemma window_forall {A} (P : A -> Prop) (n m : nat) (l : list A) :
  Forall P l -> Forall P (firstn n (skipn m l)).
Proof.
  intros H.
  assert (Hskip : Forall P (skipn m l)).
  { revert l H. induction m as [|m IH]; intros l H; [exact H|].
    destruct l as [|x l]; [constructor|]. inversion H; subst. apply IH. assumption. }
  revert Hskip. generalize (skipn m l). clear. revert n.
  induction n as [|n IH]; intros l H; [constructor|].
  destruct l as [|x l]; [constructor|]. inversion H; subst.
  simpl. constructor; [assumption | apply IH; assumption].
Qed.

Lemma slice_window {A} (first last : Z) (l : list A) :
  0 <= first -> first < last -> last <= Z.of_nat (List.length l) ->
  slice first last l = firstn (Z.to_nat (last - first)) (skipn (Z.to_nat first) l).
Proof.
  intros H0 Hlt Hlen. unfold slice. cbv zeta.
  replace (first <? 0) with false by (symmetry; apply Z.ltb_ge; lia).
  replace (last <? 0) with false by (symmetry; apply Z.ltb_ge; lia).
  rewrite !Z.min_l by lia. reflexivity.
Qed.

End SnippetFacts.

(** X25.  The snippet of a node is cut out of the lines of the source: it
    holds the lines of the node with [context] lines before and after, as
    far as the source has them, and it is the whole source when that window
    covers every line. *)
Theorem extractCodeSnippet_gives_the_lines_around_the_node :
  forall (sourceCode : string) (node : ASTNode) (context : Z) (l : SourceRange),
    loc_of node = Some l ->
    let lines := split_newline sourceCode in
    let first := Z.max 0 (line (start l) - context - 1) in
    let last := Z.min (Z.of_nat (List.length lines)) (line (end_ l) + context) in
    first < last ->
    split_newline (BaseAnalyzer.extractCodeSnippet sourceCode node context)
      = firstn (Z.to_nat (last - first)) (skipn (Z.to_nat first) lines)
    /\ (first = 0 -> last = Z.of_nat (List.length lines) ->
        BaseAnalyzer.extractCodeSnippet sourceCode node context = sourceCode).
Proof.
  intros sourceCode node context l Hloc. cbv zeta. intros Hlt.
  unfold BaseAnalyzer.extractCodeSnippet. rewrite Hloc. cbv zeta.
  rewrite slice_window by lia.
  split.
  - pose proof (split_newline_free sourceCode) as Hfree.
    set (lines := split_newline sourceCode) in *.
    set (first := Z.max 0 (line (start l) - context - 1)) in *.
    set (last := Z.min (Z.of_nat (List.length lines)) (line (end_ l) + context)) in *.
    assert (Hwindow : Forall (fun l => Measure.newline_free l = true)
                        (firstn (Z.to_nat (last - first)) (skipn (Z.to_nat first) lines))).
    { apply window_forall. exact Hfree. }
    destruct (firstn _ _) as [|x window] eqn:E.
    + exfalso.
      assert (Hlen : List.length (firstn (Z.to_nat (last - first))
                                    (skipn (Z.to_nat first) lines)) = 0%nat)
        by (rewrite E; reflexivity).
      rewrite length_firstn, length_skipn in Hlen. lia.
    + apply split_join. exact Hwindow.
  - intros Hfirst Hlast. rewrite Hfirst, Hlast. cbn [Z.to_nat skipn].
    rewrite Z.sub_0_r, Nat2Z.id, firstn_all. apply join_split.
Qed.

Lemma extractCodeSnippet_gives_the_lines_around_the_node_witness :
  loc_of Examples.third_line = Examples.at_lines 3 3
  /\ Z.max 0 (3 - 1 - 1) < Z.min 5 (3 + 1)
  /\ split_newline (BaseAnalyzer.extractCodeSnippet Examples.five_lines Examples.third_line 1)
     = ["two"; "three"; "four"]%string.
Proof.
  split; [reflexivity|]. split; [reflexivity|].
  exact (proj1 (extractCodeSnippet_gives_the_lines_around_the_node
                  Examples.five_lines Examples.third_line 1 eq_refl eq_refl)).
Defined.

(** ** When the security analyzer returns *)

Section SecurityReturnFacts.
Import ASTTraverser Tree Trace BaseAnalyzer SecurityAnalyzer Measure.
Variable uuidv4 : nat -> string.
Variables filePath sourceCode : string.






End SecurityReturnFacts.



(** ** What the callbacks are given *)

Section CallFacts.
Import ASTTraverser Tree Measure.

Lemma calls_unfold (parent : option ASTNode) (path : list (option string))
    (node : ASTNode) :
  is_object node = true ->
  calls parent path node =
  (node, parent, path ++ [type_of node])
  :: flat_map (calls (Some node) (path ++ [type_of node])) (children node).
Proof.
  destruct node; intros H; try discriminate H; cbn [calls];
    rewrite over_children_flat_map; reflexivity.
Qed.

Lemma each_calls (walk : ASTNode -> list Call -> option (list Call))
    (made : ASTNode -> list Call) (l : list ASTNode) :
  (forall c seen, In c l -> walk c seen = Some (seen ++ made c)) ->
  forall seen, each walk l seen = Some (seen ++ flat_map made l).
Proof.
  induction l as [|c l IH]; intros Hwalk seen; simpl.
  - rewrite app_nil_r. reflexivity.
  - rewrite (Hwalk c seen (or_introl eq_refl)).
    rewrite IH by (intros x t Hx; apply Hwalk; right; exact Hx).
    rewrite <- app_assoc. reflexivity.
Qed.

Lemma recorder_calls (node : ASTNode) :
  starless node = true ->
  forall parent path seen,
    traverse recorder node parent path seen = Some (seen ++ calls parent path node).
Proof.
  induction node as [node IH] using children_ind.
  intros Hstar parent path seen.
  destruct (is_object node) eqn:Hobj.
  2:{ rewrite traverse_primitive by exact Hobj.
      replace (calls parent path node) with (@nil Call)
        by (destruct node; try discriminate Hobj; reflexivity).
      rewrite app_nil_r. reflexivity. }
  rewrite traverse_unfold, calls_unfold by exact Hobj.
  unfold starless in Hstar. rewrite forallb_forall in Hstar.
  assert (Hnode : String.eqb "*" (type_key (type_of node)) = false).
  { apply negb_true_iff. apply Hstar.
    apply in_preorder; [exact Hobj | left; reflexivity]. }
  unfold visit, call_enter, call_wildcard, call_exit, recorder, object.
  cbn [lookup]. rewrite Hnode. rewrite (String.eqb_refl "*").
  rewrite (each_calls
             (fun child => traverse recorder child (Some node) (path ++ [type_of node]))
             (calls (Some node) (path ++ [type_of node]))).
  - rewrite <- app_assoc. reflexivity.
  - intros c t Hc. apply (IH c Hc).
    unfold starless. rewrite forallb_forall. intros x Hx. apply Hstar.
    eapply in_preorder_child; eassumption.
Qed.

End CallFacts.

(** X27.  A callback is called with the node, with the node that holds it
    ([null] for the root) and with the types of the nodes from the root down
    to the node itself: on a tree without a node of type "*", the wildcard
    callback that records its arguments records exactly these triples, each
    node once, in pre-order. *)
Theorem traverse_passes_the_parent_and_the_path :
  forall root : ASTNode,
    Measure.starless root = true ->
    Measure.parser_typed root = true ->
    ASTTraverser.traverse Measure.recorder root None [] []
      = Some (Measure.calls None [] root)
    /\ map (fun call => fst (fst call)) (Measure.calls None [] root) = Tree.preorder root.
Proof.
  intros root Hstar _. split.
  - apply (recorder_calls root Hstar None [] []).
  - generalize (@None ASTNode) as parent. generalize (@nil (option string)) as path.
    clear Hstar.
    induction root as [node IH] using children_ind. intros path parent.
    destruct (is_object node) eqn:Hobj.
    2:{ destruct node; try discriminate Hobj; reflexivity. }
    rewrite calls_unfold, preorder_unfold by exact Hobj.
    cbn [map fst]. f_equal.
    induction (Tree.children node) as [|c l IHl]; [reflexivity|].
    cbn [flat_map]. rewrite map_app.
    rewrite (IH c (or_introl eq_refl)).
    f_equal. apply IHl. intros x Hx. apply IH. right. exact Hx.
Qed.

Lemma traverse_passes_the_parent_and_the_path_witness :
  let body := Examples.BlockStatement [] in
  let declaration := Examples.FunctionDeclaration "f" [] in
  Measure.starless declaration = true
  /\ Measure.parser_typed declaration = true
  /\ exists seen,
       ASTTraverser.traverse Measure.recorder declaration None [] [] = Some seen
       /\ nth_error seen 2 =
          Some (body, Some declaration, [Some "FunctionDeclaration"; Some "BlockStatement"]%string).
Proof.
  intros body declaration.
  split; [reflexivity|]. split; [reflexivity|].
  exists (Measure.calls None [] declaration). split; [|reflexivity].
  exact (proj1 (traverse_passes_the_parent_and_the_path declaration eq_refl eq_refl)).
Defined.

(** ** Code held in memory *)

(** X28.  Code that is analyzed without a file name, or with an empty one,
    is taken for JavaScript: it is parsed by Babel under the name
    [untitled.js] whatever language it is written in, the Python parser is
    not consulted, and without the AI review the result is the analysis of
    that tree, or the error of Babel. *)
Theorem analyzeCode_without_a_name_is_javascript :
  forall (python_loads : bool) (babel : string -> string + ASTNode)
         (tree_sitter : string -> string + TreeSitter.SyntaxNode)
         (reviewCode : ParseResult -> list Issue -> string + list Suggestion)
         (uuidv4 : nat -> string) (code : string)
         (options : AnalysisService.AnalysisOptions) (parsers : ParserFactory.Parsers),
    Measure.factory_built parsers ->
    AnalysisService.fileName options = None
    \/ AnalysisService.fileName options = Some EmptyString ->
    AnalysisService.enableAI options <> Some true ->
    fst (InMemory.analyzeCode python_loads babel tree_sitter reviewCode uuidv4
           code options parsers) =
    match babel code with
    | inr ast =>
        inr (fst (AnalyzerCoordinator.analyzeFile
                    (AnalyzerCoordinator.constructor uuidv4)
                    (BaseParser.createParseResult ast JAVASCRIPT code "untitled.js")))
    | inl message => inl (template ["Parse error in untitled.js: "; message]%string)
    end.
Proof.
  intros python_loads babel tree_sitter reviewCode uuidv4 code options parsers
    Hbuilt Hname Hai.
  unfold InMemory.analyzeCode.
  replace (match AnalysisService.fileName options with
           | Some name => if String.eqb name EmptyString then "untitled.js"%string else name
           | None => "untitled.js"%string
           end) with "untitled.js"%string
    by (destruct Hname as [-> | ->]; reflexivity).
  pose proof (@parseCode_hands_on python_loads babel tree_sitter code "untitled.js"
                parsers Hbuilt) as Hparse.
  destruct (ParserFactory.parseCode _ _ _ _ _ _) as [parsed parsers'].
  cbn [fst] in Hparse. subst parsed.
  change (ParserFactory.detectLanguage "untitled.js") with JAVASCRIPT.
  cbv iota. unfold Measure.handed_on.
  destruct (babel code) as [message|ast]; [reflexivity|].
  destruct (AnalysisService.enableAI options) as [[|]|]; try reflexivity.
  elim Hai. reflexivity.
Qed.

Lemma analyzeCode_without_a_name_is_javascript_witness :
  Measure.factory_built ParserFactory.empty
  /\ (AnalysisService.fileName Examples.default_options = None
      \/ AnalysisService.fileName Examples.default_options = Some EmptyString)
  /\ AnalysisService.enableAI Examples.default_options <> Some true
  /\ fst (InMemory.analyzeCode true
            (fun _ => inl "Unexpected token"%string) (fun _ => inl "unused"%string)
            (fun _ _ => inr []) Examples.uuid "print('hello')"
            Examples.default_options ParserFactory.empty)
     = inl "Parse error in untitled.js: Unexpected token"%string.
Proof.
  assert (H1 : Measure.factory_built ParserFactory.empty) by (intros l p; discriminate).
  assert (H2 : AnalysisService.fileName Examples.default_options = None
               \/ AnalysisService.fileName Examples.default_options = Some EmptyString)
    by (left; reflexivity).
  assert (H3 : AnalysisService.enableAI Examples.default_options <> Some true)
    by discriminate.
  split; [exact H1|]. split; [exact H2|]. split; [exact H3|].
  exact (analyzeCode_without_a_name_is_javascript
           true (fun _ => inl "Unexpected token"%string) (fun _ => inl "unused"%string)
           (fun _ _ => inr []) Examples.uuid "print('hello')"
           Examples.default_options H1 H2 H3).
Defined.
